(** * scikit-lego: grouped utilities and pandas column transformers

    A shallow embedding of

    - [sklego/meta/_grouped_utils.py]
      ([_split_groups_and_values], [_data_format_checks],
      [_check_grouping_columns]), and
    - [sklego/preprocessing/pandastransformers.py]
      ([ColumnDropper], [PandasTypeSelector], [ColumnSelector]),

    together with the small part of pandas, numpy, scikit-learn and narwhals
    that these functions call.  Python exceptions are values of [exn];
    a call either returns ([Ok]) or raises ([Raise]).  Methods that assign to
    [self] are functions from the instance to an outcome and the instance
    after the call. *)

From Stdlib Require Import String ZArith QArith Qabs Bool Arith Lia List Permutation.
Import ListNotations.
Local Open Scope string_scope.
Local Open Scope list_scope.
Local Open Scope nat_scope.

(** ** Python values *)

(** A column label, a group reference or a row label: a string or an
    integer. *)
Inductive key : Type :=
| KStr (s : string)
| KInt (z : Z).

Definition key_eqb (a b : key) : bool :=
  match a, b with
  | KStr s, KStr t => String.eqb s t
  | KInt x, KInt y => Z.eqb x y
  | _, _ => false
  end.

Definition mem (k : key) (l : list key) : bool := existsb (key_eqb k) l.

(** The storage types of a column or an array that the model tells apart.
    [int64], [float64] and [complex128] are numpy's number types;
    [bool_] and [object_] are not. *)
Inductive dtype : Type := int64 | float64 | complex128 | bool_ | object_.

Definition dtype_eqb (a b : dtype) : bool :=
  match a, b with
  | int64, int64 | float64, float64 | complex128, complex128
  | bool_, bool_ | object_, object_ => true
  | _, _ => false
  end.

(** [np.issubdtype(d, np.number)] *)
Definition is_number (d : dtype) : bool :=
  match d with
  | int64 | float64 | complex128 => true
  | bool_ | object_ => false
  end.

(** [d.kind == "c"] *)
Definition kind_is_complex (d : dtype) : bool :=
  match d with complex128 => true | _ => false end.

(** One entry of a table or array.  Finite numbers carry a rational
    payload; rounding is not modelled. *)
Inductive cell : Type :=
| Num (q : Q)
| NaN
| Inf (negative : bool)
| Cplx (re im : Q)
| Str (s : string)
| Bool (b : bool)
| NoneV.

(** [pd.isnull] on one entry *)
Definition isnull (c : cell) : bool :=
  match c with
  | NaN | NoneV => true
  | _ => false
  end.

Definition is_nan (c : cell) : bool :=
  match c with NaN => true | _ => false end.

Definition is_inf (c : cell) : bool :=
  match c with Inf _ => true | _ => false end.

Definition is_cplx (c : cell) : bool :=
  match c with Cplx _ _ => true | _ => false end.

(** ** Tables and arrays *)

(** A labelled column. *)
Record Series : Type := mkSeries {
  s_name : key;
  s_dtype : dtype;
  s_values : list cell
}.

(** A [pd.DataFrame]: row labels and labelled columns, in order. *)
Record DataFrame : Type := mkDataFrame {
  index : list key;
  columns : list Series
}.

(** A two-dimensional [np.ndarray], stored by columns; its shape is
    [(a_nrows, length a_cols)]. *)
Record ndarray : Type := mkArray {
  a_dtype : dtype;
  a_nrows : nat;
  a_cols : list (list cell)
}.

(** What a caller may pass as [X]: a pandas DataFrame, a numpy array, or a
    scipy sparse matrix (given by its dense content). *)
Inductive input : Type :=
| PdDataFrame (df : DataFrame)
| NpArray (a : ndarray)
| SpMatrix (a : ndarray).

Definition names (df : DataFrame) : list key := map s_name (columns df).

Definition df_nrows (df : DataFrame) : nat := length (index df).
Definition df_ncols (df : DataFrame) : nat := length (columns df).
Definition a_ncols (a : ndarray) : nat := length (a_cols a).

(** [X.shape[0]] and [X.shape[1]] *)
Definition nrows (X : input) : nat :=
  match X with
  | PdDataFrame df => df_nrows df
  | NpArray a | SpMatrix a => a_nrows a
  end.

Definition ncols (X : input) : nat :=
  match X with
  | PdDataFrame df => df_ncols df
  | NpArray a | SpMatrix a => a_ncols a
  end.

(** [pd.RangeIndex(n)] *)
Definition RangeIndex (n : nat) : list key :=
  map (fun i => KInt (Z.of_nat i)) (seq 0 n).

(** ** Exceptions and outcomes *)

Inductive message : Type :=
| ComplexDataNotSupported
| SparseNotSupported (name : string)
| SparsePassedDenseRequired
| CouldNotDropGroups (groups : list key)
| XHasNaNValues
| InputContainsNaN
| InputContainsInfinity
| CouldNotConvertToFloat
| MinSamples (found required : nat)
| MinFeatures (found required : nat)
| NotInDataFrame (missing : list key)
| EmptyOutput (dropped : list key)
| ExpectedColumnsLength
| EmptyTypeSelection
| DtypesNotEqual
| ColumnsNotEqual
| IdenticallyLabeled
| SelectDtypesEmpty
| SelectDtypesOverlap
| NotPandasDataFrame
| NotSupportedDataFrame
| NotFitted
| NoAttribute (attr : string)
| AtLeastOneDtypeRequired
| DuplicateColumnNames
| InvalidIntoExpr
| IntTooLargeForFloat
| BadIndex.

Inductive exn : Type :=
| ValueError (m : message)
| TypeError (m : message)
| KeyError (m : message)
| IndexError (m : message)
| AttributeError (m : message)
| NotFittedError (m : message)
| OverflowError (m : message).

Inductive result (A : Type) : Type :=
| Ok (a : A)
| Raise (e : exn).
Arguments Ok {A} a.
Arguments Raise {A} e.

Definition bind {A B} (r : result A) (f : A -> result B) : result B :=
  match r with
  | Ok a => f a
  | Raise e => Raise e
  end.

Notation "x <- c ;; k" := (bind c (fun x => k))
  (at level 61, c at next level, right associativity).
Notation "c ;;; k" := (bind c (fun _ => k))
  (at level 61, right associativity).

Definition is_ok {A} (r : result A) : bool :=
  match r with Ok _ => true | Raise _ => false end.

Fixpoint mapM {A B} (f : A -> result B) (l : list A) : result (list B) :=
  match l with
  | [] => Ok []
  | x :: xs => y <- f x ;; ys <- mapM f xs ;; Ok (y :: ys)
  end.


(** ** pandas *)

(** [df.dtypes]: the dtype of every column, labelled by the column. *)
Definition dtypes (df : DataFrame) : list (key * dtype) :=
  map (fun s => (s_name s, s_dtype s)) (columns df).

(** The columns labelled [g], in table order. *)
Definition labelled (g : key) (cols : list Series) : list Series :=
  filter (fun s => key_eqb (s_name s) g) cols.

(** [df.loc[:, groups]] for a list of labels: the columns in the order of
    the list; a label that no column carries raises [KeyError]. *)
Fixpoint loc_columns (cols : list Series) (groups : list key)
  : result (list Series) :=
  match groups with
  | [] => Ok []
  | g :: gs =>
      match labelled g cols with
      | [] => Raise (KeyError (NotInDataFrame [g]))
      | hit => rest <- loc_columns cols gs ;; Ok (hit ++ rest)
      end
  end.

Definition loc (df : DataFrame) (groups : list key) : result DataFrame :=
  cs <- loc_columns (columns df) groups ;;
  Ok (mkDataFrame (index df) cs).

(** [df.drop(columns=groups)]: every label must exist, else [KeyError];
    all columns carrying one of the labels go. *)
Definition drop (df : DataFrame) (groups : list key) : result DataFrame :=
  match filter (fun g => negb (mem g (names df))) groups with
  | [] =>
      Ok (mkDataFrame (index df)
            (filter (fun s => negb (mem (s_name s) groups)) (columns df)))
  | missing => Raise (KeyError (NotInDataFrame missing))
  end.

(** pandas' [find_common_type] of two dtypes: booleans do not mix with
    numbers (the result is [object_]). *)
Definition common2 (a b : dtype) : dtype :=
  match a, b with
  | object_, _ | _, object_ => object_
  | bool_, bool_ => bool_
  | bool_, _ | _, bool_ => object_
  | complex128, _ | _, complex128 => complex128
  | float64, _ | _, float64 => float64
  | int64, int64 => int64
  end.

(** The dtype of [df.values]; a table without columns gives [float64]. *)
Definition find_common_type (ds : list dtype) : dtype :=
  match ds with
  | [] => float64
  | d :: rest => fold_left common2 rest d
  end.

(** [np.result_type] of two dtypes: booleans are promoted to numbers. *)
Definition promote2 (a b : dtype) : dtype :=
  match a, b with
  | object_, _ | _, object_ => object_
  | complex128, _ | _, complex128 => complex128
  | float64, _ | _, float64 => float64
  | int64, _ | _, int64 => int64
  | bool_, bool_ => bool_
  end.

(** Storing an entry in an array of dtype [d]. *)
Definition cast_cell (d : dtype) (c : cell) : cell :=
  match d, c with
  | complex128, Num q => Cplx q 0
  | complex128, Bool b => Cplx (if b then 1 else 0) 0
  | int64, Bool b | float64, Bool b => Num (if b then 1 else 0)
  | _, _ => c
  end.

Definition as_dtype (d : dtype) (df : DataFrame) : ndarray :=
  mkArray d (df_nrows df)
    (map (fun s => map (cast_cell d) (s_values s)) (columns df)).

(** [df.values] *)
Definition values (df : DataFrame) : ndarray :=
  as_dtype (find_common_type (map s_dtype (columns df))) df.

(** Labels [start], [start+1], ... for the given columns. *)
Fixpoint enumerate (d : dtype) (start : nat) (cols : list (list cell))
  : list Series :=
  match cols with
  | [] => []
  | c :: cs => mkSeries (KInt (Z.of_nat start)) d c :: enumerate d (S start) cs
  end.

(** [pd.DataFrame(a)] for a two-dimensional array: a fresh range index and
    integer column labels. *)
Definition DataFrame_of_array (a : ndarray) : DataFrame :=
  mkDataFrame (RangeIndex (a_nrows a)) (enumerate (a_dtype a) 0 (a_cols a)).

(** [df.select_dtypes(include="number")] and
    [df.select_dtypes(exclude="number")] *)
Definition select_number (df : DataFrame) : DataFrame :=
  mkDataFrame (index df) (filter (fun s => is_number (s_dtype s)) (columns df)).

Definition select_non_number (df : DataFrame) : DataFrame :=
  mkDataFrame (index df)
    (filter (fun s => negb (is_number (s_dtype s))) (columns df)).

(** [df.isnull().any(axis=None)] *)
Definition isnull_any (df : DataFrame) : bool :=
  existsb (fun s => existsb isnull (s_values s)) (columns df).

(** [df.reset_index(drop=True)] *)
Definition reset_index (df : DataFrame) : DataFrame :=
  mkDataFrame (RangeIndex (df_nrows df)) (columns df).

(** ** numpy *)

(** A position [g] into an axis of length [n], negative positions counting
    from the end; [None] when out of range. *)
Definition position (n : nat) (z : Z) : option nat :=
  if ((0 <=? z) && (z <? Z.of_nat n))%Z then Some (Z.to_nat z)
  else if ((- Z.of_nat n <=? z) && (z <? 0))%Z
       then Some (Z.to_nat (z + Z.of_nat n))
       else None.

(** [a[:, groups]] for a list: integer positions only. *)
Fixpoint take_columns (a : ndarray) (groups : list key)
  : result (list (list cell)) :=
  match groups with
  | [] => Ok []
  | KInt z :: gs =>
      match position (a_ncols a) z with
      | Some i => rest <- take_columns a gs ;; Ok (nth i (a_cols a) [] :: rest)
      | None => Raise (IndexError BadIndex)
      end
  | KStr _ :: _ => Raise (IndexError BadIndex)
  end.

(** [range(n)[g]] *)
Definition range_getitem (n : nat) (g : key) : result nat :=
  match g with
  | KInt z =>
      match position n z with
      | Some i => Ok i
      | None => Raise (IndexError BadIndex)
      end
  | KStr _ => Raise (TypeError BadIndex)
  end.

(** The columns whose position is not listed. *)
Fixpoint delete_at (pos : list nat) (i : nat) (cols : list (list cell))
  : list (list cell) :=
  match cols with
  | [] => []
  | c :: cs =>
      if existsb (Nat.eqb i) pos then delete_at pos (S i) cs
      else c :: delete_at pos (S i) cs
  end.

(** [np.delete(a, pos, axis=1)] for positions already in range. *)
Definition np_delete (a : ndarray) (pos : list nat) : ndarray :=
  mkArray (a_dtype a) (a_nrows a) (delete_at pos 0 (a_cols a)).

(** ** scikit-learn's validation *)

(** The options of [check_array] that the model follows. *)
Inductive dtype_option : Type := dtype_numeric | dtype_None.
Inductive finite_option : Type := finite_True | finite_False | finite_allow_nan.

Record check_options : Type := mkOptions {
  opt_dtype : dtype_option;
  force_all_finite : finite_option;
  ensure_min_samples : nat;
  ensure_min_features : nat
}.

(** [check_array]'s defaults, which [**kwargs] overrides. *)
Definition default_options : check_options :=
  mkOptions dtype_numeric finite_True 1 1.

(** [_ensure_no_complex_data]: it looks at [array.dtype.kind] only, so an
    object without a [dtype] attribute, as a DataFrame is, passes. *)
Definition _ensure_no_complex_data (X : input) : result unit :=
  match X with
  | PdDataFrame _ => Ok tt
  | NpArray a | SpMatrix a =>
      if kind_is_complex (a_dtype a)
      then Raise (ValueError ComplexDataNotSupported)
      else Ok tt
  end.

(** [scipy.sparse.issparse] *)
Definition issparse (X : input) : bool :=
  match X with SpMatrix _ => true | _ => false end.

(** [_assert_all_finite]: object arrays are scanned for NaN only, float
    arrays for NaN and infinity, other arrays not at all. *)
Definition _assert_all_finite (a : ndarray) (allow_nan : bool) : result unit :=
  let has p := existsb (existsb p) (a_cols a) in
  match a_dtype a with
  | object_ =>
      if negb allow_nan && has is_nan
      then Raise (ValueError InputContainsNaN) else Ok tt
  | float64 | complex128 =>
      if negb allow_nan && has is_nan
      then Raise (ValueError InputContainsNaN)
      else if has is_inf
           then Raise (ValueError InputContainsInfinity) else Ok tt
  | int64 | bool_ => Ok tt
  end.

(** The least magnitude that rounds to no finite float64,
    [2^1024 - 2^970]. *)
Definition float_overflow_bound : Z := (2 ^ 1024 - 2 ^ 970)%Z.

Definition beyond_float_range (q : Q) : bool :=
  Qle_bool (inject_Z float_overflow_bound) (Qabs q).

Section GroupedUtils.

(** Python's [float(s)] on a string, [None] when it raises. *)
Variable float_of_str : string -> option cell.

(** [float(c)] on one entry of an object array.  A number of an object
    array may be a Python integer of any size, and one that rounds to no
    finite float raises [OverflowError]. *)
Definition to_float (c : cell) : result cell :=
  match c with
  | Num q =>
      if beyond_float_range q then Raise (OverflowError IntTooLargeForFloat)
      else Ok c
  | NaN | Inf _ => Ok c
  | NoneV => Ok NaN
  | Bool b => Ok (Num (if b then 1 else 0))
  | Str s =>
      match float_of_str s with
      | Some v => Ok v
      | None => Raise (ValueError CouldNotConvertToFloat)
      end
  | Cplx _ _ => Raise (TypeError CouldNotConvertToFloat)
  end.

(** [a.astype(np.float64)] on an object array *)
Definition astype_float (a : ndarray) : result ndarray :=
  cols <- mapM (mapM to_float) (a_cols a) ;;
  Ok (mkArray float64 (a_nrows a) cols).

(** The array that [check_array] validates: a sparse matrix is refused
    ([accept_sparse=False]); a DataFrame is converted to the
    [np.result_type] of its columns' dtypes, which needs one column at
    least; an array is taken as it is. *)
Definition to_dense (X : input) : result ndarray :=
  match X with
  | SpMatrix _ => Raise (TypeError SparsePassedDenseRequired)
  | NpArray a => Ok a
  | PdDataFrame df =>
      match map s_dtype (columns df) with
      | [] => Raise (ValueError AtLeastOneDtypeRequired)
      | d :: ds => Ok (as_dtype (fold_left promote2 ds d) df)
      end
  end.

(** [sklearn.utils.check_array(X, **options)] *)
Definition check_array (X : input) (o : check_options) : result ndarray :=
  a <- to_dense X ;;
  a <- match opt_dtype o, a_dtype a with
       | dtype_numeric, object_ => astype_float a
       | _, _ => Ok a
       end ;;
  _ensure_no_complex_data (NpArray a) ;;;
  match force_all_finite o with
  | finite_True => _assert_all_finite a false
  | finite_allow_nan => _assert_all_finite a true
  | finite_False => Ok tt
  end ;;;
  (if (a_nrows a <? ensure_min_samples o)
   then Raise (ValueError (MinSamples (a_nrows a) (ensure_min_samples o)))
   else Ok tt) ;;;
  (if (a_ncols a <? ensure_min_features o)
   then Raise (ValueError (MinFeatures (a_ncols a) (ensure_min_features o)))
   else Ok tt) ;;;
  Ok a.

(** ** sklego/meta/_grouped_utils.py *)

Definition _data_format_checks (X : input) (name : string) : result unit :=
  _ensure_no_complex_data X ;;;
  if issparse X
  then Raise (ValueError (SparseNotSupported name))
  else Ok tt.

Definition _check_grouping_columns (X_group : DataFrame) (kwargs : check_options)
  : result DataFrame :=
  let X_group_num := select_number X_group in
  (if (0 <? df_ncols X_group_num)
   then check_array (PdDataFrame X_group_num) kwargs ;;; Ok tt
   else Ok tt) ;;;
  if isnull_any (select_non_number X_group)
  then Raise (ValueError XHasNaNValues)
  else Ok (reset_index X_group).

(** The body of the [try] block: the group part and the value part. *)
Definition partition (X : input) (groups : list key)
  : result (DataFrame * ndarray) :=
  match X with
  | PdDataFrame df =>
      X_group <- loc df groups ;;
      rest <- drop df groups ;;
      Ok (X_group, values rest)
  | NpArray a =>
      cols <- take_columns a groups ;;
      let X_group := DataFrame_of_array (mkArray (a_dtype a) (a_nrows a) cols) in
      pos <- mapM (range_getitem (a_ncols a)) groups ;;
      Ok (X_group, np_delete a pos)
  | SpMatrix _ => Raise (IndexError BadIndex)
  end.

(** [except (KeyError, IndexError): raise ValueError(...)] *)
Definition except_KeyError_IndexError {A} (r : result A) (groups : list key)
  : result A :=
  match r with
  | Raise (KeyError _) | Raise (IndexError _) =>
      Raise (ValueError (CouldNotDropGroups groups))
  | other => other
  end.

(** The first call of [check_array], on the whole of [X]:
    [ensure_min_features=min_value_cols, dtype=None, force_all_finite=False]. *)
Definition initial_validation (X : input) (min_value_cols : nat)
  : result ndarray :=
  check_array X (mkOptions dtype_None finite_False 1 min_value_cols).

Definition _split_groups_and_values (X : input) (groups : list key)
    (name : string) (min_value_cols : nat) (check_X : bool)
    (kwargs : check_options) : result (DataFrame * ndarray) :=
  _data_format_checks X name ;;;
  initial_validation X min_value_cols ;;;
  gv <- except_KeyError_IndexError (partition X groups) groups ;;
  let '(X_group, X_value) := gv in
  X_group <- _check_grouping_columns X_group kwargs ;;
  X_value <- (if check_X then check_array (NpArray X_value) kwargs
              else Ok X_value) ;;
  Ok (X_group, X_value).

End GroupedUtils.

(** ** Instances with attributes *)

(** A method: from the instance before the call to the outcome and the
    instance after it. *)
Definition method (S A : Type) : Type := S -> result A * S.

Definition ret {S A} (a : A) : method S A := fun s => (Ok a, s).

Definition raise {S A} (e : exn) : method S A := fun s => (Raise e, s).

Definition lift {S A} (r : result A) : method S A := fun s => (r, s).

Definition bindM {S A B} (m : method S A) (k : A -> method S B) : method S B :=
  fun s =>
    match m s with
    | (Ok a, s') => k a s'
    | (Raise e, s') => (Raise e, s')
    end.

Notation "x <~ c ;; k" := (bindM c (fun x => k))
  (at level 61, c at next level, right associativity).
Notation "c ;;~ k" := (bindM c (fun _ => k))
  (at level 61, right associativity).

(** Reading [self]. *)
Definition self {S} : method S S := fun s => (Ok s, s).

(** An assignment to an attribute of [self]. *)
Definition assign {S} (f : S -> S) : method S unit := fun s => (Ok tt, f s).

(** Reading an attribute that may not be there yet. *)
Definition getattr {S A} (read : S -> option A) (attr : string) : method S A :=
  fun s =>
    match read s with
    | Some a => (Ok a, s)
    | None => (Raise (AttributeError (NoAttribute attr)), s)
    end.

Definition hasattr {A} (o : option A) : bool :=
  match o with Some _ => true | None => false end.

(** [sklearn.utils.validation.check_is_fitted(self, attributes)]: every
    listed attribute has to exist. *)
Definition check_is_fitted {S} (attributes : list (S -> bool)) : method S unit :=
  fun s =>
    if forallb (fun has => has s) attributes then (Ok tt, s)
    else (Raise (NotFittedError NotFitted), s).

(** The outcome of a call and the instance it leaves. *)
Definition outcome {S A} (r : result A * S) : result A := fst r.
Definition after {S A} (r : result A * S) : S := snd r.

(** ** narwhals *)

(** Whether some element of the list occurs in it again. *)
Fixpoint has_duplicates (l : list key) : bool :=
  match l with
  | [] => false
  | x :: xs => mem x xs || has_duplicates xs
  end.

(** [nw.from_native(X)]: a supported dataframe, else [TypeError]; a
    dataframe with a column label that occurs twice is refused with
    narwhals' duplicate error, a [ValueError]. *)
Definition from_native (X : input) : result DataFrame :=
  match X with
  | PdDataFrame df =>
      if has_duplicates (names df)
      then Raise (ValueError DuplicateColumnNames)
      else Ok df
  | NpArray _ | SpMatrix _ => Raise (TypeError NotSupportedDataFrame)
  end.

Definition to_native (df : DataFrame) : input := PdDataFrame df.

(** A column name as narwhals takes it: a string. *)
Definition is_name (k : key) : bool :=
  match k with KStr _ => true | KInt _ => false end.

(** [X.select(names)] and [X.drop(names)] on a pandas-backed frame.
    [select] takes strings for column names and refuses anything else as no
    expression, a [TypeError], before it looks at the table; a name that is
    not there is the table library's own failure. *)
Definition nw_select (df : DataFrame) (cols : list key) : result DataFrame :=
  if forallb is_name cols then loc df cols
  else Raise (TypeError InvalidIntoExpr).

Definition nw_drop (df : DataFrame) (cols : list key) : result DataFrame :=
  drop df cols.

(** ** sklego/preprocessing/pandastransformers.py *)

(** The [columns] parameter: [str | list[str]]. *)
Inductive column_spec : Type :=
| Single (k : key)
| Many (l : list key).

(** Modelled from the spec: [sklego.common.as_list], which is not among the
    sources; the spec has the column specification normalised to a list. *)
Definition as_list (c : column_spec) : list key :=
  match c with
  | Single k => [k]
  | Many l => l
  end.

(** Python's truth value of the parameter. *)
Definition truthy (c : column_spec) : bool :=
  match c with
  | Single (KStr s) => negb (String.eqb s "")
  | Single (KInt z) => negb (Z.eqb z 0)
  | Many [] => false
  | Many (_ :: _) => true
  end.

(** The elements of a list, each once, in order of first occurrence. *)
Fixpoint dedup (l : list key) : list key :=
  match l with
  | [] => []
  | x :: xs => x :: filter (fun y => negb (key_eqb y x)) (dedup xs)
  end.

(** [set(columns_).difference(X.columns)], listed in order of first
    occurrence. *)
Definition non_existent_columns (columns_ : list key) (X : DataFrame) : list key :=
  dedup (filter (fun c => negb (mem c (names X))) columns_).

Module ColumnDropper.

Record t : Type := mk {
  columns : column_spec;
  columns_ : option (list key);
  feature_names_ : option (list key)
}.

Definition __init__ (columns : column_spec) : t := mk columns None None.

Definition _check_column_length : method t unit :=
  names_ <~ getattr feature_names_ "feature_names_" ;;
  cols_ <~ getattr columns_ "columns_" ;;
  if (length names_ =? 0)%nat then raise (ValueError (EmptyOutput cols_))
  else ret tt.

Definition _check_column_names (X : DataFrame) : method t unit :=
  cols_ <~ getattr columns_ "columns_" ;;
  match non_existent_columns cols_ X with
  | [] => ret tt
  | missing => raise (KeyError (NotInDataFrame missing))
  end.

Definition fit (X : input) : method t unit :=
  assign (fun s => mk (columns s) (Some (as_list (columns s))) (feature_names_ s)) ;;~
  X <~ lift (from_native X) ;;
  _check_column_names X ;;~
  cols_ <~ getattr columns_ "columns_" ;;
  assign (fun s => mk (columns s) (columns_ s)
                     (Some (filter (fun x => negb (mem x cols_)) (names X)))) ;;~
  _check_column_length ;;~
  ret tt.

Definition transform (X : input) : method t input :=
  check_is_fitted [fun s => hasattr (feature_names_ s)] ;;~
  X <~ lift (from_native X) ;;
  cols_ <~ getattr columns_ "columns_" ;;
  match cols_ with
  | _ :: _ => dropped <~ lift (nw_drop X cols_) ;; ret (to_native dropped)
  | [] => ret (to_native X)
  end.

Definition get_feature_names : method t (list key) :=
  getattr feature_names_ "feature_names_".

End ColumnDropper.

(** A type given to [select_dtypes]: ["number"], or the name of one dtype. *)
Inductive type_spec : Type :=
| number
| exactly (d : dtype).

Definition type_spec_eqb (a b : type_spec) : bool :=
  match a, b with
  | number, number => true
  | exactly d, exactly e => dtype_eqb d e
  | _, _ => false
  end.

Definition matches (d : dtype) (t : type_spec) : bool :=
  match t with
  | number => is_number d
  | exactly e => dtype_eqb d e
  end.

(** Whether [select_dtypes(include, exclude)] keeps a column of dtype [d]. *)
Definition selected (include exclude : list type_spec) (d : dtype) : bool :=
  (match include with [] => true | _ => existsb (matches d) include end)
  && negb (existsb (matches d) exclude).

(** [df.select_dtypes(include=..., exclude=...)]; [None] is the empty
    list. *)
Definition select_dtypes (df : DataFrame) (include exclude : list type_spec)
  : result DataFrame :=
  match include, exclude with
  | [], [] => Raise (ValueError SelectDtypesEmpty)
  | _, _ =>
      if existsb (fun i => existsb (type_spec_eqb i) exclude) include
      then Raise (ValueError SelectDtypesOverlap)
      else Ok (mkDataFrame (index df)
                 (filter (fun s => selected include exclude (s_dtype s))
                    (columns df)))
  end.

(** [X.dtypes] and [X.select_dtypes] on whatever was passed: arrays have
    neither attribute. *)
Definition get_dtypes (X : input) : result (list (key * dtype)) :=
  match X with
  | PdDataFrame df => Ok (dtypes df)
  | NpArray _ | SpMatrix _ => Raise (AttributeError (NoAttribute "dtypes"))
  end.

Definition get_select_dtypes (X : input) (include exclude : list type_spec)
  : result DataFrame :=
  match X with
  | PdDataFrame df => select_dtypes df include exclude
  | NpArray _ | SpMatrix _ =>
      Raise (AttributeError (NoAttribute "select_dtypes"))
  end.

Fixpoint keys_eqb (a b : list key) : bool :=
  match a, b with
  | [], [] => true
  | x :: xs, y :: ys => key_eqb x y && keys_eqb xs ys
  | _, _ => false
  end.

(** Whether the two entries of a pair of labelled dtypes differ. *)
Definition differs (p : (key * dtype) * (key * dtype)) : bool :=
  negb (dtype_eqb (snd (fst p)) (snd (snd p))).

(** [a != b] on two Series of dtypes: they have to carry the same labels in
    the same order, and are then compared entry by entry. *)
Definition series_ne (a b : list (key * dtype)) : result (list bool) :=
  if keys_eqb (map fst a) (map fst b)
  then Ok (map differs (combine a b))
  else Raise (ValueError IdenticallyLabeled).

(** [.any()] *)
Definition any (l : list bool) : bool := existsb (fun b => b) l.

(** [try: ... except ValueError as e: raise ValueError(...) from e] *)
Definition except_ValueError {A} (r : result A) (m : message) : result A :=
  match r with
  | Raise (ValueError _) => Raise (ValueError m)
  | other => other
  end.

Module PandasTypeSelector.

Record t : Type := mk {
  include : list type_spec;
  exclude : list type_spec;
  X_dtypes_ : option (list (key * dtype));
  feature_names_ : option (list key)
}.

Definition __init__ (include exclude : list type_spec) : t :=
  mk include exclude None None.

Definition _check_X_for_type (X : input) : result unit :=
  match X with
  | PdDataFrame _ => Ok tt
  | NpArray _ | SpMatrix _ => Raise (TypeError NotPandasDataFrame)
  end.

Definition fit (X : input) : method t unit :=
  lift (_check_X_for_type X) ;;~
  dt <~ lift (get_dtypes X) ;;
  assign (fun s => mk (include s) (exclude s) (Some dt) (feature_names_ s)) ;;~
  s <~ self ;;
  kept <~ lift (get_select_dtypes X (include s) (exclude s)) ;;
  assign (fun s => mk (include s) (exclude s) (X_dtypes_ s) (Some (names kept))) ;;~
  names_ <~ getattr feature_names_ "feature_names_" ;;
  if (length names_ =? 0)%nat then raise (ValueError EmptyTypeSelection)
  else ret tt.

Definition get_feature_names : method t (list key) :=
  getattr feature_names_ "feature_names_".

Definition transform (X : input) : method t DataFrame :=
  check_is_fitted [fun s => hasattr (X_dtypes_ s);
                   fun s => hasattr (feature_names_ s)] ;;~
  fitted <~ getattr X_dtypes_ "X_dtypes_" ;;
  lift (except_ValueError
          (dt <- get_dtypes X ;;
           ne <- series_ne fitted dt ;;
           if any ne then Raise (ValueError DtypesNotEqual) else Ok tt)
          ColumnsNotEqual) ;;~
  lift (_check_X_for_type X) ;;~
  s <~ self ;;
  lift (get_select_dtypes X (include s) (exclude s)).

End PandasTypeSelector.

Module ColumnSelector.

Record t : Type := mk {
  columns : column_spec;
  columns_ : option (list key)
}.

Definition __init__ (columns : column_spec) : t := mk columns None.

Definition _check_column_length : method t unit :=
  cols_ <~ getattr columns_ "columns_" ;;
  if (length cols_ =? 0)%nat then raise (ValueError ExpectedColumnsLength)
  else ret tt.

Definition _check_column_names (X : DataFrame) : method t unit :=
  cols_ <~ getattr columns_ "columns_" ;;
  match non_existent_columns cols_ X with
  | [] => ret tt
  | missing => raise (KeyError (NotInDataFrame missing))
  end.

Definition fit (X : input) : method t unit :=
  assign (fun s => mk (columns s) (Some (as_list (columns s)))) ;;~
  X <~ lift (from_native X) ;;
  _check_column_names X ;;~
  _check_column_length ;;~
  ret tt.

Definition transform (X : input) : method t input :=
  X <~ lift (from_native X) ;;
  s <~ self ;;
  if truthy (columns s)
  then cols_ <~ getattr columns_ "columns_" ;;
       kept <~ lift (nw_select X cols_) ;;
       ret (to_native kept)
  else ret (to_native X).

Definition get_feature_names : method t (list key) :=
  getattr columns_ "columns_".

End ColumnSelector.

(** ** Notions used to state the properties *)

(** The dtype of the array that stands for [X] in the validation. *)
Definition array_dtype (X : input) : dtype :=
  match X with
  | PdDataFrame df =>
      match map s_dtype (columns df) with
      | [] => float64
      | d :: ds => fold_left promote2 ds d
      end
  | NpArray a | SpMatrix a => a_dtype a
  end.

(** [X] is stored with a complex dtype: an array or sparse matrix of
    complex dtype, or a table whose columns promote to one. *)
Definition complex_typed (X : input) : bool :=
  match X with
  | PdDataFrame df => (0 <? df_ncols df) && kind_is_complex (array_dtype X)
  | NpArray _ | SpMatrix _ => kind_is_complex (array_dtype X)
  end.

(** Some entry of [X] is a complex number. *)
Definition contains_complex (X : input) : bool :=
  match X with
  | PdDataFrame df => existsb (fun s => existsb is_cplx (s_values s)) (columns df)
  | NpArray a | SpMatrix a => existsb (existsb is_cplx) (a_cols a)
  end.

(** A column of the table that is not of a number dtype and holds a
    missing value. *)
Definition null_non_numeric (s : Series) : bool :=
  negb (is_number (s_dtype s)) && existsb isnull (s_values s).

(** The positions that a list of group references denotes in an axis of
    length [n] (references that denote none are skipped). *)
Fixpoint positions (n : nat) (groups : list key) : list nat :=
  match groups with
  | [] => []
  | KInt z :: gs =>
      match position n z with
      | Some i => i :: positions n gs
      | None => positions n gs
      end
  | KStr _ :: gs => positions n gs
  end.

(** Every column of the table has one entry per row. *)
Definition rectangular_table (df : DataFrame) : Prop :=
  Forall (fun s => length (s_values s) = df_nrows df) (columns df).

(** Every column of the array has one entry per row. *)
Definition rectangular_array (a : ndarray) : Prop :=
  Forall (fun c => length c = a_nrows a) (a_cols a).

Definition rectangular (X : input) : Prop :=
  match X with
  | PdDataFrame df => rectangular_table df
  | NpArray a | SpMatrix a => rectangular_array a
  end.

(** ** Example data *)

(** An instance of Python's [float] on strings for the examples below, none
    of which converts a string. *)
Definition float_of_no_str : string -> option cell := fun _ => None.

(** The table of the docstrings: name, length, shoesize. *)
Definition shoes : DataFrame :=
  mkDataFrame [KInt 0; KInt 1; KInt 2]
    [ mkSeries (KStr "name") object_ [Str "Swen"; Str "Victor"; Str "Alex"];
      mkSeries (KStr "length") float64 [Num (182 # 100); Num (185 # 100); Num (180 # 100)];
      mkSeries (KStr "shoesize") int64 [Num 42; Num 44; Num 45] ].

(** [np.array([[1., nan], [3., inf]])] *)
Definition two_by_two : ndarray :=
  mkArray float64 2 [ [Num 1; Num 3]; [NaN; Inf false] ].

(** [np.array([[1., 2., 3.], [4., 5., 6.]])] *)
Definition two_by_three : ndarray :=
  mkArray float64 2 [ [Num 1; Num 4]; [Num 2; Num 5]; [Num 3; Num 6] ].

(** A string group column and a complex value column. *)
Definition complex_values : DataFrame :=
  mkDataFrame [KInt 0; KInt 1]
    [ mkSeries (KStr "g") object_ [Str "a"; Str "b"];
      mkSeries (KStr "v") complex128 [Cplx 1 2; Cplx 3 4] ].

(** A complex sparse matrix. *)
Definition complex_sparse : ndarray :=
  mkArray complex128 1 [ [Cplx 0 1]; [Cplx 0 0] ].

(** A string group column with a missing entry, a fully populated integer
    group column, and a value column; row labels that are not a range. *)
Definition missing_group : DataFrame :=
  mkDataFrame [KInt 10; KInt 20]
    [ mkSeries (KStr "city") object_ [Str "a"; NoneV];
      mkSeries (KStr "year") int64 [Num 1; Num 2];
      mkSeries (KStr "v") float64 [Num 1; Num 2] ].

(** The same table with the city known in every row. *)
Definition full_group : DataFrame :=
  mkDataFrame [KInt 10; KInt 20]
    [ mkSeries (KStr "city") object_ [Str "a"; Str "b"];
      mkSeries (KStr "year") int64 [Num 1; Num 2];
      mkSeries (KStr "v") float64 [Num 1; Num 2] ].

(** A table with the single column ["a"]. *)
Definition only_a : DataFrame :=
  mkDataFrame [KInt 0] [ mkSeries (KStr "a") int64 [Num 1] ].

(** [shoes] with the shoe sizes stored as floats. *)
Definition shoes_float : DataFrame :=
  mkDataFrame [KInt 0; KInt 1; KInt 2]
    [ mkSeries (KStr "name") object_ [Str "Swen"; Str "Victor"; Str "Alex"];
      mkSeries (KStr "length") float64 [Num (182 # 100); Num (185 # 100); Num (180 # 100)];
      mkSeries (KStr "shoesize") float64 [Num 42; Num 44; Num 45] ].

(** * Facts *)

(** ** Keys, dtypes and lists *)

Lemma key_eqb_spec (a b : key) : reflect (a = b) (key_eqb a b).
Proof.
  destruct a as [s|x], b as [t|y]; simpl; try (constructor; discriminate).
  - destruct (String.eqb_spec s t); constructor; congruence.
  - destruct (Z.eqb_spec x y); constructor; congruence.
Qed.

Lemma key_eq_dec (a b : key) : {a = b} + {a <> b}.
Proof. destruct (key_eqb_spec a b); [left | right]; assumption. Defined.

Lemma key_eqb_refl (a : key) : key_eqb a a = true.
Proof. destruct (key_eqb_spec a a); congruence. Qed.

Lemma mem_In (k : key) (l : list key) : mem k l = true <-> In k l.
Proof.
  unfold mem. rewrite existsb_exists. split.
  - intros [x [Hin Heq]]. destruct (key_eqb_spec k x); congruence.
  - intros Hin. exists k. split; [assumption | apply key_eqb_refl].
Qed.

Lemma mem_false (k : key) (l : list key) : mem k l = false <-> ~ In k l.
Proof.
  rewrite <- mem_In. destruct (mem k l); split; intro H; congruence.
Qed.

Lemma dtype_eqb_spec (a b : dtype) : reflect (a = b) (dtype_eqb a b).
Proof. destruct a, b; simpl; constructor; congruence. Qed.

Lemma mapM_length {A B} (f : A -> result B) (l : list A) (r : list B) :
  mapM f l = Ok r -> length r = length l.
Proof.
  revert r. induction l as [|x xs IH]; intros r; simpl.
  - intros H. inversion H. reflexivity.
  - destruct (f x) as [y|e]; simpl; [|discriminate].
    destruct (mapM f xs) as [ys|e]; simpl; [|discriminate].
    intros H. inversion H. simpl. f_equal. apply IH. reflexivity.
Qed.

Lemma bind_Ok {A B} (r : result A) (k : A -> result B) (b : B) :
  bind r k = Ok b -> exists a, r = Ok a /\ k a = Ok b.
Proof.
  destruct r as [a|e]; simpl; intros H; [|discriminate].
  exists a. split; [reflexivity | assumption].
Qed.

(** Inverts a [bind] that ended in [Ok]. *)
Tactic Notation "bind_inv" hyp(H) "as" ident(a) ident(Ha) :=
  apply bind_Ok in H; destruct H as [a [Ha H]].

(** ** The generic validator *)

Section ValidatorFacts.

Variable float_of_str : string -> option cell.

Lemma to_dense_shape (X : input) (a : ndarray) :
  to_dense X = Ok a -> a_nrows a = nrows X /\ a_ncols a = ncols X /\
                       a_dtype a = array_dtype X.
Proof.
  destruct X as [df|b|b]; simpl.
  - destruct (map s_dtype (columns df)) as [|d ds] eqn:E; [discriminate|].
    intros H. inversion H. subst a. unfold as_dtype, a_ncols, df_ncols. simpl.
    rewrite length_map. auto.
  - intros H. inversion H. auto.
  - discriminate.
Qed.

Lemma astype_float_shape (a b : ndarray) :
  astype_float float_of_str a = Ok b ->
  a_nrows b = a_nrows a /\ a_ncols b = a_ncols a.
Proof.
  unfold astype_float. intros H. bind_inv H as cols Hcols.
  inversion H. subst b. simpl.
  split; [reflexivity|]. unfold a_ncols. simpl. eapply mapM_length; eassumption.
Qed.

(** [check_array] returns an array of the shape of its input. *)
Lemma check_array_shape (X : input) (o : check_options) (a : ndarray) :
  check_array float_of_str X o = Ok a ->
  a_nrows a = nrows X /\ a_ncols a = ncols X.
Proof.
  unfold check_array. intros H.
  bind_inv H as d Hd. apply to_dense_shape in Hd. destruct Hd as [Hr [Hc _]].
  bind_inv H as c Hconv. bind_inv H as u1 H1. bind_inv H as u2 H2.
  bind_inv H as u3 H3. bind_inv H as u4 H4. inversion H. subst a.
  destruct (opt_dtype o), (a_dtype d);
    try (inversion Hconv; subst; auto; fail);
    apply astype_float_shape in Hconv; destruct Hconv; split; congruence.
Qed.

(** The first validation spelled out: dtype kept, entries not looked at. *)
Lemma initial_validation_eq (X : input) (min_value_cols : nat) :
  initial_validation float_of_str X min_value_cols =
  (a <- to_dense X ;;
   _ensure_no_complex_data (NpArray a) ;;;
   (if a_nrows a <? 1 then Raise (ValueError (MinSamples (a_nrows a) 1))
    else Ok tt) ;;;
   (if a_ncols a <? min_value_cols
    then Raise (ValueError (MinFeatures (a_ncols a) min_value_cols))
    else Ok tt) ;;;
   Ok a).
Proof.
  unfold initial_validation, check_array. simpl.
  destruct (to_dense X) as [a|e]; simpl; [|reflexivity].
  destruct (_ensure_no_complex_data (NpArray a)); reflexivity.
Qed.

Lemma initial_validation_too_few (X : input) (min_value_cols : nat) :
  ncols X < min_value_cols ->
  exists e, initial_validation float_of_str X min_value_cols = Raise e.
Proof.
  intros Hlt. rewrite initial_validation_eq.
  destruct (to_dense X) as [a|e] eqn:E; simpl; [|eauto].
  apply to_dense_shape in E. destruct E as [_ [Hc _]].
  destruct (kind_is_complex (a_dtype a)); simpl; [eauto|].
  destruct (a_nrows a <? 1); simpl; [eauto|].
  assert (Hb : (a_ncols a <? min_value_cols) = true)
    by (apply Nat.ltb_lt; lia).
  rewrite Hb. simpl. eauto.
Qed.

Lemma initial_validation_enough (X : input) (min_value_cols : nat) :
  issparse X = false -> complex_typed X = false ->
  1 <= nrows X -> 1 <= ncols X -> min_value_cols <= ncols X ->
  exists a, initial_validation float_of_str X min_value_cols = Ok a /\
            to_dense X = Ok a.
Proof.
  intros Hs Hc Hr Hn Hm. rewrite initial_validation_eq.
  assert (Hd : exists a, to_dense X = Ok a).
  { destruct X as [df|b|b]; simpl in *; try discriminate; eauto.
    unfold df_ncols in Hn.
    destruct (columns df) as [|c cs]; simpl in *; [lia | eauto]. }
  destruct Hd as [a Ha]. rewrite Ha. simpl.
  pose proof (to_dense_shape _ _ Ha) as [Hr' [Hc' Hd']].
  assert (Hk : kind_is_complex (a_dtype a) = false).
  { rewrite Hd'. destruct X as [df|b|b]; simpl in *; try assumption.
    assert (H0 : (0 <? df_ncols df) = true) by (apply Nat.ltb_lt; lia).
    rewrite H0 in Hc. exact Hc. }
  rewrite Hk. simpl.
  assert (H1 : (a_nrows a <? 1) = false) by (apply Nat.ltb_ge; lia).
  assert (H2 : (a_ncols a <? min_value_cols) = false) by (apply Nat.ltb_ge; lia).
  rewrite H1, H2. simpl. eauto.
Qed.

Lemma split_raises_when_initial_validation_does
    (X : input) (groups : list key) (name : string) (min_value_cols : nat)
    (check_X : bool) (kwargs : check_options) (e : exn) :
  initial_validation float_of_str X min_value_cols = Raise e ->
  exists e',
    _split_groups_and_values float_of_str X groups name min_value_cols
      check_X kwargs = Raise e'.
Proof.
  intros H. unfold _split_groups_and_values.
  destruct (_data_format_checks X name); simpl; [|eauto].
  rewrite H. simpl. eauto.
Qed.

(** C1, as amended.  The first validation of [_split_groups_and_values]
    counts all columns of [X], the group columns among them: it raises when
    [X] has fewer than [min_value_cols] columns in total (and so does the
    whole call), and it accepts every dense input that is not stored with a
    complex dtype and has at least one row, one column and [min_value_cols]
    columns, whatever its entries are, NaN and infinity included. *)
Theorem initial_validation_counts_all_columns
    (X : input) (groups : list key) (name : string) (min_value_cols : nat)
    (check_X : bool) (kwargs : check_options) :
  (ncols X < min_value_cols ->
   (exists e, initial_validation float_of_str X min_value_cols = Raise e) /\
   (exists e, _split_groups_and_values float_of_str X groups name
                min_value_cols check_X kwargs = Raise e)) /\
  (issparse X = false -> complex_typed X = false ->
   1 <= nrows X -> 1 <= ncols X -> min_value_cols <= ncols X ->
   exists a, initial_validation float_of_str X min_value_cols = Ok a).
Proof.
  split.
  - intros Hlt.
    destruct (initial_validation_too_few X min_value_cols Hlt) as [e He].
    split; [eauto|].
    eapply split_raises_when_initial_validation_does; eassumption.
  - intros Hs Hc Hr Hn Hm.
    destruct (initial_validation_enough X min_value_cols Hs Hc Hr Hn Hm)
      as [a [Ha _]].
    eauto.
Qed.

End ValidatorFacts.

(** C1 at an array with a NaN and an infinite entry: two columns are
    enough for [min_value_cols = 2], three are asked for in vain. *)
Lemma initial_validation_counts_all_columns_witness :
  (exists e, initial_validation float_of_no_str (NpArray two_by_two) 3 = Raise e) /\
  (exists a, initial_validation float_of_no_str (NpArray two_by_two) 2 = Ok a).
Proof.
  split.
  - apply (initial_validation_counts_all_columns float_of_no_str
             (NpArray two_by_two) [KInt 0] "" 3 true default_options).
    unfold ncols, a_ncols, two_by_two. simpl. lia.
  - apply (initial_validation_counts_all_columns float_of_no_str
             (NpArray two_by_two) [KInt 0] "" 2 true default_options);
      try reflexivity; unfold nrows, ncols, a_ncols, two_by_two; simpl; lia.
Defined.

(** C1 as stated fails: with [min_value_cols = 2] and two of the three
    columns taken as groups, one column remains outside the group
    specification, yet the first validation passes, and so does the call. *)
Lemma initial_validation_ignores_groups :
  (exists X_group X_value,
      partition (NpArray two_by_three) [KInt 0; KInt 1] = Ok (X_group, X_value) /\
      a_ncols X_value = 1) /\
  1 < 2 /\
  initial_validation float_of_no_str (NpArray two_by_three) 2 = Ok two_by_three /\
  is_ok (_split_groups_and_values float_of_no_str (NpArray two_by_three)
           [KInt 0; KInt 1] "" 2 true default_options) = true.
Proof.
  split; [|split; [lia | split; reflexivity]].
  eexists. eexists. split; reflexivity.
Qed.

(** ** The split of groups and values *)

Section SplitFacts.

Variable float_of_str : string -> option cell.

(** C5, as amended.  The complex-data check and the sparse check come
    before the partition and do not depend on [check_X]: an input stored
    with a complex dtype raises the complex-data [ValueError], and a sparse
    matrix that is not stored with a complex dtype raises the [ValueError]
    that names the caller, for every group specification, every [check_X]
    and all validation options. *)
Theorem data_format_is_checked_first
    (X : input) (groups : list key) (name : string) (min_value_cols : nat)
    (check_X : bool) (kwargs : check_options) :
  (complex_typed X = true ->
   _split_groups_and_values float_of_str X groups name min_value_cols
     check_X kwargs
   = Raise (ValueError ComplexDataNotSupported)) /\
  (complex_typed X = false -> issparse X = true ->
   _split_groups_and_values float_of_str X groups name min_value_cols
     check_X kwargs
   = Raise (ValueError (SparseNotSupported name))).
Proof.
  unfold _split_groups_and_values, _data_format_checks. split.
  - destruct X as [df|a|a]; simpl; intros Hc.
    + apply andb_prop in Hc. destruct Hc as [Hn Hk].
      rewrite initial_validation_eq. simpl. simpl in Hk.
      unfold df_ncols in Hn.
      destruct (columns df) as [|c cs] eqn:E; simpl in *; [discriminate|].
      rewrite Hk. reflexivity.
    + rewrite Hc. reflexivity.
    + rewrite Hc. reflexivity.
  - destruct X as [df|a|a]; simpl; intros Hc Hs; try discriminate.
    rewrite Hc. reflexivity.
Qed.

Lemma data_format_checks_ValueError (X : input) (name : string) (e : exn) :
  _data_format_checks X name = Raise e -> exists m, e = ValueError m.
Proof.
  unfold _data_format_checks.
  destruct X as [df|a|a]; simpl; try discriminate;
    destruct (kind_is_complex (a_dtype a)); simpl; intros H;
    inversion H; eauto.
Qed.

Lemma initial_validation_ValueError (X : input) (n : nat) (e : exn) :
  issparse X = false ->
  initial_validation float_of_str X n = Raise e -> exists m, e = ValueError m.
Proof.
  intros Hs. rewrite initial_validation_eq.
  destruct X as [df|a|a]; simpl in *; try discriminate.
  - destruct (map s_dtype (columns df)) as [|d ds]; simpl.
    + intros H. inversion H. eauto.
    + destruct (kind_is_complex (fold_left promote2 ds d)); simpl;
        [intros H; inversion H; eauto|].
      destruct (df_nrows df <? 1); simpl; [intros H; inversion H; eauto|].
      destruct (_ <? n); simpl; intros H; inversion H; eauto.
  - destruct (kind_is_complex (a_dtype a)); simpl;
      [intros H; inversion H; eauto|].
    destruct (a_nrows a <? 1); simpl; [intros H; inversion H; eauto|].
    destruct (_ <? n); simpl; intros H; inversion H; eauto.
Qed.

Lemma promote2_number (a b : dtype) :
  is_number a = true -> is_number b = true -> is_number (promote2 a b) = true.
Proof. destruct a, b; simpl; congruence. Qed.

Lemma fold_promote2_number (ds : list dtype) (d : dtype) :
  is_number d = true -> Forall (fun x => is_number x = true) ds ->
  is_number (fold_left promote2 ds d) = true.
Proof.
  revert d. induction ds as [|x xs IH]; intros d Hd Hall; simpl; [assumption|].
  inversion Hall; subst. apply IH; [apply promote2_number|]; assumption.
Qed.

Lemma assert_all_finite_ValueError (a : ndarray) (allow_nan : bool) (e : exn) :
  _assert_all_finite a allow_nan = Raise e -> exists m, e = ValueError m.
Proof.
  unfold _assert_all_finite.
  destruct (a_dtype a);
    repeat match goal with
           | |- context [if ?c then _ else _] => destruct c
           end; intros H; inversion H; eauto.
Qed.

(** On number columns the validator can only raise [ValueError]. *)
Lemma check_array_numbers_ValueError (df : DataFrame) (o : check_options) (e : exn) :
  Forall (fun s => is_number (s_dtype s) = true) (columns df) ->
  check_array float_of_str (PdDataFrame df) o = Raise e ->
  exists m, e = ValueError m.
Proof.
  intros Hall. unfold check_array. simpl.
  destruct (columns df) as [|c cs] eqn:E; simpl.
  - intros H. inversion H. eauto.
  - inversion Hall as [|? ? Hc Hcs]; subst.
    assert (Hn : is_number (fold_left promote2 (map s_dtype cs) (s_dtype c)) = true).
    { apply fold_promote2_number; [assumption|].
      apply Forall_map. assumption. }
    set (d := fold_left promote2 (map s_dtype cs) (s_dtype c)) in *.
    destruct (opt_dtype o), d; simpl in Hn; try discriminate; simpl;
      destruct (force_all_finite o); simpl;
      repeat match goal with
             | |- context [_assert_all_finite ?a ?b] =>
                 let F := fresh "F" in
                 destruct (_assert_all_finite a b) eqn:F; simpl
             | |- context [if ?c then _ else _] => destruct c; simpl
             end;
      intros H; inversion H; subst; eauto;
      eapply assert_all_finite_ValueError; eassumption.
Qed.

Lemma select_number_all (df : DataFrame) :
  Forall (fun s => is_number (s_dtype s) = true) (columns (select_number df)).
Proof.
  unfold select_number. simpl. apply Forall_forall. intros s Hin.
  apply filter_In in Hin. tauto.
Qed.

Lemma isnull_any_non_number (df : DataFrame) :
  isnull_any (select_non_number df) = true <->
  exists s, In s (columns df) /\ null_non_numeric s = true.
Proof.
  unfold isnull_any, select_non_number, null_non_numeric. simpl.
  rewrite existsb_exists. split.
  - intros [s [Hin Hnull]]. apply filter_In in Hin. destruct Hin as [Hin Hd].
    exists s. rewrite Hd, Hnull. auto.
  - intros [s [Hin H]]. apply andb_prop in H. destruct H as [Hd Hnull].
    exists s. split; [|assumption]. apply filter_In. auto.
Qed.

(** What the grouping check does, in one equation: the validator sees the
    number columns only, and only when there is one; the other columns are
    scanned for missing values and for nothing else. *)
Lemma check_grouping_columns_Ok (X_group r : DataFrame) (kwargs : check_options) :
  _check_grouping_columns float_of_str X_group kwargs = Ok r <->
  (df_ncols (select_number X_group) = 0 \/
   is_ok (check_array float_of_str (PdDataFrame (select_number X_group)) kwargs) = true) /\
  isnull_any (select_non_number X_group) = false /\
  r = reset_index X_group.
Proof.
  unfold _check_grouping_columns.
  destruct (df_ncols (select_number X_group)) as [|n] eqn:En; simpl.
  - destruct (isnull_any (select_non_number X_group)); split.
    + discriminate.
    + intros [_ [H _]]. discriminate.
    + intros H. inversion H. auto.
    + intros [_ [_ H]]. subst. reflexivity.
  - destruct (check_array float_of_str (PdDataFrame (select_number X_group)) kwargs)
      as [a|e]; simpl.
    + destruct (isnull_any (select_non_number X_group)); split.
      * discriminate.
      * intros [_ [H _]]. discriminate.
      * intros H. inversion H. auto.
      * intros [_ [_ H]]. subst. reflexivity.
    + split; [discriminate|].
      intros [[H|H] _]; discriminate.
Qed.

Lemma check_grouping_columns_null (X_group : DataFrame) (kwargs : check_options) :
  isnull_any (select_non_number X_group) = true ->
  exists m, _check_grouping_columns float_of_str X_group kwargs = Raise (ValueError m).
Proof.
  intros Hnull. unfold _check_grouping_columns. rewrite Hnull.
  destruct (0 <? df_ncols (select_number X_group)); simpl; [|eauto].
  destruct (check_array float_of_str (PdDataFrame (select_number X_group)) kwargs)
    as [a|e] eqn:E; simpl; [eauto|].
  apply check_array_numbers_ValueError in E; [|apply select_number_all].
  destruct E as [m Hm]. subst. eauto.
Qed.

Lemma partition_not_sparse (X : input) (groups : list key) gv :
  partition X groups = Ok gv -> issparse X = false.
Proof. destruct X; simpl; [reflexivity | reflexivity | discriminate]. Qed.

(** C4.  A missing value in a grouping column that is not of a number
    dtype makes [_split_groups_and_values] raise a [ValueError], whatever
    the number grouping columns hold and whatever options are passed
    through; and the grouping check treats the two kinds of columns
    differently in every call: it succeeds exactly when the generic
    validator accepts the number columns (if there are any) and the other
    columns hold no missing value, and then returns the group table with a
    fresh index; when the validator accepts the number columns, a missing
    value elsewhere raises "X has NaN values". *)
Theorem missing_value_in_non_numeric_group :
  (forall (X : input) (groups : list key) (name : string)
          (min_value_cols : nat) (check_X : bool) (kwargs : check_options)
          (X_group : DataFrame) (X_value : ndarray) (s : Series),
      partition X groups = Ok (X_group, X_value) ->
      In s (columns X_group) -> null_non_numeric s = true ->
      exists m, _split_groups_and_values float_of_str X groups name
                  min_value_cols check_X kwargs
                = Raise (ValueError m)) /\
  (forall (X_group r : DataFrame) (kwargs : check_options),
      _check_grouping_columns float_of_str X_group kwargs = Ok r <->
      (df_ncols (select_number X_group) = 0 \/
       is_ok (check_array float_of_str (PdDataFrame (select_number X_group)) kwargs)
       = true) /\
      isnull_any (select_non_number X_group) = false /\
      r = reset_index X_group) /\
  (forall (X_group : DataFrame) (kwargs : check_options),
      (df_ncols (select_number X_group) = 0 \/
       is_ok (check_array float_of_str (PdDataFrame (select_number X_group)) kwargs)
       = true) ->
      isnull_any (select_non_number X_group) = true ->
      _check_grouping_columns float_of_str X_group kwargs
      = Raise (ValueError XHasNaNValues)).
Proof.
  split; [|split].
  - intros X groups name n check_X kwargs X_group X_value s Hp Hin Hnull.
    unfold _split_groups_and_values.
    destruct (_data_format_checks X name) as [u|e] eqn:Ef; simpl.
    2:{ apply data_format_checks_ValueError in Ef. destruct Ef as [m Hm].
        subst. eauto. }
    destruct (initial_validation float_of_str X n) as [a|e] eqn:Ei; simpl.
    2:{ apply initial_validation_ValueError in Ei;
          [|eapply partition_not_sparse; eassumption].
        destruct Ei as [m Hm]. subst. eauto. }
    rewrite Hp. simpl.
    destruct (check_grouping_columns_null X_group kwargs) as [m Hm].
    { apply isnull_any_non_number. eauto. }
    rewrite Hm. simpl. eauto.
  - intros. apply check_grouping_columns_Ok.
  - intros X_group kwargs Hnum Hnull. unfold _check_grouping_columns.
    rewrite Hnull.
    destruct Hnum as [H0|Hok].
    + rewrite H0. reflexivity.
    + destruct (0 <? df_ncols (select_number X_group)); simpl; [|reflexivity].
      destruct (check_array float_of_str (PdDataFrame (select_number X_group)) kwargs);
        simpl in *; [reflexivity | discriminate].
Qed.

(** *** Counting the columns that remain *)

Lemma count_members {A : Type} (dec : forall x y : A, {x = y} + {x <> y})
    (p : A -> bool) (L G : list A) :
  NoDup L -> (forall x, p x = true <-> In x G) -> incl G L ->
  length (filter p L) = length (nodup dec G).
Proof.
  intros HL Hp HG. apply Permutation_length, NoDup_Permutation.
  - apply NoDup_filter. assumption.
  - apply NoDup_nodup.
  - intros x. rewrite filter_In, nodup_In, Hp. split; [tauto|].
    intros Hx. split; [apply HG|]; assumption.
Qed.

Lemma count_others {A : Type} (dec : forall x y : A, {x = y} + {x <> y})
    (p : A -> bool) (L G : list A) :
  NoDup L -> (forall x, p x = true <-> In x G) -> incl G L ->
  length (filter (fun x => negb (p x)) L) = length L - length (nodup dec G).
Proof.
  intros HL Hp HG.
  rewrite <- (count_members dec p L G HL Hp HG).
  pose proof (filter_length p L). lia.
Qed.

Lemma filter_nil_all {A : Type} (f : A -> bool) (l : list A) :
  filter f l = [] -> forall x, In x l -> f x = false.
Proof.
  induction l as [|y ys IH]; simpl; intros H x Hin; [contradiction|].
  destruct (f y) eqn:E; [discriminate|].
  destruct Hin as [->|Hin]; [assumption | apply IH; assumption].
Qed.

Lemma drop_Ok (df rest : DataFrame) (groups : list key) :
  drop df groups = Ok rest ->
  incl groups (names df) /\
  index rest = index df /\
  columns rest = filter (fun s => negb (mem (s_name s) groups)) (columns df).
Proof.
  unfold drop.
  destruct (filter (fun g => negb (mem g (names df))) groups) eqn:E;
    [|discriminate].
  intros H. inversion H. simpl. split; [|auto].
  intros g Hg. pose proof (filter_nil_all _ _ E g Hg) as Hm.
  apply negb_false_iff in Hm. apply mem_In. assumption.
Qed.

Lemma drop_remaining (df rest : DataFrame) (groups : list key) :
  NoDup (names df) -> drop df groups = Ok rest ->
  df_ncols rest = df_ncols df - length (nodup key_eq_dec groups).
Proof.
  intros Hnd Hd. apply drop_Ok in Hd. destruct Hd as [Hincl [_ Hcols]].
  unfold df_ncols. rewrite Hcols.
  rewrite <- (length_map s_name (filter _ _)).
  rewrite <- (filter_map_swap (fun k => negb (mem k groups)) s_name).
  rewrite <- (length_map s_name (columns df)).
  apply count_others; try assumption.
  intros k. apply mem_In.
Qed.

Lemma position_lt (n : nat) (z : Z) (i : nat) :
  position n z = Some i -> i < n.
Proof.
  unfold position.
  destruct ((0 <=? z)%Z && (z <? Z.of_nat n)%Z) eqn:E1.
  - intros H. apply andb_prop in E1. destruct E1 as [Hlo Hhi].
    apply Z.leb_le in Hlo. apply Z.ltb_lt in Hhi.
    injection H as <-. lia.
  - destruct ((- Z.of_nat n <=? z)%Z && (z <? 0)%Z) eqn:E2; [|discriminate].
    intros H. apply andb_prop in E2. destruct E2 as [Hlo Hhi].
    apply Z.leb_le in Hlo. apply Z.ltb_lt in Hhi.
    injection H as <-. lia.
Qed.

Lemma range_getitem_positions (n : nat) (groups : list key) (pos : list nat) :
  mapM (range_getitem n) groups = Ok pos ->
  pos = positions n groups /\ length pos = length groups /\
  Forall (fun i => i < n) pos.
Proof.
  revert pos. induction groups as [|g gs IH]; intros pos; simpl.
  - intros H. inversion H. auto.
  - destruct g as [s|z]; simpl; [discriminate|].
    destruct (position n z) as [i|] eqn:E; simpl; [|discriminate].
    destruct (mapM (range_getitem n) gs) as [ps|e]; simpl; [|discriminate].
    intros H. inversion H. destruct (IH ps eq_refl) as [Hp [Hl Hlt]].
    subst ps. simpl. repeat split; [congruence|].
    constructor; [eapply position_lt; eassumption | assumption].
Qed.

Lemma delete_at_length (pos : list nat) (cols : list (list cell)) (i : nat) :
  length (delete_at pos i cols) =
  length (filter (fun j => negb (existsb (Nat.eqb j) pos)) (seq i (length cols))).
Proof.
  revert i. induction cols as [|c cs IH]; intros i; simpl; [reflexivity|].
  destruct (existsb (Nat.eqb i) pos); simpl; rewrite IH; reflexivity.
Qed.

Lemma np_delete_remaining (a : ndarray) (pos : list nat) :
  Forall (fun i => i < a_ncols a) pos ->
  a_ncols (np_delete a pos) = a_ncols a - length (nodup Nat.eq_dec pos).
Proof.
  intros Hlt. unfold np_delete, a_ncols at 1. simpl.
  rewrite delete_at_length.
  rewrite (count_others Nat.eq_dec (fun j => existsb (Nat.eqb j) pos)
             (seq 0 (length (a_cols a))) pos).
  - rewrite length_seq. reflexivity.
  - apply seq_NoDup.
  - intros x. rewrite existsb_exists. split.
    + intros [y [Hy Heq]]. apply Nat.eqb_eq in Heq. subst. assumption.
    + intros Hx. exists x. split; [assumption | apply Nat.eqb_refl].
  - intros x Hx. apply in_seq. rewrite Forall_forall in Hlt.
    specialize (Hlt x Hx). unfold a_ncols in Hlt. lia.
Qed.

Lemma loc_index (df X_group : DataFrame) (groups : list key) :
  loc df groups = Ok X_group -> index X_group = index df.
Proof.
  unfold loc. intros H. bind_inv H as cs Hcs. inversion H. reflexivity.
Qed.

Lemma RangeIndex_length (n : nat) : length (RangeIndex n) = n.
Proof. unfold RangeIndex. rewrite length_map, length_seq. reflexivity. Qed.

(** What the partition returns, by the kind of input. *)
Lemma partition_shapes (X : input) (groups : list key)
    (X_group : DataFrame) (X_value : ndarray) :
  partition X groups = Ok (X_group, X_value) ->
  df_nrows X_group = nrows X /\ a_nrows X_value = nrows X /\
  match X with
  | PdDataFrame df =>
      NoDup (names df) ->
      a_ncols X_value = df_ncols df - length (nodup key_eq_dec groups)
  | NpArray a =>
      a_ncols X_value =
      a_ncols a - length (nodup Nat.eq_dec (positions (a_ncols a) groups)) /\
      length (positions (a_ncols a) groups) = length groups
  | SpMatrix _ => False
  end.
Proof.
  destruct X as [df|a|a]; simpl; [| |discriminate].
  - intros H. bind_inv H as Xg Hloc. bind_inv H as rest Hdrop.
    inversion H. subst.
    pose proof (loc_index _ _ _ Hloc) as Hi.
    pose proof (drop_Ok _ _ _ Hdrop) as [_ [Hi0 _]].
    unfold df_nrows. rewrite Hi. simpl. unfold df_nrows. rewrite Hi0.
    repeat split.
    intros Hnd. unfold values, as_dtype, a_ncols. simpl. rewrite length_map.
    apply drop_remaining; assumption.
  - intros H. bind_inv H as cols Htake. bind_inv H as pos Hpos.
    inversion H. subst. simpl.
    apply range_getitem_positions in Hpos. destruct Hpos as [Hp [Hl Hlt]].
    unfold df_nrows. simpl. rewrite RangeIndex_length.
    repeat split.
    + rewrite <- Hp. apply np_delete_remaining. assumption.
    + rewrite <- Hp. assumption.
Qed.

Lemma split_Ok (X : input) (groups : list key) (name : string)
    (min_value_cols : nat) (check_X : bool) (kwargs : check_options)
    (X_group : DataFrame) (X_value : ndarray) :
  _split_groups_and_values float_of_str X groups name min_value_cols
    check_X kwargs = Ok (X_group, X_value) ->
  exists X_group0 X_value0,
    partition X groups = Ok (X_group0, X_value0) /\
    X_group = reset_index X_group0 /\
    a_nrows X_value = a_nrows X_value0 /\ a_ncols X_value = a_ncols X_value0.
Proof.
  unfold _split_groups_and_values. intros H.
  bind_inv H as u1 Hfmt. bind_inv H as a0 Hinit. bind_inv H as gv Hpart.
  destruct gv as [X_group0 X_value0].
  bind_inv H as Xg Hgroup. bind_inv H as Xv Hvalue. inversion H. subst.
  exists X_group0, X_value0. split; [|split].
  - destruct (partition X groups) as [gv|e]; simpl in Hpart;
      [assumption | destruct e; discriminate].
  - apply check_grouping_columns_Ok in Hgroup. tauto.
  - destruct check_X.
    + apply check_array_shape in Hvalue. simpl in Hvalue. assumption.
    + inversion Hvalue. auto.
Qed.

(** C3, as amended.  When [_split_groups_and_values] succeeds, the group
    table has as many rows as [X] and the index [0 .. n-1], the value
    matrix has as many rows, and its number of columns is that of [X]
    minus the number of distinct columns that the group specification
    refers to: distinct labels for a table with unique column labels,
    distinct positions (negative ones counted from the end) for an array.
    That is [len(groups)] less exactly when no column is referred to
    twice. *)
Theorem split_shapes
    (X : input) (groups : list key) (name : string) (min_value_cols : nat)
    (check_X : bool) (kwargs : check_options)
    (X_group : DataFrame) (X_value : ndarray) :
  _split_groups_and_values float_of_str X groups name min_value_cols
    check_X kwargs = Ok (X_group, X_value) ->
  df_nrows X_group = nrows X /\
  index X_group = RangeIndex (nrows X) /\
  a_nrows X_value = nrows X /\
  match X with
  | PdDataFrame df =>
      NoDup (names df) ->
      a_ncols X_value = df_ncols df - length (nodup key_eq_dec groups) /\
      (NoDup groups -> a_ncols X_value = df_ncols df - length groups)
  | NpArray a =>
      a_ncols X_value =
      a_ncols a - length (nodup Nat.eq_dec (positions (a_ncols a) groups)) /\
      (NoDup (positions (a_ncols a) groups) ->
       a_ncols X_value = a_ncols a - length groups)
  | SpMatrix _ => False
  end.
Proof.
  intros H. apply split_Ok in H.
  destruct H as [X_group0 [X_value0 [Hp [Hg [Hr Hc]]]]].
  apply partition_shapes in Hp. destruct Hp as [Hrows [Hvrows Hcols]].
  subst X_group. unfold reset_index, df_nrows at 1. simpl.
  rewrite RangeIndex_length, Hrows. repeat split; [congruence|].
  destruct X as [df|a|a]; [| |assumption].
  - intros Hnd. specialize (Hcols Hnd). split; [congruence|].
    intros Hg. rewrite (nodup_fixed_point key_eq_dec Hg) in Hcols. congruence.
  - destruct Hcols as [Hcols Hlen]. split; [congruence|].
    intros Hg. rewrite (nodup_fixed_point Nat.eq_dec Hg) in Hcols. congruence.
Qed.

End SplitFacts.

(** Settles [NoDup] and membership goals on explicit lists. *)
Ltac explicit_list :=
  repeat match goal with
         | |- NoDup _ => constructor
         | |- ~ In _ _ => simpl; intuition discriminate
         | |- In _ _ => simpl; tauto
         end.

(** C3 at the table [full_group], grouped by city and year: two rows, a
    fresh index, and one of the three columns left. *)
Lemma split_shapes_witness :
  match _split_groups_and_values float_of_no_str (PdDataFrame full_group)
          [KStr "city"; KStr "year"] "" 1 true default_options with
  | Ok (X_group, X_value) =>
      index X_group = RangeIndex 2 /\ a_ncols X_value = 3 - 2
  | Raise _ => False
  end.
Proof.
  destruct (_split_groups_and_values float_of_no_str (PdDataFrame full_group)
              [KStr "city"; KStr "year"] "" 1 true default_options)
    as [[X_group X_value]|e] eqn:E.
  - pose proof (split_shapes float_of_no_str _ _ _ _ _ _ _ _ E)
      as [_ [Hi [_ Hc]]].
    split; [exact Hi|].
    apply Hc; unfold names; simpl; explicit_list.
  - vm_compute in E. discriminate.
Defined.

(** C3 as stated fails: in an array with three columns the positions [0]
    and [-3] are the same column; the call succeeds and leaves two value
    columns, not [3 - len(groups) = 1]. *)
Lemma split_same_column_twice :
  exists X_group X_value,
    _split_groups_and_values float_of_no_str (NpArray two_by_three)
      [KInt 0; KInt (-3)] "" 1 true default_options = Ok (X_group, X_value) /\
    a_ncols X_value = 2 /\
    a_ncols two_by_three - length [KInt 0; KInt (-3)] = 1.
Proof. eexists. eexists. split; [reflexivity | split; reflexivity]. Qed.

(** C4 at the table [missing_group]: the city is missing in one row, the
    year is known in every row, and the call raises. *)
Lemma missing_value_in_non_numeric_group_witness :
  exists m,
    _split_groups_and_values float_of_no_str (PdDataFrame missing_group)
      [KStr "city"; KStr "year"] "" 1 true default_options
    = Raise (ValueError m).
Proof.
  eapply (proj1 (missing_value_in_non_numeric_group float_of_no_str))
    with (s := mkSeries (KStr "city") object_ [Str "a"; NoneV]).
  - reflexivity.
  - simpl. tauto.
  - reflexivity.
Defined.

(** C5 at a complex sparse matrix and at a real one, with the validation
    of the value matrix switched off. *)
Lemma data_format_is_checked_first_witness :
  _split_groups_and_values float_of_no_str (SpMatrix complex_sparse)
    [KInt 0] "est" 1 false default_options
  = Raise (ValueError ComplexDataNotSupported) /\
  _split_groups_and_values float_of_no_str (SpMatrix two_by_two)
    [KInt 0] "est" 1 false default_options
  = Raise (ValueError (SparseNotSupported "est")).
Proof.
  split.
  - apply (data_format_is_checked_first float_of_no_str). reflexivity.
  - apply (data_format_is_checked_first float_of_no_str); reflexivity.
Defined.

(** C5 as stated fails: a table with a string group column and a complex
    value column contains complex values, yet with [check_X=False] the call
    returns, the complex column being the value matrix. *)
Lemma complex_values_pass_unchecked :
  contains_complex (PdDataFrame complex_values) = true /\
  _split_groups_and_values float_of_no_str (PdDataFrame complex_values)
    [KStr "g"] "est" 1 false default_options
  = Ok (mkDataFrame [KInt 0; KInt 1]
          [mkSeries (KStr "g") object_ [Str "a"; Str "b"]],
        mkArray complex128 2 [[Cplx 1 2; Cplx 3 4]]).
Proof. split; reflexivity. Qed.

(** ** Selecting and dropping columns by name *)

(** Splits on whatever a [match] or [if] in the goal is stuck on. *)
Ltac cases :=
  repeat match goal with
         | |- context [match ?x with _ => _ end] =>
             lazymatch x with
             | context [match _ with _ => _ end] => fail
             | _ => destruct x eqn:?; simpl in *
             end
         end.

(** Unfolds the plumbing of methods. *)
Ltac run :=
  unfold bindM, assign, lift, getattr, ret, raise, self, check_is_fitted,
    outcome, after in *; simpl in *.

Lemma dedup_nil (l : list key) : dedup l = [] -> l = [].
Proof. destruct l; simpl; [reflexivity | discriminate]. Qed.

Lemma non_existent_columns_nil (cols_ : list key) (X : DataFrame) :
  non_existent_columns cols_ X = [] <-> incl cols_ (names X).
Proof.
  unfold non_existent_columns. split.
  - intros H k Hk. apply dedup_nil in H.
    pose proof (filter_nil_all _ _ H k Hk) as Hm.
    apply negb_false_iff in Hm. apply mem_In. assumption.
  - intros Hincl.
    assert (E : filter (fun c => negb (mem c (names X))) cols_ = []).
    { induction cols_ as [|c cs IH]; simpl; [reflexivity|].
      assert (Hc : mem c (names X) = true)
        by (apply mem_In, Hincl; simpl; auto).
      rewrite Hc. simpl. apply IH. intros k Hk. apply Hincl. simpl. auto. }
    rewrite E. reflexivity.
Qed.

Lemma labelled_absent (g : key) (cols : list Series) :
  ~ In g (map s_name cols) -> labelled g cols = [].
Proof.
  induction cols as [|c cs IH]; simpl; intros Hn; [reflexivity|].
  destruct (key_eqb_spec (s_name c) g) as [E|E]; [tauto|].
  apply IH. tauto.
Qed.

(** In a table with unique labels, a label picks one column. *)
Lemma labelled_unique (g : key) (cols : list Series) :
  NoDup (map s_name cols) -> In g (map s_name cols) ->
  exists s, labelled g cols = [s] /\ In s cols /\ s_name s = g.
Proof.
  induction cols as [|c cs IH]; simpl; intros Hnd Hin; [contradiction|].
  inversion Hnd as [|? ? Hc Hcs]; subst.
  destruct (key_eqb_spec (s_name c) g) as [E|E].
  - subst g. rewrite (labelled_absent _ _ Hc). exists c. auto.
  - destruct Hin as [Hin|Hin]; [contradiction|].
    destruct (IH Hcs Hin) as [s [H1 [H2 H3]]]. exists s. auto.
Qed.

Lemma loc_columns_unique (cols : list Series) (C : list key) :
  NoDup (map s_name cols) -> incl C (map s_name cols) ->
  exists cs, loc_columns cols C = Ok cs /\ map s_name cs = C /\ incl cs cols.
Proof.
  intros Hnd. induction C as [|g gs IH]; intros Hincl; simpl.
  - exists []. repeat split. intros x Hx. contradiction.
  - destruct (labelled_unique g cols Hnd) as [s [Hs [Hin Hname]]].
    { apply Hincl. simpl. auto. }
    destruct IH as [cs [Hcs [Hnames Hsub]]].
    { intros k Hk. apply Hincl. simpl. auto. }
    rewrite Hs, Hcs. simpl. exists (s :: cs). repeat split.
    + simpl. congruence.
    + intros x [Hx|Hx]; [subst; assumption | apply Hsub; assumption].
Qed.

Lemma drop_present (df : DataFrame) (C : list key) :
  incl C (names df) ->
  drop df C = Ok (mkDataFrame (index df)
                    (filter (fun s => negb (mem (s_name s) C)) (columns df))).
Proof.
  intros Hincl. unfold drop.
  assert (E : filter (fun g => negb (mem g (names df))) C = []).
  { induction C as [|c cs IH]; simpl; [reflexivity|].
    assert (Hc : mem c (names df) = true)
      by (apply mem_In, Hincl; simpl; auto).
    rewrite Hc. simpl. apply IH. intros k Hk. apply Hincl. simpl. auto. }
  rewrite E. reflexivity.
Qed.

Lemma filter_none_dropped (cols : list Series) :
  filter (fun s => negb (mem (s_name s) [])) cols = cols.
Proof.
  induction cols as [|c cs IH]; simpl; [reflexivity | f_equal; exact IH].
Qed.

Arguments from_native : simpl never.
Arguments nw_select : simpl never.

Lemma has_duplicates_false (l : list key) :
  has_duplicates l = false <-> NoDup l.
Proof.
  induction l as [|x xs IH]; simpl.
  - split; [constructor | reflexivity].
  - rewrite orb_false_iff, IH, mem_false. split.
    + intros [H1 H2]. constructor; assumption.
    + intros H. inversion H. auto.
Qed.

(** The dataframe layer takes the tables with unique column labels. *)
Lemma from_native_Ok (X : input) (df : DataFrame) :
  from_native X = Ok df <-> X = PdDataFrame df /\ NoDup (names df).
Proof.
  unfold from_native.
  destruct X as [d|a|a];
    try (split; [discriminate | intros [H _]; discriminate]).
  destruct (has_duplicates (names d)) eqn:E; split.
  - discriminate.
  - intros [H Hnd]. inversion H. subst. apply has_duplicates_false in Hnd.
    congruence.
  - intros H. inversion H. subst. split; [reflexivity|].
    apply has_duplicates_false. assumption.
  - intros [H _]. inversion H. reflexivity.
Qed.

Lemma from_native_table (df : DataFrame) :
  NoDup (names df) -> from_native (PdDataFrame df) = Ok df.
Proof. intros H. apply from_native_Ok. auto. Qed.

(** What a successful [ColumnSelector.fit] has checked and recorded. *)
Lemma ColumnSelector_fit_Ok (X : input) (s s' : ColumnSelector.t) :
  ColumnSelector.fit X s = (Ok tt, s') ->
  exists df, X = PdDataFrame df /\ NoDup (names df) /\
    s' = ColumnSelector.mk (ColumnSelector.columns s)
           (Some (as_list (ColumnSelector.columns s))) /\
    incl (as_list (ColumnSelector.columns s)) (names df) /\
    as_list (ColumnSelector.columns s) <> [].
Proof.
  unfold ColumnSelector.fit, ColumnSelector._check_column_names,
    ColumnSelector._check_column_length. run.
  destruct (from_native X) as [df|e] eqn:En; simpl; [|discriminate].
  apply from_native_Ok in En. destruct En as [HX Hnd].
  destruct (non_existent_columns (as_list (ColumnSelector.columns s)) df) eqn:E;
    simpl; [|discriminate].
  destruct (as_list (ColumnSelector.columns s)) as [|c cs] eqn:El; simpl;
    [discriminate|].
  intros H. inversion H. exists df.
  split; [assumption|]. split; [assumption|]. split; [reflexivity|].
  split; [apply non_existent_columns_nil; assumption | discriminate].
Qed.

(** What a successful [ColumnDropper.fit] has checked and recorded. *)
Lemma ColumnDropper_fit_Ok (X : input) (s s' : ColumnDropper.t) :
  ColumnDropper.fit X s = (Ok tt, s') ->
  exists df, X = PdDataFrame df /\ NoDup (names df) /\
    s' = ColumnDropper.mk (ColumnDropper.columns s)
           (Some (as_list (ColumnDropper.columns s)))
           (Some (filter (fun x => negb (mem x (as_list (ColumnDropper.columns s))))
                    (names df))) /\
    incl (as_list (ColumnDropper.columns s)) (names df) /\
    filter (fun x => negb (mem x (as_list (ColumnDropper.columns s)))) (names df)
    <> [].
Proof.
  unfold ColumnDropper.fit, ColumnDropper._check_column_names,
    ColumnDropper._check_column_length. run.
  destruct (from_native X) as [df|e] eqn:En; simpl; [|discriminate].
  apply from_native_Ok in En. destruct En as [HX Hnd].
  destruct (non_existent_columns (as_list (ColumnDropper.columns s)) df) eqn:E;
    simpl; [|discriminate].
  destruct (filter (fun x => negb (mem x (as_list (ColumnDropper.columns s))))
              (names df)) as [|c cs] eqn:El; simpl; [discriminate|].
  intros H. inversion H. exists df. rewrite El.
  split; [assumption|]. split; [assumption|]. split; [reflexivity|].
  split; [apply non_existent_columns_nil; assumption | discriminate].
Qed.

Arguments drop : simpl never.
Arguments loc : simpl never.

(** [ColumnSelector.fit] on a table with unique labels, check by check. *)
Lemma ColumnSelector_fit_table (df : DataFrame) (s : ColumnSelector.t) :
  NoDup (names df) ->
  ColumnSelector.fit (PdDataFrame df) s =
  let cols_ := as_list (ColumnSelector.columns s) in
  let s' := ColumnSelector.mk (ColumnSelector.columns s) (Some cols_) in
  match non_existent_columns cols_ df with
  | [] =>
      if (length cols_ =? 0)%nat
      then (Raise (ValueError ExpectedColumnsLength), s')
      else (Ok tt, s')
  | missing => (Raise (KeyError (NotInDataFrame missing)), s')
  end.
Proof.
  intros Hnd. unfold ColumnSelector.fit, ColumnSelector._check_column_names,
    ColumnSelector._check_column_length. run.
  rewrite (from_native_table df Hnd). simpl.
  cases; reflexivity.
Qed.

(** [ColumnDropper.fit] on a table with unique labels, check by check. *)
Lemma ColumnDropper_fit_table (df : DataFrame) (s : ColumnDropper.t) :
  NoDup (names df) ->
  ColumnDropper.fit (PdDataFrame df) s =
  let cols_ := as_list (ColumnDropper.columns s) in
  let kept := filter (fun x => negb (mem x cols_)) (names df) in
  match non_existent_columns cols_ df with
  | [] =>
      if (length kept =? 0)%nat
      then (Raise (ValueError (EmptyOutput cols_)),
            ColumnDropper.mk (ColumnDropper.columns s) (Some cols_) (Some kept))
      else (Ok tt,
            ColumnDropper.mk (ColumnDropper.columns s) (Some cols_) (Some kept))
  | missing =>
      (Raise (KeyError (NotInDataFrame missing)),
       ColumnDropper.mk (ColumnDropper.columns s) (Some cols_)
         (ColumnDropper.feature_names_ s))
  end.
Proof.
  intros Hnd. unfold ColumnDropper.fit, ColumnDropper._check_column_names,
    ColumnDropper._check_column_length. run.
  rewrite (from_native_table df Hnd). simpl.
  cases; reflexivity.
Qed.

(** [ColumnSelector.transform] on a table with unique labels, for an
    instance that has [columns_]. *)
Lemma ColumnSelector_transform_table
    (T2 : DataFrame) (p : column_spec) (C : list key) :
  NoDup (names T2) ->
  ColumnSelector.transform (PdDataFrame T2) (ColumnSelector.mk p (Some C))
  = if truthy p
    then match nw_select T2 C with
         | Ok kept => (Ok (PdDataFrame kept), ColumnSelector.mk p (Some C))
         | Raise e => (Raise e, ColumnSelector.mk p (Some C))
         end
    else (Ok (PdDataFrame T2), ColumnSelector.mk p (Some C)).
Proof.
  intros Hnd. unfold ColumnSelector.transform, to_native. run.
  rewrite (from_native_table T2 Hnd). simpl.
  destruct (truthy p); simpl; [|reflexivity].
  destruct (nw_select T2 C); reflexivity.
Qed.

(** [ColumnDropper.transform] on a table with unique labels, for an
    instance that has its attributes. *)
Lemma ColumnDropper_transform_table
    (T2 : DataFrame) (p : column_spec) (C names_ : list key) :
  NoDup (names T2) ->
  ColumnDropper.transform (PdDataFrame T2)
    (ColumnDropper.mk p (Some C) (Some names_))
  = match C with
    | [] => (Ok (PdDataFrame T2), ColumnDropper.mk p (Some C) (Some names_))
    | _ :: _ =>
        match drop T2 C with
        | Ok kept =>
            (Ok (PdDataFrame kept), ColumnDropper.mk p (Some C) (Some names_))
        | Raise e => (Raise e, ColumnDropper.mk p (Some C) (Some names_))
        end
    end.
Proof.
  intros Hnd. unfold ColumnDropper.transform, nw_drop, to_native. run.
  rewrite (from_native_table T2 Hnd). simpl.
  destruct C as [|c C']; [reflexivity|].
  destruct (drop T2 (c :: C')); reflexivity.
Qed.

Lemma filter_length_zero {A : Type} (f : A -> bool) (l : list A) :
  (length (filter f l) =? 0)%nat = true <-> forall x, In x l -> f x = false.
Proof.
  rewrite Nat.eqb_eq, length_zero_iff_nil. split.
  - apply filter_nil_all.
  - intros H. induction l as [|x xs IH]; simpl; [reflexivity|].
    rewrite (H x) by (simpl; auto). apply IH. intros y Hy. apply H. simpl. auto.
Qed.

(** The dropper has nothing left exactly when every column is named. *)
Lemma nothing_left (df : DataFrame) (C : list key) :
  (length (filter (fun x => negb (mem x C)) (names df)) =? 0)%nat = true <->
  incl (names df) C.
Proof.
  rewrite filter_length_zero. split.
  - intros H k Hk. apply mem_In. specialize (H k Hk).
    apply negb_false_iff in H. assumption.
  - intros H k Hk. apply negb_false_iff, mem_In, H. assumption.
Qed.

(** C2, as amended.  For every table [T] with unique column labels and
    every subset [C] of its columns: when [C] is not empty and names its
    columns by strings, [ColumnSelector(C)] fits on [T] and transforms [T]
    into the table with exactly the columns [C], in the order of [C], each
    of them a column of [T]; when [C] leaves a column of [T],
    [ColumnDropper(C)] fits on [T] and transforms [T] into the table with
    the columns of [T] that are not in [C], in the order of [T] and
    unchanged; the rows keep their labels.  For the empty [C] the fit of
    the selector, and for a [C] with every column of [T] the fit of the
    dropper, raise the [ValueError] of the length check. *)
Theorem select_and_drop_after_fit (T : DataFrame) (C : list key) :
  NoDup (names T) -> incl C (names T) ->
  (C <> [] -> forallb is_name C = true ->
   exists s' T',
     ColumnSelector.fit (PdDataFrame T) (ColumnSelector.__init__ (Many C))
     = (Ok tt, s') /\
     ColumnSelector.transform (PdDataFrame T) s' = (Ok (PdDataFrame T'), s') /\
     names T' = C /\ incl (columns T') (columns T) /\ index T' = index T) /\
  (C = [] ->
   outcome (ColumnSelector.fit (PdDataFrame T) (ColumnSelector.__init__ (Many C)))
   = Raise (ValueError ExpectedColumnsLength)) /\
  (~ incl (names T) C ->
   exists s' T',
     ColumnDropper.fit (PdDataFrame T) (ColumnDropper.__init__ (Many C))
     = (Ok tt, s') /\
     ColumnDropper.transform (PdDataFrame T) s' = (Ok (PdDataFrame T'), s') /\
     columns T' = filter (fun s => negb (mem (s_name s) C)) (columns T) /\
     index T' = index T) /\
  (incl (names T) C ->
   outcome (ColumnDropper.fit (PdDataFrame T) (ColumnDropper.__init__ (Many C)))
   = Raise (ValueError (EmptyOutput C))).
Proof.
  intros Hnd Hincl.
  pose proof (proj2 (non_existent_columns_nil C T) Hincl) as Hnone.
  split; [|split; [|split]].
  - intros Hne Hstr.
    destruct (loc_columns_unique (columns T) C Hnd Hincl)
      as [cs [Hcs [Hnames Hsub]]].
    exists (ColumnSelector.mk (Many C) (Some C)), (mkDataFrame (index T) cs).
    split; [|split; [|auto]].
    + rewrite (ColumnSelector_fit_table T _ Hnd). simpl. rewrite Hnone.
      destruct C; [contradiction | reflexivity].
    + rewrite (ColumnSelector_transform_table T _ _ Hnd).
      unfold nw_select, loc. rewrite Hstr, Hcs.
      destruct C; [contradiction | reflexivity].
  - intros HC. subst C. rewrite (ColumnSelector_fit_table T _ Hnd). reflexivity.
  - intros Hleft.
    rewrite (ColumnDropper_fit_table T _ Hnd). simpl. rewrite Hnone.
    destruct (length (filter (fun x => negb (mem x C)) (names T)) =? 0)%nat eqn:E.
    { exfalso. apply Hleft. apply nothing_left. assumption. }
    destruct C as [|c C'].
    + eexists. exists T. split; [reflexivity|].
      rewrite (ColumnDropper_transform_table T _ _ _ Hnd).
      split; [reflexivity|]. rewrite filter_none_dropped. auto.
    + eexists. eexists. split; [reflexivity|].
      rewrite (ColumnDropper_transform_table T _ _ _ Hnd).
      rewrite (drop_present T (c :: C') Hincl).
      split; [reflexivity|]. simpl. auto.
  - intros Hall.
    rewrite (ColumnDropper_fit_table T _ Hnd). simpl. rewrite Hnone.
    apply nothing_left in Hall. rewrite Hall. reflexivity.
Qed.

(** C2 at the table of the docstrings. *)
Lemma select_and_drop_after_fit_witness :
  (exists s' T',
      ColumnSelector.fit (PdDataFrame shoes)
        (ColumnSelector.__init__ (Many [KStr "shoesize"; KStr "name"]))
      = (Ok tt, s') /\
      ColumnSelector.transform (PdDataFrame shoes) s'
      = (Ok (PdDataFrame T'), s') /\
      names T' = [KStr "shoesize"; KStr "name"] /\
      incl (columns T') (columns shoes) /\ index T' = index shoes) /\
  (exists s' T',
      ColumnDropper.fit (PdDataFrame shoes)
        (ColumnDropper.__init__ (Many [KStr "name"]))
      = (Ok tt, s') /\
      ColumnDropper.transform (PdDataFrame shoes) s'
      = (Ok (PdDataFrame T'), s') /\
      columns T' = filter (fun s => negb (mem (s_name s) [KStr "name"]))
                     (columns shoes) /\
      index T' = index shoes).
Proof.
  assert (Hnd : NoDup (names shoes)) by (unfold names; simpl; explicit_list).
  split.
  - apply (proj1 (select_and_drop_after_fit shoes
                    [KStr "shoesize"; KStr "name"] Hnd
                    ltac:(intros k Hk; unfold names; simpl in *; tauto)));
      [discriminate | reflexivity].
  - apply (proj1 (proj2 (proj2 (select_and_drop_after_fit shoes [KStr "name"] Hnd
                    ltac:(intros k Hk; unfold names; simpl in *; tauto))))).
    intros H. specialize (H (KStr "length")). unfold names in H. simpl in H.
    intuition discriminate.
Defined.

(** C2 as stated fails: the empty list is a subset of the columns of
    [shoes], and the fit of [ColumnSelector([])] raises; ["a"] is a subset
    of the columns of the table with the single column ["a"], and the fit of
    [ColumnDropper(["a"])] raises. *)
Lemma empty_selection_and_full_drop_do_not_fit :
  incl [] (names shoes) /\
  outcome (ColumnSelector.fit (PdDataFrame shoes)
             (ColumnSelector.__init__ (Many [])))
  = Raise (ValueError ExpectedColumnsLength) /\
  incl [KStr "a"] (names only_a) /\
  outcome (ColumnDropper.fit (PdDataFrame only_a)
             (ColumnDropper.__init__ (Many [KStr "a"])))
  = Raise (ValueError (EmptyOutput [KStr "a"])).
Proof.
  split; [intros k []|]. split; [reflexivity|].
  split; [intros k Hk; exact Hk | reflexivity].
Qed.

(** ** Selecting columns by dtype *)

Lemma dtypes_names (df : DataFrame) : map fst (dtypes df) = names df.
Proof.
  unfold dtypes, names. rewrite map_map. reflexivity.
Qed.

Lemma keys_eqb_eq (a b : list key) : keys_eqb a b = true <-> a = b.
Proof.
  revert b. induction a as [|x xs IH]; intros [|y ys]; simpl;
    try (split; [discriminate | discriminate]); [tauto|].
  rewrite andb_true_iff, IH. destruct (key_eqb_spec x y); split.
  - intros [_ H]. congruence.
  - intros H. inversion H. auto.
  - intros [H _]. discriminate.
  - intros H. inversion H. contradiction.
Qed.

(** Two dtype records with the same labels and no differing entry are the
    same record. *)
Lemma no_difference (a b : list (key * dtype)) :
  map fst a = map fst b -> any (map differs (combine a b)) = false -> a = b.
Proof.
  revert b. induction a as [|[k x] a' IH]; intros [|[k' y] b']; simpl;
    try discriminate; [reflexivity|].
  intros Hk Hd. inversion Hk; subst. unfold any in *. simpl in Hd.
  apply orb_false_iff in Hd. destruct Hd as [Hxy Hrest].
  unfold differs in Hxy. simpl in Hxy. apply negb_false_iff in Hxy.
  destruct (dtype_eqb_spec x y); [|discriminate]. subst.
  f_equal. apply IH; assumption.
Qed.

(** A label whose dtype changed shows up as a difference. *)
Lemma some_difference (a b : list (key * dtype)) (n : key) (d1 d2 : dtype) :
  map fst a = map fst b -> NoDup (map fst a) ->
  In (n, d1) a -> In (n, d2) b -> d1 <> d2 ->
  any (map differs (combine a b)) = true.
Proof.
  revert b. induction a as [|[k x] a' IH]; intros [|[k' y] b']; simpl;
    try discriminate; try contradiction.
  intros Hk Hnd Ha Hb Hne. inversion Hk; subst. inversion Hnd; subst.
  unfold any. simpl. apply orb_true_iff.
  destruct Ha as [Ha|Ha], Hb as [Hb|Hb].
  - inversion Ha; inversion Hb; subst. left. unfold differs. simpl.
    destruct (dtype_eqb_spec d1 d2); [contradiction | reflexivity].
  - inversion Ha; subst. exfalso.
    match goal with H : ~ In _ _ |- _ => apply H end.
    match goal with H : map fst _ = map fst _ |- _ => rewrite H end.
    apply (in_map fst) in Hb. exact Hb.
  - inversion Hb; subst. exfalso.
    match goal with H : ~ In _ _ |- _ => apply H end.
    apply (in_map fst) in Ha. exact Ha.
  - right. eapply IH; eassumption.
Qed.

Lemma select_dtypes_names (df kept : DataFrame) (include exclude : list type_spec) :
  select_dtypes df include exclude = Ok kept ->
  names kept =
  map fst (filter (fun p => selected include exclude (snd p)) (dtypes df)).
Proof.
  unfold select_dtypes.
  assert (Hgen :
    names (mkDataFrame (index df)
             (filter (fun s => selected include exclude (s_dtype s)) (columns df)))
    = map fst (filter (fun p => selected include exclude (snd p)) (dtypes df))).
  { unfold names, dtypes. simpl. rewrite filter_map_swap, map_map. reflexivity. }
  destruct include, exclude; try discriminate;
    destruct (existsb _ _); try discriminate;
    intros H; inversion H; exact Hgen.
Qed.

(** What a successful [PandasTypeSelector.fit] has checked and recorded. *)
Lemma PandasTypeSelector_fit_Ok (X : input) (s s' : PandasTypeSelector.t) :
  PandasTypeSelector.fit X s = (Ok tt, s') ->
  exists df kept, X = PdDataFrame df /\
    select_dtypes df (PandasTypeSelector.include s) (PandasTypeSelector.exclude s)
    = Ok kept /\
    names kept <> [] /\
    s' = PandasTypeSelector.mk (PandasTypeSelector.include s)
           (PandasTypeSelector.exclude s) (Some (dtypes df)) (Some (names kept)).
Proof.
  unfold PandasTypeSelector.fit. run.
  destruct X as [df|a|a]; simpl; try discriminate.
  destruct (select_dtypes df (PandasTypeSelector.include s)
              (PandasTypeSelector.exclude s)) as [kept|e] eqn:E; simpl;
    [|discriminate].
  destruct (names kept) as [|c cs] eqn:En; simpl; [discriminate|].
  intros H. inversion H. exists df, kept. rewrite En.
  split; [reflexivity|]. split; [exact E|].
  split; [discriminate | reflexivity].
Qed.

(** What [PandasTypeSelector.transform] has checked when it returns. *)
Lemma PandasTypeSelector_transform_Ok (X : input) (s s' : PandasTypeSelector.t)
    (fitted : list (key * dtype)) (out : DataFrame) :
  PandasTypeSelector.X_dtypes_ s = Some fitted ->
  PandasTypeSelector.transform X s = (Ok out, s') ->
  s' = s /\
  exists df, X = PdDataFrame df /\ dtypes df = fitted /\
    select_dtypes df (PandasTypeSelector.include s) (PandasTypeSelector.exclude s)
    = Ok out.
Proof.
  intros Hf. destruct s as [inc exc xd fn]. simpl in Hf. subst xd.
  unfold PandasTypeSelector.transform. run.
  destruct fn as [fn|]; simpl; [|discriminate].
  destruct X as [df|a|a]; simpl; try discriminate.
  unfold series_ne.
  destruct (keys_eqb (map fst fitted) (map fst (dtypes df))) eqn:Ek; simpl;
    [|discriminate].
  destruct (any _) eqn:Ea; simpl; [discriminate|].
  intros H.
  destruct (select_dtypes df inc exc) as [kept|e] eqn:E; inversion H; subst.
  split; [reflexivity|]. exists df. split; [reflexivity|]. split; [|exact E].
  symmetry. apply no_difference; [apply keys_eqb_eq; assumption | exact Ea].
Qed.

(** C6.  After a successful fit on [T1], transforming a table [T2] in which
    some column has another dtype than the column of that label had in [T1]
    raises the [ValueError] "Columns were not equal during fit and
    transform", raised from the dtype comparison, whatever [include] and
    [exclude] are, so also when that column is not selected. *)
Theorem dtype_change_is_rejected
    (sel s' : PandasTypeSelector.t) (T1 T2 : DataFrame)
    (n : key) (d1 d2 : dtype) :
  NoDup (names T1) ->
  PandasTypeSelector.fit (PdDataFrame T1) sel = (Ok tt, s') ->
  In (n, d1) (dtypes T1) -> In (n, d2) (dtypes T2) -> d1 <> d2 ->
  PandasTypeSelector.transform (PdDataFrame T2) s'
  = (Raise (ValueError ColumnsNotEqual), s').
Proof.
  intros Hnd Hfit H1 H2 Hne. apply PandasTypeSelector_fit_Ok in Hfit.
  destruct Hfit as [df [kept [HX [Hsel [Hkept Hs']]]]]. inversion HX. subst df s'.
  unfold PandasTypeSelector.transform. run. unfold series_ne.
  destruct (keys_eqb (map fst (dtypes T1)) (map fst (dtypes T2))) eqn:Ek;
    simpl; [|reflexivity].
  apply keys_eqb_eq in Ek.
  assert (Ha : any (map differs (combine (dtypes T1) (dtypes T2))) = true).
  { eapply some_difference; try eassumption. rewrite dtypes_names. assumption. }
  rewrite Ha. reflexivity.
Qed.

(** C6 at [shoes] and [shoes_float]: only the strings are selected, and
    the shoe sizes changed from integers to floats. *)
Lemma dtype_change_is_rejected_witness :
  PandasTypeSelector.transform (PdDataFrame shoes_float)
    (PandasTypeSelector.mk [exactly object_] []
       (Some (dtypes shoes)) (Some [KStr "name"]))
  = (Raise (ValueError ColumnsNotEqual),
     PandasTypeSelector.mk [exactly object_] []
       (Some (dtypes shoes)) (Some [KStr "name"])).
Proof.
  apply (dtype_change_is_rejected
           (PandasTypeSelector.__init__ [exactly object_] []) _ shoes shoes_float
           (KStr "shoesize") int64 float64).
  - unfold names. simpl. explicit_list.
  - reflexivity.
  - simpl. tauto.
  - simpl. tauto.
  - discriminate.
Defined.

(** Whenever [transform] returns after a successful [fit], its input is a
    table with the dtype record of the fit, and the columns it returns are
    the fitted ones. *)
Lemma accepted_input_has_fitted_dtypes
    (sel s' s'' : PandasTypeSelector.t) (X1 X2 : input) (out : DataFrame) :
  PandasTypeSelector.fit X1 sel = (Ok tt, s') ->
  PandasTypeSelector.transform X2 s' = (Ok out, s'') ->
  exists T1 T2, X1 = PdDataFrame T1 /\ X2 = PdDataFrame T2 /\
    dtypes T2 = dtypes T1 /\
    PandasTypeSelector.feature_names_ s' = Some (names out).
Proof.
  intros Hfit Htr. apply PandasTypeSelector_fit_Ok in Hfit.
  destruct Hfit as [T1 [kept [HX1 [Hsel [_ Hs']]]]].
  eapply PandasTypeSelector_transform_Ok in Htr; [|subst s'; reflexivity].
  destruct Htr as [_ [T2 [HX2 [Hdt Hsel2]]]].
  exists T1, T2. repeat split; try assumption.
  subst s'. simpl in *. f_equal.
  rewrite (select_dtypes_names _ _ _ _ Hsel), (select_dtypes_names _ _ _ _ Hsel2).
  rewrite Hdt. reflexivity.
Qed.

(** C7, as amended.  For every input accepted by [fit] and every input
    accepted by the following [transform], the columns of the output are
    the fitted [feature_names_], in order: the selection is recomputed from
    the dtypes of the transform input, but the dtype comparison only lets
    through a table whose dtype record is the one of the fit, on which the
    recomputed selection is the fitted one. *)
Theorem recomputed_selection_is_fitted_selection
    (sel s' s'' : PandasTypeSelector.t) (X1 X2 : input) (out : DataFrame) :
  PandasTypeSelector.fit X1 sel = (Ok tt, s') ->
  PandasTypeSelector.transform X2 s' = (Ok out, s'') ->
  PandasTypeSelector.get_feature_names s' = (Ok (names out), s') /\
  exists T1 T2, X1 = PdDataFrame T1 /\ X2 = PdDataFrame T2 /\
    dtypes T2 = dtypes T1.
Proof.
  intros Hfit Htr.
  destruct (accepted_input_has_fitted_dtypes _ _ _ _ _ _ Hfit Htr)
    as [T1 [T2 [H1 [H2 [Hdt Hfn]]]]].
  split; [|eauto].
  unfold PandasTypeSelector.get_feature_names. run. rewrite Hfn. reflexivity.
Qed.

(** C7 at [shoes], fitted and transformed with the numbers selected. *)
Lemma recomputed_selection_is_fitted_selection_witness :
  PandasTypeSelector.get_feature_names
    (PandasTypeSelector.mk [number] [] (Some (dtypes shoes))
       (Some [KStr "length"; KStr "shoesize"]))
  = (Ok [KStr "length"; KStr "shoesize"],
     PandasTypeSelector.mk [number] [] (Some (dtypes shoes))
       (Some [KStr "length"; KStr "shoesize"])).
Proof.
  apply (proj1 (recomputed_selection_is_fitted_selection
                  (PandasTypeSelector.__init__ [number] []) _ _
                  (PdDataFrame shoes) (PdDataFrame shoes)
                  (mkDataFrame (index shoes) (tl (columns shoes)))
                  eq_refl eq_refl)).
Defined.

(** C7 as stated fails: no pair of inputs is accepted by [fit] and by the
    following [transform] with an output whose columns are not the fitted
    [feature_names_]. *)
Lemma no_accepted_input_changes_the_selection :
  ~ exists (sel s' s'' : PandasTypeSelector.t) (X1 X2 : input) (out : DataFrame),
      PandasTypeSelector.fit X1 sel = (Ok tt, s') /\
      PandasTypeSelector.transform X2 s' = (Ok out, s'') /\
      PandasTypeSelector.feature_names_ s' <> Some (names out).
Proof.
  intros [sel [s' [s'' [X1 [X2 [out [Hfit [Htr Hne]]]]]]]].
  destruct (accepted_input_has_fitted_dtypes _ _ _ _ _ _ Hfit Htr)
    as [T1 [T2 [_ [_ [_ Hfn]]]]].
  contradiction.
Qed.

(** C8.  A fitted [PandasTypeSelector] that is given something else than a
    pandas DataFrame does not reach [_check_X_for_type]: the comparison of
    the dtypes reads [X.dtypes] first, and [transform] raises
    [AttributeError] where the docstring and the claim have [TypeError]. *)
Theorem transform_of_non_table_raises_AttributeError
    (s : PandasTypeSelector.t) (X : input) :
  hasattr (PandasTypeSelector.X_dtypes_ s) = true ->
  hasattr (PandasTypeSelector.feature_names_ s) = true ->
  PandasTypeSelector._check_X_for_type X = Raise (TypeError NotPandasDataFrame) ->
  PandasTypeSelector.transform X s
  = (Raise (AttributeError (NoAttribute "dtypes")), s).
Proof.
  destruct s as [inc exc [xd|] [fn|]]; simpl; try discriminate.
  intros _ _. unfold PandasTypeSelector.transform. run.
  destruct X as [df|a|a]; simpl; [discriminate | reflexivity | reflexivity].
Qed.

(** C8 at a selector fitted on [shoes] and the array [two_by_two]. *)
Lemma transform_of_non_table_raises_AttributeError_witness :
  PandasTypeSelector.transform (NpArray two_by_two)
    (after (PandasTypeSelector.fit (PdDataFrame shoes)
              (PandasTypeSelector.__init__ [number] [])))
  = (Raise (AttributeError (NoAttribute "dtypes")),
     after (PandasTypeSelector.fit (PdDataFrame shoes)
              (PandasTypeSelector.__init__ [number] []))).
Proof.
  apply transform_of_non_table_raises_AttributeError; reflexivity.
Defined.

(** ** Failures and the state of the instance *)

Lemma from_native_raises (X : input) (e : exn) :
  from_native X = Raise e ->
  e = TypeError NotSupportedDataFrame \/ e = ValueError DuplicateColumnNames.
Proof.
  unfold from_native. destruct X as [df|a|a].
  - destruct (has_duplicates (names df)); [|discriminate].
    intros H. inversion H. auto.
  - intros H. inversion H. auto.
  - intros H. inversion H. auto.
Qed.

(** [ColumnDropper.fit], check by check. *)
Lemma ColumnDropper_fit_eq (X : input) (s : ColumnDropper.t) :
  ColumnDropper.fit X s =
  let cols_ := as_list (ColumnDropper.columns s) in
  match from_native X with
  | Raise e =>
      (Raise e, ColumnDropper.mk (ColumnDropper.columns s) (Some cols_)
                  (ColumnDropper.feature_names_ s))
  | Ok df =>
      let kept := filter (fun x => negb (mem x cols_)) (names df) in
      match non_existent_columns cols_ df with
      | [] =>
          if (length kept =? 0)%nat
          then (Raise (ValueError (EmptyOutput cols_)),
                ColumnDropper.mk (ColumnDropper.columns s) (Some cols_) (Some kept))
          else (Ok tt,
                ColumnDropper.mk (ColumnDropper.columns s) (Some cols_) (Some kept))
      | missing =>
          (Raise (KeyError (NotInDataFrame missing)),
           ColumnDropper.mk (ColumnDropper.columns s) (Some cols_)
             (ColumnDropper.feature_names_ s))
      end
  end.
Proof.
  unfold ColumnDropper.fit, ColumnDropper._check_column_names,
    ColumnDropper._check_column_length. run.
  cases; reflexivity.
Qed.

Lemma select_dtypes_raises (df : DataFrame) (include exclude : list type_spec)
    (e : exn) :
  select_dtypes df include exclude = Raise e ->
  e = ValueError SelectDtypesEmpty \/ e = ValueError SelectDtypesOverlap.
Proof.
  unfold select_dtypes.
  destruct include, exclude; try (intros H; inversion H; auto; fail);
    destruct (existsb _ _); intros H; inversion H; auto.
Qed.

(** [PandasTypeSelector.fit], check by check. *)
Lemma PandasTypeSelector_fit_eq (X : input) (s : PandasTypeSelector.t) :
  PandasTypeSelector.fit X s =
  let inc := PandasTypeSelector.include s in
  let exc := PandasTypeSelector.exclude s in
  match X with
  | PdDataFrame df =>
      match select_dtypes df inc exc with
      | Raise e =>
          (Raise e, PandasTypeSelector.mk inc exc (Some (dtypes df))
                      (PandasTypeSelector.feature_names_ s))
      | Ok kept =>
          if (length (names kept) =? 0)%nat
          then (Raise (ValueError EmptyTypeSelection),
                PandasTypeSelector.mk inc exc (Some (dtypes df))
                  (Some (names kept)))
          else (Ok tt,
                PandasTypeSelector.mk inc exc (Some (dtypes df))
                  (Some (names kept)))
      end
  | _ => (Raise (TypeError NotPandasDataFrame), s)
  end.
Proof.
  unfold PandasTypeSelector.fit. run.
  destruct X as [df|a|a]; simpl; try reflexivity.
  destruct (select_dtypes df (PandasTypeSelector.include s)
              (PandasTypeSelector.exclude s)) as [kept|e]; simpl; [|reflexivity].
  destruct (length (names kept) =? 0)%nat; reflexivity.
Qed.

(** C9, as amended.  A call that fails returns nothing, and [transform],
    failing or not, leaves the instance as it was.  A failing [fit] leaves
    the parameters as they were, but not always the fitted attributes:
    [ColumnSelector.fit] and [ColumnDropper.fit] have recorded [columns_]
    before any check; [ColumnDropper.fit] has recorded an empty
    [feature_names_] when it fails on the empty result, which it does on
    every table all of whose columns are named, and has left
    [feature_names_] as it was when it fails otherwise;
    [PandasTypeSelector.fit] leaves the instance unchanged when it fails on
    the type of its input, and otherwise has recorded [X_dtypes_], and an
    empty [feature_names_] when it fails on the empty selection, which it
    does on every table without a selected column. *)
Theorem failures_and_instance_state :
  (forall X s, after (ColumnSelector.transform X s) = s) /\
  (forall X s, after (ColumnDropper.transform X s) = s) /\
  (forall X s, after (PandasTypeSelector.transform X s) = s) /\
  (forall X s,
      after (ColumnSelector.fit X s)
      = ColumnSelector.mk (ColumnSelector.columns s)
          (Some (as_list (ColumnSelector.columns s)))) /\
  (forall X s e,
      outcome (ColumnDropper.fit X s) = Raise e ->
      ColumnDropper.columns (after (ColumnDropper.fit X s))
      = ColumnDropper.columns s /\
      ColumnDropper.columns_ (after (ColumnDropper.fit X s))
      = Some (as_list (ColumnDropper.columns s)) /\
      (e = ValueError (EmptyOutput (as_list (ColumnDropper.columns s))) /\
       ColumnDropper.feature_names_ (after (ColumnDropper.fit X s)) = Some [] \/
       e <> ValueError (EmptyOutput (as_list (ColumnDropper.columns s))) /\
       ColumnDropper.feature_names_ (after (ColumnDropper.fit X s))
       = ColumnDropper.feature_names_ s)) /\
  (forall df s,
      NoDup (names df) ->
      incl (as_list (ColumnDropper.columns s)) (names df) ->
      incl (names df) (as_list (ColumnDropper.columns s)) ->
      ColumnDropper.fit (PdDataFrame df) s
      = (Raise (ValueError (EmptyOutput (as_list (ColumnDropper.columns s)))),
         ColumnDropper.mk (ColumnDropper.columns s)
           (Some (as_list (ColumnDropper.columns s))) (Some []))) /\
  (forall X s e,
      outcome (PandasTypeSelector.fit X s) = Raise e ->
      (e = TypeError NotPandasDataFrame /\
       after (PandasTypeSelector.fit X s) = s) \/
      (exists df, X = PdDataFrame df /\
         PandasTypeSelector.include (after (PandasTypeSelector.fit X s))
         = PandasTypeSelector.include s /\
         PandasTypeSelector.exclude (after (PandasTypeSelector.fit X s))
         = PandasTypeSelector.exclude s /\
         PandasTypeSelector.X_dtypes_ (after (PandasTypeSelector.fit X s))
         = Some (dtypes df) /\
         (e = ValueError EmptyTypeSelection /\
          PandasTypeSelector.feature_names_ (after (PandasTypeSelector.fit X s))
          = Some [] \/
          e <> ValueError EmptyTypeSelection /\
          PandasTypeSelector.feature_names_ (after (PandasTypeSelector.fit X s))
          = PandasTypeSelector.feature_names_ s))) /\
  (forall df s kept,
      select_dtypes df (PandasTypeSelector.include s) (PandasTypeSelector.exclude s)
      = Ok kept ->
      columns kept = [] ->
      PandasTypeSelector.fit (PdDataFrame df) s
      = (Raise (ValueError EmptyTypeSelection),
         PandasTypeSelector.mk (PandasTypeSelector.include s)
           (PandasTypeSelector.exclude s) (Some (dtypes df)) (Some []))).
Proof.
  split; [|split; [|split; [|split; [|split; [|split; [|split]]]]]].
  - intros X s. unfold ColumnSelector.transform. run.
    cases; reflexivity.
  - intros X s. unfold ColumnDropper.transform, nw_drop. run.
    cases; reflexivity.
  - intros X s.
    unfold PandasTypeSelector.transform, except_ValueError, series_ne, bind.
    run. cases; reflexivity.
  - intros X s. unfold ColumnSelector.fit, ColumnSelector._check_column_names,
      ColumnSelector._check_column_length. run.
    cases; reflexivity.
  - intros X s e. rewrite ColumnDropper_fit_eq. simpl.
    destruct (from_native X) as [df|e0] eqn:En; simpl.
    + destruct (non_existent_columns (as_list (ColumnDropper.columns s)) df);
        simpl.
      * destruct (length _ =? 0)%nat eqn:El; simpl; [|discriminate].
        intros H. inversion H. subst e. repeat split. left. split; [reflexivity|].
        apply Nat.eqb_eq, length_zero_iff_nil in El. rewrite El. reflexivity.
      * intros H. inversion H. subst e. repeat split. right.
        split; [discriminate | reflexivity].
    + intros H. inversion H. subst e0. repeat split. right.
      split; [|reflexivity].
      destruct (from_native_raises _ _ En) as [He|He]; subst e; discriminate.
  - intros df s Hnd Hincl Hall. rewrite (ColumnDropper_fit_table df s Hnd). simpl.
    apply non_existent_columns_nil in Hincl. rewrite Hincl.
    pose proof (proj2 (nothing_left df _) Hall) as Hz. rewrite Hz.
    apply Nat.eqb_eq, length_zero_iff_nil in Hz. rewrite Hz. reflexivity.
  - intros X s e. rewrite PandasTypeSelector_fit_eq. simpl.
    destruct X as [df|a|a]; simpl;
      try (intros H; inversion H; subst; left; auto; fail).
    intros H. right. exists df. split; [reflexivity|]. revert H.
    destruct (select_dtypes df (PandasTypeSelector.include s)
                (PandasTypeSelector.exclude s)) as [kept|e0] eqn:Es; simpl.
    + destruct (length (names kept) =? 0)%nat eqn:El; simpl; [|discriminate].
      intros H. inversion H. subst e. repeat split. left. split; [reflexivity|].
      apply Nat.eqb_eq, length_zero_iff_nil in El. rewrite El. reflexivity.
    + intros H. inversion H. subst e0. repeat split. right.
      split; [|reflexivity].
      destruct (select_dtypes_raises _ _ _ _ Es) as [He|He]; subst e;
        discriminate.
  - intros df s kept Hsel Hcols. rewrite PandasTypeSelector_fit_eq. simpl.
    rewrite Hsel. unfold names. rewrite Hcols. reflexivity.
Qed.

(** C9 at [ColumnDropper(["a"])] fitted on the table with the single
    column ["a"]: the fit fails after both attributes were recorded. *)
Lemma failures_and_instance_state_witness :
  ColumnDropper.fit (PdDataFrame only_a) (ColumnDropper.__init__ (Many [KStr "a"]))
  = (Raise (ValueError (EmptyOutput [KStr "a"])),
     ColumnDropper.mk (Many [KStr "a"]) (Some [KStr "a"]) (Some [])).
Proof.
  assert (Hnd : NoDup (names only_a)) by (unfold names; simpl; explicit_list).
  apply (proj1 (proj2 (proj2 (proj2 (proj2 (proj2 failures_and_instance_state)))))
           only_a (ColumnDropper.__init__ (Many [KStr "a"])) Hnd).
  - intros k Hk. exact Hk.
  - intros k Hk. exact Hk.
Defined.

(** C9 as stated fails: the fit of [ColumnDropper(["a"])] on the table with
    the single column ["a"] raises, and the instance after the call is not
    the instance before it. *)
Lemma failed_fit_changes_the_instance :
  ColumnDropper.fit (PdDataFrame only_a)
    (ColumnDropper.__init__ (Many [KStr "a"]))
  = (Raise (ValueError (EmptyOutput [KStr "a"])),
     ColumnDropper.mk (Many [KStr "a"]) (Some [KStr "a"]) (Some [])) /\
  ColumnDropper.mk (Many [KStr "a"]) (Some [KStr "a"]) (Some [])
  <> ColumnDropper.__init__ (Many [KStr "a"]).
Proof. split; [reflexivity | discriminate]. Qed.

(** C10, as amended.  On an instance without the fitted attributes,
    [ColumnDropper.transform] and [PandasTypeSelector.transform] raise
    [NotFittedError] before anything else, whatever the input.
    [ColumnSelector.transform] makes no such check: without [columns_] it
    hands an input that is no supported dataframe to the dataframe layer,
    which raises [TypeError]; on a table it returns the table as it is when
    [columns] is empty, and otherwise fails on the attribute [columns_]
    that is not there. *)
Theorem transform_before_fit :
  (forall X s,
      ColumnDropper.feature_names_ s = None ->
      ColumnDropper.transform X s = (Raise (NotFittedError NotFitted), s)) /\
  (forall X s,
      PandasTypeSelector.X_dtypes_ s = None \/
      PandasTypeSelector.feature_names_ s = None ->
      PandasTypeSelector.transform X s = (Raise (NotFittedError NotFitted), s)) /\
  (forall X s,
      ColumnSelector.columns_ s = None ->
      ColumnSelector.transform X s
      = match from_native X with
        | Raise e => (Raise e, s)
        | Ok df =>
            if truthy (ColumnSelector.columns s)
            then (Raise (AttributeError (NoAttribute "columns_")), s)
            else (Ok (PdDataFrame df), s)
        end).
Proof.
  repeat split.
  - intros X s H. unfold ColumnDropper.transform. run. rewrite H. reflexivity.
  - intros X s H. unfold PandasTypeSelector.transform. run.
    destruct H as [H|H]; rewrite H; simpl; [reflexivity|].
    destruct (hasattr (PandasTypeSelector.X_dtypes_ s)); reflexivity.
  - intros X s H. unfold ColumnSelector.transform, to_native. run.
    destruct (from_native X) as [df|e]; simpl; [|reflexivity].
    destruct (truthy (ColumnSelector.columns s)); [|reflexivity].
    rewrite H. reflexivity.
Qed.

(** C10 at instances fresh from their constructors. *)
Lemma transform_before_fit_witness :
  ColumnDropper.transform (PdDataFrame shoes)
    (ColumnDropper.__init__ (Many [KStr "name"]))
  = (Raise (NotFittedError NotFitted),
     ColumnDropper.__init__ (Many [KStr "name"])) /\
  PandasTypeSelector.transform (PdDataFrame shoes)
    (PandasTypeSelector.__init__ [number] [])
  = (Raise (NotFittedError NotFitted),
     PandasTypeSelector.__init__ [number] []) /\
  ColumnSelector.transform (PdDataFrame shoes)
    (ColumnSelector.__init__ (Many [KStr "name"]))
  = (Raise (AttributeError (NoAttribute "columns_")),
     ColumnSelector.__init__ (Many [KStr "name"])).
Proof.
  split; [|split].
  - apply (proj1 transform_before_fit). reflexivity.
  - apply (proj1 (proj2 transform_before_fit)). left. reflexivity.
  - apply (proj2 (proj2 transform_before_fit)
             (PdDataFrame shoes) (ColumnSelector.__init__ (Many [KStr "name"]))).
    reflexivity.
Defined.

(** C10 as stated fails: [ColumnDropper(["a"])] was never fitted with
    success, its only fit having raised, yet [transform] raises no
    not-fitted error and returns the table without its column. *)
Lemma transform_after_failed_fit :
  is_ok (outcome (ColumnDropper.fit (PdDataFrame only_a)
                    (ColumnDropper.__init__ (Many [KStr "a"])))) = false /\
  outcome (ColumnDropper.transform (PdDataFrame only_a)
             (after (ColumnDropper.fit (PdDataFrame only_a)
                       (ColumnDropper.__init__ (Many [KStr "a"])))))
  = Ok (PdDataFrame (mkDataFrame [KInt 0] [])).
Proof. split; reflexivity. Qed.

(** * Further properties of the transformers *)

(** ** The column checks of [fit] *)

Lemma dedup_In (l : list key) (k : key) : In k (dedup l) <-> In k l.
Proof.
  induction l as [|x xs IH]; simpl; [tauto|].
  rewrite filter_In, IH. split.
  - intros [H|[H _]]; auto.
  - intros [H|H]; [auto|].
    destruct (key_eqb_spec k x) as [E|E]; [subst; auto|].
    right. split; [assumption|].
    destruct (key_eqb_spec k x); [contradiction | reflexivity].
Qed.

Lemma dedup_NoDup (l : list key) : NoDup (dedup l).
Proof.
  induction l as [|x xs IH]; simpl; constructor.
  - rewrite filter_In. intros [_ H]. rewrite key_eqb_refl in H. discriminate.
  - apply NoDup_filter. assumption.
Qed.

Lemma non_existent_columns_spec (cols_ : list key) (X : DataFrame) (k : key) :
  In k (non_existent_columns cols_ X) <-> In k cols_ /\ ~ In k (names X).
Proof.
  unfold non_existent_columns. rewrite dedup_In, filter_In, negb_true_iff.
  rewrite mem_false. tauto.
Qed.

(** X1.  [ColumnSelector.fit] returns exactly when its input is a
    dataframe with unique column labels, every name of the specification is
    a column of it, and the specification names at least one column; the
    instance then holds the specification as [columns_]. *)
Theorem ColumnSelector_fit_succeeds_iff (X : input) (s s' : ColumnSelector.t) :
  ColumnSelector.fit X s = (Ok tt, s') <->
  exists df, X = PdDataFrame df /\ NoDup (names df) /\
    incl (as_list (ColumnSelector.columns s)) (names df) /\
    as_list (ColumnSelector.columns s) <> [] /\
    s' = ColumnSelector.mk (ColumnSelector.columns s)
           (Some (as_list (ColumnSelector.columns s))).
Proof.
  split.
  - intros H. apply ColumnSelector_fit_Ok in H.
    destruct H as [df [H1 [H2 [H3 [H4 H5]]]]]. exists df. auto.
  - intros [df [HX [Hnd [Hincl [Hne Hs']]]]]. subst X s'.
    rewrite (ColumnSelector_fit_table df s Hnd). simpl.
    apply non_existent_columns_nil in Hincl. rewrite Hincl.
    destruct (as_list (ColumnSelector.columns s)); [contradiction | reflexivity].
Qed.

(** X2.  When some name of the specification is not a column of the
    table (a table with unique column labels), [fit] of [ColumnSelector] and
    of [ColumnDropper] raises [KeyError] listing the names that are missing,
    each of them once and no other, whatever else is wrong with the
    specification. *)
Theorem fit_lists_the_missing_columns
    (T : DataFrame) (cs : ColumnSelector.t) (cd : ColumnDropper.t) :
  NoDup (names T) ->
  (~ incl (as_list (ColumnSelector.columns cs)) (names T) ->
   exists missing,
     outcome (ColumnSelector.fit (PdDataFrame T) cs)
     = Raise (KeyError (NotInDataFrame missing)) /\
     NoDup missing /\
     forall k, In k missing <->
               In k (as_list (ColumnSelector.columns cs)) /\ ~ In k (names T)) /\
  (~ incl (as_list (ColumnDropper.columns cd)) (names T) ->
   exists missing,
     outcome (ColumnDropper.fit (PdDataFrame T) cd)
     = Raise (KeyError (NotInDataFrame missing)) /\
     NoDup missing /\
     forall k, In k missing <->
               In k (as_list (ColumnDropper.columns cd)) /\ ~ In k (names T)).
Proof.
  intros Hnd. split; intros Hn.
  - rewrite (ColumnSelector_fit_table T cs Hnd). simpl.
    destruct (non_existent_columns (as_list (ColumnSelector.columns cs)) T)
      as [|m ms] eqn:E.
    + exfalso. apply Hn. apply non_existent_columns_nil. assumption.
    + exists (m :: ms). split; [reflexivity|]. rewrite <- E. split.
      * apply dedup_NoDup.
      * intros k. apply non_existent_columns_spec.
  - rewrite (ColumnDropper_fit_table T cd Hnd). simpl.
    destruct (non_existent_columns (as_list (ColumnDropper.columns cd)) T)
      as [|m ms] eqn:E.
    + exfalso. apply Hn. apply non_existent_columns_nil. assumption.
    + exists (m :: ms). split; [reflexivity|]. rewrite <- E. split.
      * apply dedup_NoDup.
      * intros k. apply non_existent_columns_spec.
Qed.

(** X2 at [shoes], asked twice for a weight it does not have. *)
Lemma fit_lists_the_missing_columns_witness :
  exists missing,
    outcome (ColumnSelector.fit (PdDataFrame shoes)
               (ColumnSelector.__init__
                  (Many [KStr "weight"; KStr "name"; KStr "weight"])))
    = Raise (KeyError (NotInDataFrame missing)) /\
    NoDup missing /\
    forall k, In k missing <->
              In k [KStr "weight"; KStr "name"; KStr "weight"] /\
              ~ In k (names shoes).
Proof.
  assert (Hnd : NoDup (names shoes)) by (unfold names; simpl; explicit_list).
  apply (proj1 (fit_lists_the_missing_columns shoes
                  (ColumnSelector.__init__
                     (Many [KStr "weight"; KStr "name"; KStr "weight"]))
                  (ColumnDropper.__init__ (Many [])) Hnd)).
  intros H. specialize (H (KStr "weight")). simpl in H.
  unfold names in H. simpl in H. intuition discriminate.
Defined.

(** X3.  [ColumnDropper.fit] returns exactly when its input is a
    dataframe with unique column labels, every name of the specification is
    a column of it, and some column is not named; it then holds the
    remaining column labels, in the order of the table, as
    [feature_names_].  On such a table with every name present it raises
    the empty-output [ValueError] exactly when the specification names every
    column of the table. *)
Theorem ColumnDropper_fit_succeeds_iff (X : input) (s s' : ColumnDropper.t) :
  (ColumnDropper.fit X s = (Ok tt, s') <->
   exists df, X = PdDataFrame df /\ NoDup (names df) /\
     incl (as_list (ColumnDropper.columns s)) (names df) /\
     ~ incl (names df) (as_list (ColumnDropper.columns s)) /\
     s' = ColumnDropper.mk (ColumnDropper.columns s)
            (Some (as_list (ColumnDropper.columns s)))
            (Some (filter (fun x => negb (mem x (as_list (ColumnDropper.columns s))))
                     (names df)))) /\
  (forall df, X = PdDataFrame df -> NoDup (names df) ->
     incl (as_list (ColumnDropper.columns s)) (names df) ->
     (outcome (ColumnDropper.fit X s)
      = Raise (ValueError (EmptyOutput (as_list (ColumnDropper.columns s)))) <->
      incl (names df) (as_list (ColumnDropper.columns s)))).
Proof.
  split; [split|].
  - intros H. apply ColumnDropper_fit_Ok in H.
    destruct H as [df [H1 [H2 [H3 [H4 H5]]]]]. exists df.
    repeat split; try assumption.
    intros Hall. apply H5. apply length_zero_iff_nil, Nat.eqb_eq, nothing_left.
    assumption.
  - intros [df [HX [Hnd [Hincl [Hne Hs']]]]]. subst X s'.
    rewrite (ColumnDropper_fit_table df s Hnd). simpl.
    apply non_existent_columns_nil in Hincl. rewrite Hincl.
    destruct (length _ =? 0)%nat eqn:E; [|reflexivity].
    exfalso. apply Hne, nothing_left. assumption.
  - intros df HX Hnd Hincl. subst X.
    rewrite (ColumnDropper_fit_table df s Hnd). simpl.
    apply non_existent_columns_nil in Hincl. rewrite Hincl.
    destruct (length _ =? 0)%nat eqn:E; simpl.
    + split; [|reflexivity]. intros _. apply nothing_left. assumption.
    + split; [discriminate|]. intros H. apply nothing_left in H. congruence.
Qed.

(** X1 at [shoes]. *)
Lemma ColumnSelector_fit_succeeds_iff_witness :
  ColumnSelector.fit (PdDataFrame shoes) (ColumnSelector.__init__ (Single (KStr "name")))
  = (Ok tt, ColumnSelector.mk (Single (KStr "name")) (Some [KStr "name"])).
Proof.
  apply (proj2 (ColumnSelector_fit_succeeds_iff (PdDataFrame shoes)
                  (ColumnSelector.__init__ (Single (KStr "name"))) _)).
  exists shoes. split; [reflexivity|]. split; [|split; [|split]].
  - unfold names. simpl. explicit_list.
  - intros k [Hk|[]]. subst. unfold names. simpl. tauto.
  - discriminate.
  - reflexivity.
Defined.

(** X3 at the table with the single column ["a"], all of it dropped. *)
Lemma ColumnDropper_fit_succeeds_iff_witness :
  outcome (ColumnDropper.fit (PdDataFrame only_a)
             (ColumnDropper.__init__ (Many [KStr "a"])))
  = Raise (ValueError (EmptyOutput [KStr "a"])).
Proof.
  assert (Hnd : NoDup (names only_a)) by (unfold names; simpl; explicit_list).
  apply (proj2 (ColumnDropper_fit_succeeds_iff (PdDataFrame only_a)
                  (ColumnDropper.__init__ (Many [KStr "a"]))
                  (ColumnDropper.__init__ (Many [KStr "a"]))) only_a eq_refl Hnd).
  - intros k Hk. exact Hk.
  - intros k Hk. exact Hk.
Defined.

(** ** [transform] on other tables than the one of the fit *)

Lemma labelled_present (g : key) (cols : list Series) :
  In g (map s_name cols) -> labelled g cols <> [].
Proof.
  induction cols as [|c cs IH]; simpl; [tauto|].
  destruct (key_eqb_spec (s_name c) g) as [E|E]; [discriminate|].
  intros [H|H]; [contradiction | auto].
Qed.

(** A label without a column makes the selection raise [KeyError] for the
    first such label. *)
Lemma loc_columns_missing (cols : list Series) (C : list key) (g : key) :
  In g C -> ~ In g (map s_name cols) ->
  exists g', loc_columns cols C = Raise (KeyError (NotInDataFrame [g'])) /\
             In g' C /\ ~ In g' (map s_name cols).
Proof.
  induction C as [|c cs IH]; simpl; [tauto|]. intros Hin Hn.
  destruct (labelled c cols) as [|h hs] eqn:E.
  - exists c. repeat split; auto.
    intros Hc. apply (labelled_present c cols Hc). assumption.
  - destruct Hin as [Hin|Hin].
    + subst c. rewrite (labelled_absent g cols Hn) in E. discriminate.
    + destruct (IH Hin Hn) as [g' [Hr [Hg' Hn']]]. rewrite Hr. simpl.
      exists g'. auto.
Qed.

Lemma loc_columns_Ok_incl (cols cs : list Series) (C : list key) :
  loc_columns cols C = Ok cs -> incl C (map s_name cols).
Proof.
  intros H k Hk.
  destruct (in_dec key_eq_dec k (map s_name cols)) as [Hin|Hn]; [assumption|].
  destruct (loc_columns_missing cols C k Hk Hn) as [g' [Hr _]]. congruence.
Qed.

Lemma names_of_dropped (cols : list Series) (C : list key) :
  map s_name (filter (fun s => negb (mem (s_name s) C)) cols)
  = filter (fun x => negb (mem x C)) (map s_name cols).
Proof. rewrite filter_map_swap. reflexivity. Qed.



(** X5.  [transform] does not check the columns again: on a table with
    unique labels that lacks a fitted column, [ColumnSelector.transform]
    (with a non-empty [columns] parameter and string names) and
    [ColumnDropper.transform] raise the [KeyError] of the table library,
    naming a column that the table lacks, and leave the instance as it
    was. *)
Theorem transform_on_a_table_without_a_fitted_column
    (T2 : DataFrame) (C : list key) (g : key) :
  NoDup (names T2) -> In g C -> ~ In g (names T2) ->
  (forall s,
      ColumnSelector.columns_ s = Some C ->
      truthy (ColumnSelector.columns s) = true ->
      forallb is_name C = true ->
      exists g',
        ColumnSelector.transform (PdDataFrame T2) s
        = (Raise (KeyError (NotInDataFrame [g'])), s) /\
        In g' C /\ ~ In g' (names T2)) /\
  (forall s names_,
      ColumnDropper.columns_ s = Some C ->
      ColumnDropper.feature_names_ s = Some names_ ->
      exists missing,
        ColumnDropper.transform (PdDataFrame T2) s
        = (Raise (KeyError (NotInDataFrame missing)), s) /\
        In g missing /\ forall k, In k missing -> In k C /\ ~ In k (names T2)).
Proof.
  intros Hnd Hin Hn. split.
  - intros s Hs Htruthy Hstr.
    destruct (loc_columns_missing (columns T2) C g Hin Hn) as [g' [Hr [H1 H2]]].
    exists g'. split; [|auto].
    destruct s as [p c_]. simpl in Hs, Htruthy. subst c_.
    rewrite (ColumnSelector_transform_table T2 _ _ Hnd).
    unfold nw_select, loc. rewrite Htruthy, Hstr, Hr. reflexivity.
  - intros s names_ Hs Hf.
    assert (Hg : In g (filter (fun k => negb (mem k (names T2))) C)).
    { apply filter_In. split; [assumption|].
      apply negb_true_iff, mem_false. assumption. }
    exists (filter (fun k => negb (mem k (names T2))) C).
    split; [|split; [assumption|]].
    + destruct s as [p c_ f_]. simpl in Hs, Hf. subst c_ f_.
      rewrite (ColumnDropper_transform_table T2 _ _ _ Hnd).
      destruct C as [|c C']; [contradiction|]. unfold drop.
      destruct (filter (fun k => negb (mem k (names T2))) (c :: C')) eqn:E;
        [contradiction | reflexivity].
    + intros k Hk. apply filter_In in Hk. destruct Hk as [Hk Hm].
      apply negb_true_iff, mem_false in Hm. auto.
Qed.

(** X5 at the table with the single column ["a"], asked for a name. *)
Lemma transform_on_a_table_without_a_fitted_column_witness :
  exists g',
    ColumnSelector.transform (PdDataFrame only_a)
      (ColumnSelector.mk (Many [KStr "name"]) (Some [KStr "name"]))
    = (Raise (KeyError (NotInDataFrame [g'])),
       ColumnSelector.mk (Many [KStr "name"]) (Some [KStr "name"])) /\
    In g' [KStr "name"] /\ ~ In g' (names only_a).
Proof.
  assert (Hn : ~ In (KStr "name") (names only_a))
    by (unfold names; simpl; intuition discriminate).
  assert (Hnd : NoDup (names only_a)) by (unfold names; simpl; explicit_list).
  apply (proj1 (transform_on_a_table_without_a_fitted_column only_a
                  [KStr "name"] (KStr "name") Hnd (or_introl eq_refl) Hn));
    reflexivity.
Defined.

(** ** Applying [transform] again, and degenerate specifications *)

Lemma unique_label_injective (cols : list Series) (x y : Series) :
  NoDup (map s_name cols) -> In x cols -> In y cols ->
  s_name x = s_name y -> x = y.
Proof.
  induction cols as [|c cs IH]; simpl; [tauto|].
  intros Hnd Hx Hy E. inversion Hnd as [|? ? Hc Hcs]; subst.
  destruct Hx as [Hx|Hx], Hy as [Hy|Hy].
  - congruence.
  - subst c. exfalso. apply Hc. rewrite E. apply in_map. assumption.
  - subst c. exfalso. apply Hc. rewrite <- E. apply in_map. assumption.
  - apply IH; assumption.
Qed.

(** Selecting, from a table with unique labels, the labels of some of its
    columns gives these columns back. *)
Lemma loc_columns_of_own_labels (cols sub : list Series) :
  NoDup (map s_name cols) -> incl sub cols ->
  loc_columns cols (map s_name sub) = Ok sub.
Proof.
  intros Hnd. induction sub as [|x xs IH]; intros Hincl; simpl; [reflexivity|].
  assert (Hx : In x cols) by (apply Hincl; simpl; auto).
  destruct (labelled_unique (s_name x) cols Hnd (in_map s_name _ _ Hx))
    as [y [Hy [Hin Hname]]].
  assert (y = x) by (eapply unique_label_injective; eassumption). subst y.
  rewrite Hy, IH; [reflexivity|].
  intros k Hk. apply Hincl. simpl. auto.
Qed.

(** X6.  Selecting is a projection, dropping is not repeatable: for a
    specification without repeated names, [ColumnSelector.transform]
    applied to its own output returns that output again, whereas
    [ColumnDropper.transform] with a non-empty [columns_], applied to its
    own output, raises [KeyError], the dropped columns being gone. *)
Theorem transform_applied_to_its_output
    (T out : DataFrame) (C : list key) :
  (forall s,
      ColumnSelector.columns_ s = Some C ->
      truthy (ColumnSelector.columns s) = true ->
      NoDup (names T) -> NoDup C ->
      ColumnSelector.transform (PdDataFrame T) s = (Ok (PdDataFrame out), s) ->
      ColumnSelector.transform (PdDataFrame out) s = (Ok (PdDataFrame out), s)) /\
  (forall s names_,
      ColumnDropper.columns_ s = Some C ->
      ColumnDropper.feature_names_ s = Some names_ ->
      C <> [] ->
      ColumnDropper.transform (PdDataFrame T) s = (Ok (PdDataFrame out), s) ->
      exists missing,
        ColumnDropper.transform (PdDataFrame out) s
        = (Raise (KeyError (NotInDataFrame missing)), s)).
Proof.
  split.
  - intros s Hs Htruthy HndT HndC.
    destruct s as [p c_]. simpl in Hs, Htruthy. subst c_.
    rewrite (ColumnSelector_transform_table T _ _ HndT). rewrite Htruthy.
    unfold nw_select.
    destruct (forallb is_name C) eqn:Hstr; [|discriminate].
    unfold loc.
    destruct (loc_columns (columns T) C) as [cs|e] eqn:E; simpl; [|discriminate].
    intros H. inversion H. subst out.
    pose proof (loc_columns_Ok_incl _ _ _ E) as Hincl.
    destruct (loc_columns_unique (columns T) C HndT Hincl) as [cs' [E' [Hn _]]].
    rewrite E in E'. inversion E'. subst cs'.
    assert (Hout : NoDup (names (mkDataFrame (index T) cs)))
      by (unfold names; simpl; rewrite Hn; assumption).
    rewrite (ColumnSelector_transform_table _ _ _ Hout). rewrite Htruthy.
    unfold nw_select, loc. rewrite Hstr. cbn [columns index].
    rewrite <- Hn at 1. rewrite loc_columns_of_own_labels; [reflexivity| |].
    + rewrite Hn. assumption.
    + intros x Hx. assumption.
  - intros s names_ Hs Hf Hne Htr.
    assert (HndT : NoDup (names T)).
    { revert Htr. unfold ColumnDropper.transform. run.
      cases; intros H; try discriminate;
        match goal with
        | E : from_native _ = Ok _ |- _ =>
            apply from_native_Ok in E; destruct E as [E1 E2];
            inversion E1; subst; assumption
        end. }
    revert Htr.
    destruct s as [p c_ f_]. simpl in Hs, Hf. subst c_ f_.
    rewrite (ColumnDropper_transform_table T _ _ _ HndT).
    destruct C as [|c C']; [contradiction|].
    destruct (drop T (c :: C')) as [kept|e] eqn:E; [|discriminate].
    intros H. inversion H. subst out. clear H.
    apply drop_Ok in E. destruct E as [_ [_ Hcols]].
    assert (Hkept : NoDup (names kept)).
    { unfold names. rewrite Hcols, names_of_dropped. apply NoDup_filter.
      assumption. }
    rewrite (ColumnDropper_transform_table kept _ _ _ Hkept).
    assert (Hc : ~ In c (names kept)).
    { unfold names. rewrite Hcols, names_of_dropped, filter_In.
      intros [_ Hm]. apply negb_true_iff, mem_false in Hm. apply Hm. simpl. auto. }
    unfold drop.
    destruct (filter (fun g => negb (mem g (names kept))) (c :: C')) eqn:F.
    + exfalso. pose proof (filter_nil_all _ _ F c (or_introl eq_refl)) as Hm.
      apply negb_false_iff, mem_In in Hm. contradiction.
    + eexists. reflexivity.
Qed.

(** X6 at [shoes] without its names. *)
Lemma transform_applied_to_its_output_witness :
  exists missing,
    ColumnDropper.transform
      (PdDataFrame (mkDataFrame (index shoes) (tl (columns shoes))))
      (ColumnDropper.mk (Many [KStr "name"]) (Some [KStr "name"])
         (Some [KStr "length"; KStr "shoesize"]))
    = (Raise (KeyError (NotInDataFrame missing)),
       ColumnDropper.mk (Many [KStr "name"]) (Some [KStr "name"])
         (Some [KStr "length"; KStr "shoesize"])).
Proof.
  apply (proj2 (transform_applied_to_its_output shoes
                  (mkDataFrame (index shoes) (tl (columns shoes)))
                  [KStr "name"])
           (ColumnDropper.mk (Many [KStr "name"]) (Some [KStr "name"])
              (Some [KStr "length"; KStr "shoesize"]))
           [KStr "length"; KStr "shoesize"] eq_refl eq_refl).
  - discriminate.
  - reflexivity.
Defined.

(** X7.  A [ColumnDropper] that is given no column to drop is the
    identity: its fit returns on every table with unique labels and at
    least one column, and its [transform] then returns every table with
    unique labels as it is, also one with other columns than the fit
    table. *)
Theorem ColumnDropper_without_columns_is_the_identity
    (T T2 : DataFrame) (s : ColumnDropper.t) :
  as_list (ColumnDropper.columns s) = [] -> columns T <> [] ->
  NoDup (names T) -> NoDup (names T2) ->
  exists s',
    ColumnDropper.fit (PdDataFrame T) s = (Ok tt, s') /\
    ColumnDropper.feature_names_ s' = Some (names T) /\
    ColumnDropper.transform (PdDataFrame T2) s' = (Ok (PdDataFrame T2), s').
Proof.
  intros Hnone Hcols Hnd Hnd2. rewrite (ColumnDropper_fit_table T s Hnd).
  rewrite Hnone. simpl.
  assert (Hall : filter (fun x : key => negb (mem x [])) (names T) = names T).
  { clear. induction (names T) as [|x xs IH]; simpl; [reflexivity|].
    f_equal. exact IH. }
  change (filter (fun _ : key => true) (names T))
    with (filter (fun x : key => negb (mem x [])) (names T)).
  rewrite Hall.
  assert (Hlen : (length (names T) =? 0)%nat = false).
  { unfold names. rewrite length_map. destruct (columns T); [contradiction|].
    reflexivity. }
  rewrite Hlen. eexists. split; [reflexivity|]. split; [reflexivity|].
  rewrite (ColumnDropper_transform_table T2 _ _ _ Hnd2). reflexivity.
Qed.

(** X7 at [ColumnDropper([])], fitted on [shoes], applied to the table with
    the single column ["a"]. *)
Lemma ColumnDropper_without_columns_is_the_identity_witness :
  exists s',
    ColumnDropper.fit (PdDataFrame shoes) (ColumnDropper.__init__ (Many []))
    = (Ok tt, s') /\
    ColumnDropper.feature_names_ s' = Some (names shoes) /\
    ColumnDropper.transform (PdDataFrame only_a) s' = (Ok (PdDataFrame only_a), s').
Proof.
  apply ColumnDropper_without_columns_is_the_identity;
    [reflexivity | discriminate | |]; unfold names; simpl; explicit_list.
Defined.

(** X8.  [ColumnSelector.transform] decides on the parameter [columns],
    not on the fitted [columns_]: when the parameter is a single name that
    Python takes for false (the empty string, or 0) and the table, with
    unique labels, has a column of that name, [fit] returns and records the
    name, and [transform] returns the whole table instead of that
    column. *)
Theorem ColumnSelector_with_a_false_name (T : DataFrame) (k : key) :
  NoDup (names T) -> truthy (Single k) = false -> In k (names T) ->
  exists s',
    ColumnSelector.fit (PdDataFrame T) (ColumnSelector.__init__ (Single k))
    = (Ok tt, s') /\
    ColumnSelector.get_feature_names s' = (Ok [k], s') /\
    ColumnSelector.transform (PdDataFrame T) s' = (Ok (PdDataFrame T), s').
Proof.
  intros Hnd Hfalse Hin. eexists. split; [|split].
  - rewrite (ColumnSelector_fit_table T _ Hnd). simpl.
    assert (Hnone : non_existent_columns [k] T = []).
    { apply non_existent_columns_nil. intros x [Hx|[]]. subst. assumption. }
    rewrite Hnone. reflexivity.
  - reflexivity.
  - rewrite (ColumnSelector_transform_table T _ _ Hnd). rewrite Hfalse.
    reflexivity.
Qed.

(** X8 at a table with a column labelled with the empty string. *)
Lemma ColumnSelector_with_a_false_name_witness :
  exists s',
    ColumnSelector.fit
      (PdDataFrame (mkDataFrame [KInt 0]
                      [mkSeries (KStr "") int64 [Num 1];
                       mkSeries (KStr "b") int64 [Num 2]]))
      (ColumnSelector.__init__ (Single (KStr "")))
    = (Ok tt, s') /\
    ColumnSelector.get_feature_names s' = (Ok [KStr ""], s') /\
    ColumnSelector.transform
      (PdDataFrame (mkDataFrame [KInt 0]
                      [mkSeries (KStr "") int64 [Num 1];
                       mkSeries (KStr "b") int64 [Num 2]])) s'
    = (Ok (PdDataFrame (mkDataFrame [KInt 0]
                          [mkSeries (KStr "") int64 [Num 1];
                           mkSeries (KStr "b") int64 [Num 2]])), s').
Proof.
  apply ColumnSelector_with_a_false_name;
    [unfold names; simpl; explicit_list | reflexivity | simpl; tauto].
Defined.

(** ** [PandasTypeSelector], check by check *)

Lemma type_spec_eqb_spec (a b : type_spec) : reflect (a = b) (type_spec_eqb a b).
Proof.
  destruct a as [|d], b as [|e]; simpl; try (constructor; congruence).
  destruct (dtype_eqb_spec d e); constructor; congruence.
Qed.

Lemma overlap_false (include exclude : list type_spec) :
  existsb (fun i => existsb (type_spec_eqb i) exclude) include = false <->
  forall t, In t include -> ~ In t exclude.
Proof.
  split.
  - intros H t Hi He.
    assert (Ht : existsb (fun i => existsb (type_spec_eqb i) exclude) include = true).
    { apply existsb_exists. exists t. split; [assumption|].
      apply existsb_exists. exists t. split; [assumption|].
      destruct (type_spec_eqb_spec t t); congruence. }
    congruence.
  - intros H. destruct (existsb _ include) eqn:E; [|reflexivity].
    apply existsb_exists in E. destruct E as [t [Hi Ht]].
    apply existsb_exists in Ht. destruct Ht as [u [Hu Htu]].
    destruct (type_spec_eqb_spec t u); [|discriminate]. subst u.
    exfalso. exact (H t Hi Hu).
Qed.

(** When [select_dtypes] returns, and what. *)
Lemma select_dtypes_Ok (df kept : DataFrame) (include exclude : list type_spec) :
  select_dtypes df include exclude = Ok kept <->
  (include <> [] \/ exclude <> []) /\
  (forall t, In t include -> ~ In t exclude) /\
  kept = mkDataFrame (index df)
           (filter (fun s => selected include exclude (s_dtype s)) (columns df)).
Proof.
  rewrite <- overlap_false. unfold select_dtypes.
  destruct include as [|i inc], exclude as [|e exc];
    try (split; [discriminate | intros [[H|H] _]; congruence]);
    destruct (existsb _ _) eqn:E;
    (split; [intros H; inversion H; repeat split; auto; try discriminate;
             try (left; discriminate); try (right; discriminate)
            | intros [_ [H1 H2]]; subst; congruence]).
Qed.

(** [PandasTypeSelector.fit] on a table, check by check. *)
Lemma PandasTypeSelector_fit_table (df : DataFrame) (s : PandasTypeSelector.t) :
  PandasTypeSelector.fit (PdDataFrame df) s =
  let inc := PandasTypeSelector.include s in
  let exc := PandasTypeSelector.exclude s in
  match select_dtypes df inc exc with
  | Raise e =>
      (Raise e, PandasTypeSelector.mk inc exc (Some (dtypes df))
                  (PandasTypeSelector.feature_names_ s))
  | Ok kept =>
      if (length (names kept) =? 0)%nat
      then (Raise (ValueError EmptyTypeSelection),
            PandasTypeSelector.mk inc exc (Some (dtypes df)) (Some (names kept)))
      else (Ok tt,
            PandasTypeSelector.mk inc exc (Some (dtypes df)) (Some (names kept)))
  end.
Proof.
  unfold PandasTypeSelector.fit. run.
  destruct (select_dtypes df (PandasTypeSelector.include s)
              (PandasTypeSelector.exclude s)) as [kept|e]; simpl; [|reflexivity].
  destruct (length (names kept) =? 0)%nat; reflexivity.
Qed.

(** X9.  [PandasTypeSelector.fit] returns exactly when its input is a
    pandas DataFrame, at least one of [include] and [exclude] is given, no
    type is in both, and some column has a selected dtype; the instance then
    holds the dtype of every column as [X_dtypes_] and the labels of the
    selected columns, in the order of the table, as [feature_names_]. *)
Theorem PandasTypeSelector_fit_succeeds_iff
    (X : input) (s s' : PandasTypeSelector.t) :
  PandasTypeSelector.fit X s = (Ok tt, s') <->
  exists df, X = PdDataFrame df /\
    (PandasTypeSelector.include s <> [] \/ PandasTypeSelector.exclude s <> []) /\
    (forall t, In t (PandasTypeSelector.include s) ->
               ~ In t (PandasTypeSelector.exclude s)) /\
    (exists c, In c (columns df) /\
               selected (PandasTypeSelector.include s)
                 (PandasTypeSelector.exclude s) (s_dtype c) = true) /\
    s' = PandasTypeSelector.mk (PandasTypeSelector.include s)
           (PandasTypeSelector.exclude s) (Some (dtypes df))
           (Some (map s_name
                    (filter (fun c => selected (PandasTypeSelector.include s)
                                        (PandasTypeSelector.exclude s) (s_dtype c))
                       (columns df)))).
Proof.
  split.
  - intros H. apply PandasTypeSelector_fit_Ok in H.
    destruct H as [df [kept [HX [Hsel [Hne Hs']]]]].
    apply select_dtypes_Ok in Hsel. destruct Hsel as [Hsome [Hdisj Hkept]].
    exists df. subst kept s'. unfold names in *. simpl in *.
    repeat split; try assumption.
    destruct (filter _ (columns df)) as [|c cs] eqn:E; [contradiction|].
    exists c.
    apply (proj1 (filter_In
                    (fun c => selected (PandasTypeSelector.include s)
                                (PandasTypeSelector.exclude s) (s_dtype c))
                    c (columns df))).
    rewrite E. simpl. auto.
  - intros [df [HX [Hsome [Hdisj [[c [Hc Hsel]] Hs']]]]]. subst X s'.
    rewrite PandasTypeSelector_fit_table. simpl.
    rewrite (proj2 (select_dtypes_Ok df _ _ _)
               (conj Hsome (conj Hdisj eq_refl))).
    unfold names. simpl.
    destruct (filter _ (columns df)) as [|c' cs] eqn:E; [|reflexivity].
    exfalso. assert (Hin : In c []) by (rewrite <- E; apply filter_In; auto).
    contradiction.
Qed.

(** X9 at [shoes] with the numbers selected. *)
Lemma PandasTypeSelector_fit_succeeds_iff_witness :
  PandasTypeSelector.fit (PdDataFrame shoes) (PandasTypeSelector.__init__ [number] [])
  = (Ok tt, PandasTypeSelector.mk [number] [] (Some (dtypes shoes))
              (Some [KStr "length"; KStr "shoesize"])).
Proof.
  apply (proj2 (PandasTypeSelector_fit_succeeds_iff (PdDataFrame shoes)
                  (PandasTypeSelector.__init__ [number] []) _)).
  exists shoes. split; [reflexivity|]. split; [left; discriminate|].
  split; [intros t _ []|]. split; [|reflexivity].
  exists (mkSeries (KStr "shoesize") int64 [Num 42; Num 44; Num 45]).
  split; [simpl; tauto | reflexivity].
Defined.

(** X10.  With the default parameters, [include=None] and [exclude=None],
    [PandasTypeSelector.fit] never returns: on a table it raises the
    [ValueError] of [select_dtypes], after it has recorded [X_dtypes_], and
    on anything else the [TypeError] of the type check. *)
Theorem PandasTypeSelector_defaults_do_not_fit
    (X : input) (s : PandasTypeSelector.t) :
  PandasTypeSelector.include s = [] -> PandasTypeSelector.exclude s = [] ->
  match X with
  | PdDataFrame df =>
      PandasTypeSelector.fit X s
      = (Raise (ValueError SelectDtypesEmpty),
         PandasTypeSelector.mk [] [] (Some (dtypes df))
           (PandasTypeSelector.feature_names_ s))
  | _ => PandasTypeSelector.fit X s = (Raise (TypeError NotPandasDataFrame), s)
  end.
Proof.
  intros Hi He. destruct X as [df|a|a]; [|reflexivity|reflexivity].
  rewrite PandasTypeSelector_fit_table. rewrite Hi, He. reflexivity.
Qed.

(** X10 at [shoes]. *)
Lemma PandasTypeSelector_defaults_do_not_fit_witness :
  PandasTypeSelector.fit (PdDataFrame shoes) (PandasTypeSelector.__init__ [] [])
  = (Raise (ValueError SelectDtypesEmpty),
     PandasTypeSelector.mk [] [] (Some (dtypes shoes)) None).
Proof.
  apply (PandasTypeSelector_defaults_do_not_fit (PdDataFrame shoes)
           (PandasTypeSelector.__init__ [] []) eq_refl eq_refl).
Defined.

Lemma no_difference_refl (a : list (key * dtype)) :
  any (map differs (combine a a)) = false.
Proof.
  unfold any. induction a as [|[k d] a' IH]; simpl; [reflexivity|].
  rewrite IH. unfold differs. simpl.
  destruct (dtype_eqb_spec d d); [reflexivity | contradiction].
Qed.

(** [PandasTypeSelector.transform] on a table, for an instance that has its
    attributes. *)
Lemma PandasTypeSelector_transform_table
    (T2 : DataFrame) (inc exc : list type_spec)
    (fitted : list (key * dtype)) (names_ : list key) :
  PandasTypeSelector.transform (PdDataFrame T2)
    (PandasTypeSelector.mk inc exc (Some fitted) (Some names_))
  = if keys_eqb (map fst fitted) (map fst (dtypes T2))
       && negb (any (map differs (combine fitted (dtypes T2))))
    then (select_dtypes T2 inc exc,
          PandasTypeSelector.mk inc exc (Some fitted) (Some names_))
    else (Raise (ValueError ColumnsNotEqual),
          PandasTypeSelector.mk inc exc (Some fitted) (Some names_)).
Proof.
  unfold PandasTypeSelector.transform, series_ne. run.
  destruct (keys_eqb (map fst fitted) (map fst (dtypes T2))); simpl;
    [|reflexivity].
  destruct (any _); reflexivity.
Qed.

(** X11.  After a successful fit on [T1], [transform] accepts exactly the
    tables whose dtype record (labels, their order, and dtypes) is that of
    [T1]: for such a table it returns the columns of a selected dtype, in
    order and with the rows' labels, and for every other table (a column
    more or less, renamed, moved, or of another dtype) it raises the
    [ValueError] "Columns were not equal during fit and transform"; the
    instance stays as it was. *)
Theorem transform_accepts_the_fitted_dtypes
    (T1 T2 : DataFrame) (s s' : PandasTypeSelector.t) :
  PandasTypeSelector.fit (PdDataFrame T1) s = (Ok tt, s') ->
  (dtypes T2 = dtypes T1 ->
   PandasTypeSelector.transform (PdDataFrame T2) s'
   = (Ok (mkDataFrame (index T2)
            (filter (fun c => selected (PandasTypeSelector.include s)
                                (PandasTypeSelector.exclude s) (s_dtype c))
               (columns T2))), s')) /\
  (dtypes T2 <> dtypes T1 ->
   PandasTypeSelector.transform (PdDataFrame T2) s'
   = (Raise (ValueError ColumnsNotEqual), s')).
Proof.
  intros Hfit. apply PandasTypeSelector_fit_Ok in Hfit.
  destruct Hfit as [df [kept [HX [Hsel [_ Hs']]]]]. inversion HX. subst df s'.
  apply select_dtypes_Ok in Hsel. destruct Hsel as [Hsome [Hdisj _]].
  rewrite PandasTypeSelector_transform_table. split.
  - intros Heq. rewrite Heq.
    assert (Hk : keys_eqb (map fst (dtypes T1)) (map fst (dtypes T1)) = true)
      by (apply keys_eqb_eq; reflexivity).
    rewrite Hk, no_difference_refl. simpl.
    rewrite (proj2 (select_dtypes_Ok T2 _ _ _)
               (conj Hsome (conj Hdisj eq_refl))).
    reflexivity.
  - intros Hne.
    destruct (keys_eqb (map fst (dtypes T1)) (map fst (dtypes T2))) eqn:Ek;
      simpl; [|reflexivity].
    destruct (any (map differs (combine (dtypes T1) (dtypes T2)))) eqn:Ea;
      simpl; [reflexivity|].
    exfalso. apply Hne. symmetry. apply no_difference; [|assumption].
    apply keys_eqb_eq. assumption.
Qed.

(** X11 at [shoes]: transformed itself, and with one column less. *)
Lemma transform_accepts_the_fitted_dtypes_witness :
  PandasTypeSelector.transform (PdDataFrame shoes)
    (PandasTypeSelector.mk [number] [] (Some (dtypes shoes))
       (Some [KStr "length"; KStr "shoesize"]))
  = (Ok (mkDataFrame (index shoes) (tl (columns shoes))),
     PandasTypeSelector.mk [number] [] (Some (dtypes shoes))
       (Some [KStr "length"; KStr "shoesize"])) /\
  PandasTypeSelector.transform
    (PdDataFrame (mkDataFrame (index shoes) (tl (columns shoes))))
    (PandasTypeSelector.mk [number] [] (Some (dtypes shoes))
       (Some [KStr "length"; KStr "shoesize"]))
  = (Raise (ValueError ColumnsNotEqual),
     PandasTypeSelector.mk [number] [] (Some (dtypes shoes))
       (Some [KStr "length"; KStr "shoesize"])).
Proof.
  split.
  - apply (proj1 (transform_accepts_the_fitted_dtypes shoes shoes
                    (PandasTypeSelector.__init__ [number] []) _ eq_refl)).
    reflexivity.
  - apply (proj2 (transform_accepts_the_fitted_dtypes shoes
                    (mkDataFrame (index shoes) (tl (columns shoes)))
                    (PandasTypeSelector.__init__ [number] []) _ eq_refl)).
    discriminate.
Defined.

(** X12.  Fitting again replaces what an earlier fit recorded: for two
    instances with the same parameters, whatever their fitted attributes,
    [fit] on the same input has the same outcome, and when it returns it
    leaves the same instance. *)
Theorem fit_forgets_earlier_fits (X : input) :
  (forall s1 s2,
      ColumnSelector.columns s1 = ColumnSelector.columns s2 ->
      ColumnSelector.fit X s1 = ColumnSelector.fit X s2) /\
  (forall s1 s2,
      ColumnDropper.columns s1 = ColumnDropper.columns s2 ->
      outcome (ColumnDropper.fit X s1) = outcome (ColumnDropper.fit X s2) /\
      (outcome (ColumnDropper.fit X s1) = Ok tt ->
       after (ColumnDropper.fit X s1) = after (ColumnDropper.fit X s2))) /\
  (forall s1 s2,
      PandasTypeSelector.include s1 = PandasTypeSelector.include s2 ->
      PandasTypeSelector.exclude s1 = PandasTypeSelector.exclude s2 ->
      outcome (PandasTypeSelector.fit X s1) = outcome (PandasTypeSelector.fit X s2) /\
      (outcome (PandasTypeSelector.fit X s1) = Ok tt ->
       after (PandasTypeSelector.fit X s1) = after (PandasTypeSelector.fit X s2))).
Proof.
  split; [|split].
  - intros s1 s2 H.
    unfold ColumnSelector.fit, ColumnSelector._check_column_names,
      ColumnSelector._check_column_length. run.
    rewrite H. reflexivity.
  - intros s1 s2 H. rewrite !ColumnDropper_fit_eq. rewrite H. simpl.
    destruct (from_native X) as [df|e]; simpl;
      [|split; [reflexivity|discriminate]].
    destruct (non_existent_columns _ df); [|split; [reflexivity|discriminate]].
    destruct (length _ =? 0)%nat; split; reflexivity || discriminate.
  - intros s1 s2 Hi He. rewrite !PandasTypeSelector_fit_eq. rewrite Hi, He.
    simpl. destruct X as [df|a|a]; simpl;
      try (split; [reflexivity | discriminate]).
    destruct (select_dtypes df _ _) as [kept|e];
      [|split; [reflexivity|discriminate]].
    destruct (length _ =? 0)%nat; split; reflexivity || discriminate.
Qed.

(** X12 at a dropper fitted on [shoes] before and a fresh one. *)
Lemma fit_forgets_earlier_fits_witness :
  after (ColumnDropper.fit (PdDataFrame shoes_float)
           (ColumnDropper.mk (Many [KStr "name"]) (Some [KStr "old"])
              (Some [KStr "stale"])))
  = after (ColumnDropper.fit (PdDataFrame shoes_float)
             (ColumnDropper.__init__ (Many [KStr "name"]))).
Proof.
  apply (proj1 (proj2 (fit_forgets_earlier_fits (PdDataFrame shoes_float)))
           (ColumnDropper.mk (Many [KStr "name"]) (Some [KStr "old"])
              (Some [KStr "stale"]))
           (ColumnDropper.__init__ (Many [KStr "name"])) eq_refl).
  reflexivity.
Defined.

(** * Further properties of the split of groups and values *)

Section SplitMore.

Variable float_of_str : string -> option cell.

(** What a successful call went through. *)
Lemma split_Ok_steps (X : input) (groups : list key) (name : string)
    (min_value_cols : nat) (check_X : bool) (kwargs : check_options)
    (X_group : DataFrame) (X_value : ndarray) :
  _split_groups_and_values float_of_str X groups name min_value_cols
    check_X kwargs = Ok (X_group, X_value) ->
  exists X_group0 X_value0,
    partition X groups = Ok (X_group0, X_value0) /\
    X_group = reset_index X_group0 /\
    (if check_X
     then check_array float_of_str (NpArray X_value0) kwargs = Ok X_value
     else X_value = X_value0).
Proof.
  unfold _split_groups_and_values. intros H.
  bind_inv H as u1 Hfmt. bind_inv H as a0 Hinit. bind_inv H as gv Hpart.
  destruct gv as [X_group0 X_value0].
  bind_inv H as Xg Hgroup. bind_inv H as Xv Hvalue. inversion H. subst.
  exists X_group0, X_value0. split; [|split].
  - destruct (partition X groups) as [gv|e]; simpl in Hpart;
      [assumption | destruct e; discriminate].
  - apply check_grouping_columns_Ok in Hgroup. tauto.
  - destruct check_X; [assumption | inversion Hvalue; reflexivity].
Qed.

(** Taking columns of an array succeeds on positions only, and then the
    positions computed for [np.delete] are the same ones. *)
Lemma take_columns_Ok (a : ndarray) (groups : list key) (cols : list (list cell)) :
  take_columns a groups = Ok cols ->
  cols = map (fun i => nth i (a_cols a) []) (positions (a_ncols a) groups) /\
  mapM (range_getitem (a_ncols a)) groups = Ok (positions (a_ncols a) groups) /\
  length (positions (a_ncols a) groups) = length groups.
Proof.
  revert cols. induction groups as [|g gs IH]; intros cols; simpl.
  - intros H. inversion H. auto.
  - destruct g as [s|z]; [discriminate|].
    destruct (position (a_ncols a) z) as [i|] eqn:E; simpl; [|discriminate].
    destruct (take_columns a gs) as [rest|e]; simpl; [|discriminate].
    intros H. inversion H. destruct (IH rest eq_refl) as [Hc [Hm Hl]].
    split; [subst rest; reflexivity|]. split; [|congruence].
    rewrite Hm, E. reflexivity.
Qed.

Lemma take_columns_bad (a : ndarray) (groups : list key) (g : key) :
  In g groups ->
  (forall z, g = KInt z -> position (a_ncols a) z = None) ->
  take_columns a groups = Raise (IndexError BadIndex).
Proof.
  induction groups as [|h hs IH]; simpl; [tauto|]. intros Hin Hbad.
  destruct h as [s|z]; [reflexivity|].
  destruct (position (a_ncols a) z) as [i|] eqn:E; [|reflexivity].
  destruct Hin as [Hin|Hin].
  - subst g. rewrite (Hbad z eq_refl) in E. discriminate.
  - rewrite (IH Hin Hbad). reflexivity.
Qed.

Lemma loc_columns_raises_KeyError (cols : list Series) (C : list key) (e : exn) :
  loc_columns cols C = Raise e -> exists m, e = KeyError m.
Proof.
  revert e. induction C as [|c C' IH]; simpl; [discriminate|]. intros e.
  destruct (labelled c cols); [intros H; inversion H; eauto|].
  destruct (loc_columns cols C') eqn:E'; simpl; [discriminate|].
  intros H. inversion H. subst. eapply IH. reflexivity.
Qed.

Lemma take_columns_raises_IndexError (a : ndarray) (groups : list key) (e : exn) :
  take_columns a groups = Raise e -> exists m, e = IndexError m.
Proof.
  revert e. induction groups as [|g gs IH]; simpl; [discriminate|]. intros e.
  destruct g as [s|z]; [intros H; inversion H; eauto|].
  destruct (position (a_ncols a) z); [|intros H; inversion H; eauto].
  destruct (take_columns a gs) eqn:E'; simpl; [discriminate|].
  intros H. inversion H. subst. eapply IH. reflexivity.
Qed.

(** The partition raises nothing but the two lookup errors. *)
Lemma partition_raises_lookup_errors (X : input) (groups : list key) (e : exn) :
  partition X groups = Raise e ->
  (exists m, e = KeyError m) \/ (exists m, e = IndexError m).
Proof.
  destruct X as [df|a|a]; simpl.
  - unfold loc, drop.
    destruct (loc_columns (columns df) groups) as [cs|e1] eqn:E1; simpl.
    + destruct (filter _ groups); simpl; [discriminate|].
      intros H. inversion H. left. eauto.
    + intros H. inversion H. subst e1. left.
      eapply loc_columns_raises_KeyError. eassumption.
  - destruct (take_columns a groups) as [cols|e1] eqn:E1; simpl.
    + apply take_columns_Ok in E1. destruct E1 as [_ [Hm _]]. rewrite Hm.
      simpl. discriminate.
    + intros H. inversion H. subst e1. right.
      eapply take_columns_raises_IndexError. eassumption.
  - intros H. inversion H. right. eauto.
Qed.

(** X13.  Once the format checks and the first validation have passed, a
    group reference that denotes no column of the input (a label that the
    table does not have; for an array a position out of range, or a string)
    makes the call raise the one [ValueError] "Could not drop groups"
    carrying the group specification, in place of the lookup error. *)
Theorem unknown_group_raises_one_error
    (X : input) (groups : list key) (name : string) (min_value_cols : nat)
    (check_X : bool) (kwargs : check_options) (g : key) (a0 : ndarray) :
  _data_format_checks X name = Ok tt ->
  initial_validation float_of_str X min_value_cols = Ok a0 ->
  In g groups ->
  match X with
  | PdDataFrame df => ~ In g (names df)
  | NpArray a => forall z, g = KInt z -> position (a_ncols a) z = None
  | SpMatrix _ => True
  end ->
  _split_groups_and_values float_of_str X groups name min_value_cols
    check_X kwargs = Raise (ValueError (CouldNotDropGroups groups)).
Proof.
  intros Hfmt Hinit Hin Hbad. unfold _split_groups_and_values.
  rewrite Hfmt, Hinit. simpl.
  assert (Hp : exists e, partition X groups = Raise e).
  { destruct X as [df|a|a]; simpl.
    - destruct (loc_columns_missing (columns df) groups g Hin Hbad)
        as [g' [Hr _]].
      unfold loc. rewrite Hr. simpl. eauto.
    - rewrite (take_columns_bad a groups g Hin Hbad). simpl. eauto.
    - eauto. }
  destruct Hp as [e He]. rewrite He.
  destruct (partition_raises_lookup_errors _ _ _ He) as [[m Hm]|[m Hm]];
    subst e; reflexivity.
Qed.


Lemma mapM_Raise {A B : Type} (f : A -> result B) (l : list A) (e : exn) :
  mapM f l = Raise e -> exists x, In x l /\ f x = Raise e.
Proof.
  induction l as [|x xs IH]; simpl; [discriminate|].
  destruct (f x) as [y|e1] eqn:E; simpl.
  - destruct (mapM f xs) as [ys|e2]; simpl; [discriminate|].
    intros H. inversion H. subst. destruct (IH eq_refl) as [x' [Hin Hx']].
    exists x'. auto.
  - intros H. inversion H. subst. exists x. auto.
Qed.

Lemma to_float_raises (c : cell) (e : exn) :
  to_float float_of_str c = Raise e ->
  e = ValueError CouldNotConvertToFloat \/
  e = TypeError CouldNotConvertToFloat \/
  e = OverflowError IntTooLargeForFloat.
Proof.
  destruct c; simpl; try discriminate.
  - destruct (beyond_float_range q); [|discriminate].
    intros H. inversion H. auto.
  - intros H. inversion H. auto.
  - destruct (float_of_str s); [discriminate|]. intros H. inversion H. auto.
Qed.

(** On an array the validator raises [ValueError], or the [TypeError] or
    [OverflowError] of a failed conversion to float. *)
Lemma check_array_of_array_raises (a : ndarray) (o : check_options) (e : exn) :
  check_array float_of_str (NpArray a) o = Raise e ->
  (exists m, e = ValueError m) \/
  (opt_dtype o = dtype_numeric /\
   (e = TypeError CouldNotConvertToFloat \/
    e = OverflowError IntTooLargeForFloat)).
Proof.
  unfold check_array. simpl.
  assert (Hrest : forall b : ndarray,
    (_ensure_no_complex_data (NpArray b) ;;;
     match force_all_finite o with
     | finite_True => _assert_all_finite b false
     | finite_allow_nan => _assert_all_finite b true
     | finite_False => Ok tt
     end ;;;
     (if a_nrows b <? ensure_min_samples o
      then Raise (ValueError (MinSamples (a_nrows b) (ensure_min_samples o)))
      else Ok tt) ;;;
     (if a_ncols b <? ensure_min_features o
      then Raise (ValueError (MinFeatures (a_ncols b) (ensure_min_features o)))
      else Ok tt) ;;;
     Ok b) = Raise e -> exists m, e = ValueError m).
  { intros b. simpl. destruct (kind_is_complex (a_dtype b)); simpl;
      [intros H; inversion H; eauto|].
    destruct (force_all_finite o); simpl;
      repeat match goal with
             | |- context [_assert_all_finite ?x ?y] =>
                 let F := fresh "F" in
                 destruct (_assert_all_finite x y) eqn:F; simpl
             | |- context [if ?c then _ else _] => destruct c; simpl
             end;
      intros H; inversion H; subst; eauto;
      eapply assert_all_finite_ValueError; eassumption. }
  destruct (opt_dtype o) eqn:Eo; [|intros H; left; eapply Hrest; exact H].
  destruct (a_dtype a) eqn:Ed; try (intros H; left; eapply Hrest; exact H).
  destruct (astype_float float_of_str a) as [b|e1] eqn:Ea; simpl.
  - intros H. left. eapply Hrest. exact H.
  - intros H. inversion H. subst e1. clear H. unfold astype_float in Ea.
    destruct (mapM (mapM (to_float float_of_str)) (a_cols a)) as [cols|e2] eqn:Em;
      simpl in Ea; [discriminate|]. inversion Ea. subst e2.
    apply mapM_Raise in Em. destruct Em as [col [_ Hcol]].
    apply mapM_Raise in Hcol. destruct Hcol as [c [_ Hc]].
    apply to_float_raises in Hc. destruct Hc as [Hc|[Hc|Hc]]; subst; eauto.
Qed.

Lemma check_grouping_columns_raises
    (X_group : DataFrame) (kwargs : check_options) (e : exn) :
  _check_grouping_columns float_of_str X_group kwargs = Raise e ->
  exists m, e = ValueError m.
Proof.
  unfold _check_grouping_columns.
  destruct (0 <? df_ncols (select_number X_group)); simpl.
  - destruct (check_array float_of_str (PdDataFrame (select_number X_group)) kwargs)
      as [a|e1] eqn:E; simpl.
    + destruct (isnull_any _); intros H; inversion H; eauto.
    + intros H. inversion H. subst e1.
      eapply check_array_numbers_ValueError; [|eassumption].
      apply select_number_all.
  - destruct (isnull_any _); intros H; inversion H; eauto.
Qed.

Lemma data_format_checks_Ok (X : input) (name : string) (u : unit) :
  _data_format_checks X name = Ok u -> issparse X = false.
Proof.
  unfold _data_format_checks. destruct X as [df|a|a]; simpl; try reflexivity.
  destruct (kind_is_complex (a_dtype a)); discriminate.
Qed.

(** X14.  No lookup error leaves [_split_groups_and_values]: whatever it is
    given, a call that raises raises [ValueError], except that with
    [check_X] and [dtype="numeric"] the validation of the value matrix can
    raise the [TypeError] of an entry that does not convert to a float, or
    the [OverflowError] of an integer too large for one. *)
Theorem split_raises_ValueError
    (X : input) (groups : list key) (name : string) (min_value_cols : nat)
    (check_X : bool) (kwargs : check_options) (e : exn) :
  _split_groups_and_values float_of_str X groups name min_value_cols
    check_X kwargs = Raise e ->
  (exists m, e = ValueError m) \/
  (check_X = true /\ opt_dtype kwargs = dtype_numeric /\
   (e = TypeError CouldNotConvertToFloat \/
    e = OverflowError IntTooLargeForFloat)).
Proof.
  unfold _split_groups_and_values.
  destruct (_data_format_checks X name) as [u|e1] eqn:Ef; simpl.
  2:{ intros H. inversion H. subst. left.
      eapply data_format_checks_ValueError. eassumption. }
  destruct (initial_validation float_of_str X min_value_cols) as [a0|e1] eqn:Ei;
    simpl.
  2:{ intros H. inversion H. subst. left.
      eapply initial_validation_ValueError; [|eassumption].
      eapply data_format_checks_Ok. eassumption. }
  destruct (partition X groups) as [[X_group0 X_value0]|e1] eqn:Ep; simpl.
  2:{ destruct (partition_raises_lookup_errors _ _ _ Ep) as [[m Hm]|[m Hm]];
        subst e1; simpl; intros H; inversion H; eauto. }
  destruct (_check_grouping_columns float_of_str X_group0 kwargs)
    as [Xg|e1] eqn:Eg; simpl.
  2:{ intros H. inversion H. subst. left.
      eapply check_grouping_columns_raises. eassumption. }
  destruct check_X; simpl; [|discriminate].
  destruct (check_array float_of_str (NpArray X_value0) kwargs) as [Xv|e1] eqn:Ev;
    simpl; [discriminate|].
  intros H. inversion H. subst.
  destruct (check_array_of_array_raises _ _ _ Ev) as [Hv|[Hd Ht]]; auto.
Qed.

Lemma loc_columns_Ok_sub (cols cs : list Series) (C : list key) :
  loc_columns cols C = Ok cs -> incl cs cols.
Proof.
  revert cs. induction C as [|c C' IH]; intros cs; simpl.
  - intros H. inversion H. intros x [].
  - destruct (labelled c cols) as [|h hs] eqn:E; [discriminate|].
    destruct (loc_columns cols C') as [rest|e]; simpl; [|discriminate].
    intros H. inversion H. intros x Hx.
    change (In x ((h :: hs) ++ rest)) in Hx. apply in_app_or in Hx.
    destruct Hx as [Hx|Hx]; [|apply (IH rest eq_refl); assumption].
    rewrite <- E in Hx. apply filter_In in Hx. tauto.
Qed.

Lemma enumerate_names (d : dtype) (cols : list (list cell)) (start : nat) :
  map s_name (enumerate d start cols)
  = map (fun i => KInt (Z.of_nat i)) (seq start (length cols)) /\
  map s_values (enumerate d start cols) = cols /\
  Forall (fun s => s_dtype s = d) (enumerate d start cols).
Proof.
  revert start. induction cols as [|c cs IH]; intros start; simpl; [auto|].
  destruct (IH (S start)) as [H1 [H2 H3]]. rewrite H1, H2. auto.
Qed.

(** X15.  What a successful call returns.  The group table holds, under a
    fresh index, the group columns in the order of the specification: for a
    table with unique labels its labels are the specification and its
    columns are columns of the table; for an array its labels are
    [0 .. len(groups)-1], its columns have the dtype of the array and are
    the columns at the positions given.  With [check_X=False] the value
    matrix is passed on as it was cut out: the [values] of the table without
    the group columns, or the array without the group positions. *)
Theorem split_returns_the_group_columns
    (X : input) (groups : list key) (name : string) (min_value_cols : nat)
    (check_X : bool) (kwargs : check_options)
    (X_group : DataFrame) (X_value : ndarray) :
  _split_groups_and_values float_of_str X groups name min_value_cols
    check_X kwargs = Ok (X_group, X_value) ->
  match X with
  | PdDataFrame df =>
      incl groups (names df) /\
      incl (columns X_group) (columns df) /\
      (NoDup (names df) -> names X_group = groups) /\
      (check_X = false ->
       X_value = values (mkDataFrame (index df)
                           (filter (fun s => negb (mem (s_name s) groups))
                              (columns df))))
  | NpArray a =>
      names X_group = RangeIndex (length groups) /\
      map s_values (columns X_group)
      = map (fun i => nth i (a_cols a) []) (positions (a_ncols a) groups) /\
      Forall (fun s => s_dtype s = a_dtype a) (columns X_group) /\
      (check_X = false -> X_value = np_delete a (positions (a_ncols a) groups))
  | SpMatrix _ => False
  end.
Proof.
  intros H. apply split_Ok_steps in H.
  destruct H as [X_group0 [X_value0 [Hp [Hg Hv]]]]. subst X_group.
  destruct X as [df|a|a]; simpl in Hp; [| |discriminate].
  - unfold loc in Hp.
    destruct (loc_columns (columns df) groups) as [cs|e] eqn:El; simpl in Hp;
      [|discriminate].
    destruct (drop df groups) as [rest|e] eqn:Ed; simpl in Hp; [|discriminate].
    inversion Hp. subst X_group0 X_value0. simpl.
    pose proof (loc_columns_Ok_incl _ _ _ El) as Hincl.
    split; [assumption|]. split; [eapply loc_columns_Ok_sub; eassumption|].
    split.
    + intros Hnd.
      destruct (loc_columns_unique (columns df) groups Hnd Hincl)
        as [cs' [El' [Hn _]]].
      rewrite El in El'. inversion El'. subst cs'. exact Hn.
    + intros Hc. subst check_X. subst X_value.
      unfold drop in Ed.
      destruct (filter (fun g => negb (mem g (names df))) groups);
        [|discriminate].
      inversion Ed. reflexivity.
  - destruct (take_columns a groups) as [cols|e] eqn:Et; simpl in Hp;
      [|discriminate].
    apply take_columns_Ok in Et. destruct Et as [Hcols [Hm Hlen]].
    rewrite Hm in Hp. simpl in Hp. inversion Hp. subst X_group0 X_value0.
    unfold names. simpl.
    destruct (enumerate_names (a_dtype a) cols 0) as [H1 [H2 H3]].
    rewrite H1, H2. repeat split; try assumption.
    + unfold RangeIndex. subst cols. rewrite length_map, Hlen. reflexivity.
    + intros Hc. subst check_X. assumption.
Qed.

(** *** Rectangular inputs give rectangular outputs *)

Lemma mapM_mapM_lengths {A B : Type} (f : A -> result B) (n : nat)
    (cols : list (list A)) (cols' : list (list B)) :
  mapM (mapM f) cols = Ok cols' ->
  Forall (fun c => length c = n) cols -> Forall (fun c => length c = n) cols'.
Proof.
  revert cols'. induction cols as [|c cs IH]; intros cols'; simpl.
  - intros H _. inversion H. constructor.
  - destruct (mapM f c) as [c'|e] eqn:E; simpl; [|discriminate].
    destruct (mapM (mapM f) cs) as [cs'|e]; simpl; [|discriminate].
    intros H Hall. inversion H. inversion Hall; subst.
    constructor; [|apply IH; [reflexivity | assumption]].
    apply mapM_length in E. congruence.
Qed.

(** A validated array is the array itself or its conversion to floats. *)
Lemma check_array_of_array_Ok (a b : ndarray) (o : check_options) :
  check_array float_of_str (NpArray a) o = Ok b ->
  b = a \/ astype_float float_of_str a = Ok b.
Proof.
  unfold check_array. simpl. intros H.
  bind_inv H as c Hconv. bind_inv H as u1 H1. bind_inv H as u2 H2.
  bind_inv H as u3 H3. bind_inv H as u4 H4. inversion H. subst c.
  destruct (opt_dtype o), (a_dtype a);
    try (inversion Hconv; auto; fail); auto.
Qed.

Lemma check_array_rectangular (a b : ndarray) (o : check_options) :
  check_array float_of_str (NpArray a) o = Ok b ->
  rectangular_array a -> rectangular_array b.
Proof.
  intros H Hr. apply check_array_of_array_Ok in H. destruct H as [H|H].
  - subst. assumption.
  - unfold astype_float in H. bind_inv H as cols Hcols. inversion H.
    unfold rectangular_array. simpl.
    eapply mapM_mapM_lengths; eassumption.
Qed.

Lemma positions_lt (n : nat) (groups : list key) :
  Forall (fun i => i < n) (positions n groups).
Proof.
  induction groups as [|g gs IH]; simpl; [constructor|].
  destruct g as [s|z]; [assumption|].
  destruct (position n z) as [i|] eqn:E; [|assumption].
  constructor; [eapply position_lt; eassumption | assumption].
Qed.

Lemma delete_at_sub (pos : list nat) (cols : list (list cell)) (i : nat) :
  incl (delete_at pos i cols) cols.
Proof.
  revert i. induction cols as [|c cs IH]; intros i; simpl; [intros x []|].
  destruct (existsb (Nat.eqb i) pos).
  - intros x Hx. right. eapply IH. eassumption.
  - intros x [Hx|Hx]; [left; assumption | right; eapply IH; eassumption].
Qed.

(** X16.  Rows stay aligned: when every column of the input has one entry
    per row, a successful call returns a group table and a value matrix in
    which every column has one entry per row of the input, also after the
    value matrix was converted by the validation. *)
Theorem split_keeps_rows_aligned
    (X : input) (groups : list key) (name : string) (min_value_cols : nat)
    (check_X : bool) (kwargs : check_options)
    (X_group : DataFrame) (X_value : ndarray) :
  rectangular X ->
  _split_groups_and_values float_of_str X groups name min_value_cols
    check_X kwargs = Ok (X_group, X_value) ->
  Forall (fun s => length (s_values s) = nrows X) (columns X_group) /\
  Forall (fun c => length c = nrows X) (a_cols X_value) /\
  df_nrows X_group = nrows X /\ a_nrows X_value = nrows X.
Proof.
  intros Hrect H. apply split_Ok_steps in H.
  destruct H as [X_group0 [X_value0 [Hp [Hg Hv]]]]. subst X_group.
  pose proof (partition_shapes _ _ _ _ Hp) as [Hrows [Hvrows _]].
  assert (Hparts :
    Forall (fun s => length (s_values s) = nrows X) (columns X_group0) /\
    rectangular_array X_value0).
  { destruct X as [df|a|a]; simpl in Hp, Hrect; [| |discriminate].
    - unfold loc in Hp.
      destruct (loc_columns (columns df) groups) as [cs|e] eqn:El; simpl in Hp;
        [|discriminate].
      destruct (drop df groups) as [rest|e] eqn:Ed; simpl in Hp; [|discriminate].
      inversion Hp. subst X_group0 X_value0. simpl. split.
      + apply Forall_forall. intros s Hs.
        unfold rectangular_table in Hrect. rewrite Forall_forall in Hrect.
        apply Hrect. eapply loc_columns_Ok_sub; eassumption.
      + apply drop_Ok in Ed. destruct Ed as [_ [Hi Hc]].
        unfold rectangular_array, values, as_dtype. simpl.
        apply Forall_map. rewrite Hc. apply Forall_forall. intros s Hs.
        apply filter_In in Hs. destruct Hs as [Hs _].
        unfold rectangular_table in Hrect. rewrite Forall_forall in Hrect.
        rewrite length_map, (Hrect s Hs). unfold df_nrows. congruence.
    - destruct (take_columns a groups) as [cols|e] eqn:Et; simpl in Hp;
        [|discriminate].
      apply take_columns_Ok in Et. destruct Et as [Hcols [Hm _]].
      rewrite Hm in Hp. simpl in Hp. inversion Hp. subst X_group0 X_value0.
      unfold rectangular_array in Hrect. rewrite Forall_forall in Hrect.
      simpl. split.
      + destruct (enumerate_names (a_dtype a) cols 0) as [_ [H2 _]].
        rewrite <- (Forall_map s_values (fun c => length c = a_nrows a)).
        rewrite H2. subst cols. apply Forall_map.
        pose proof (positions_lt (a_ncols a) groups) as Hlt.
        eapply Forall_impl; [|exact Hlt]. intros i Hi. simpl in Hi.
        apply Hrect. apply nth_In. exact Hi.
      + unfold rectangular_array. simpl. apply Forall_forall. intros c Hc.
        apply Hrect. eapply delete_at_sub. eassumption. }
  destruct Hparts as [Hgcols Hvrect].
  assert (Hvalue : rectangular_array X_value /\ a_nrows X_value = a_nrows X_value0).
  { destruct check_X.
    - split; [eapply check_array_rectangular; eassumption|].
      apply check_array_shape in Hv. simpl in Hv. tauto.
    - subst. auto. }
  destruct Hvalue as [Hvr Hvn].
  unfold reset_index. simpl. repeat split.
  - assumption.
  - unfold rectangular_array in Hvr. rewrite Hvn, Hvrows in Hvr. assumption.
  - unfold df_nrows at 1. simpl. rewrite RangeIndex_length. assumption.
  - congruence.
Qed.

(** X17.  The check of the grouping columns can be repeated: a group table
    that it returned passes it again, with the same options, and comes back
    unchanged. *)
Theorem check_grouping_columns_twice
    (X_group r : DataFrame) (kwargs : check_options) :
  _check_grouping_columns float_of_str X_group kwargs = Ok r ->
  _check_grouping_columns float_of_str r kwargs = Ok r.
Proof.
  intros H. apply check_grouping_columns_Ok in H.
  destruct H as [Hnum [Hnull Hr]]. subst r.
  assert (Hrows : df_nrows (reset_index X_group) = df_nrows X_group).
  { unfold reset_index, df_nrows at 1. simpl. apply RangeIndex_length. }
  apply check_grouping_columns_Ok. split; [|split].
  - destruct Hnum as [H0|Hok]; [left; exact H0 | right].
    unfold check_array in *. simpl in *.
    destruct (map s_dtype (filter (fun s => is_number (s_dtype s)) (columns X_group)))
      as [|d ds]; [discriminate|].
    unfold as_dtype in *. simpl in *. unfold df_nrows in *. simpl in *.
    rewrite RangeIndex_length. exact Hok.
  - exact Hnull.
  - unfold reset_index. simpl. f_equal.
    unfold df_nrows. simpl. rewrite RangeIndex_length. reflexivity.
Qed.

(** *** Different ways to name the same group columns *)

Lemma take_columns_valid (a : ndarray) (groups : list key) :
  Forall (fun g => exists z i, g = KInt z /\ position (a_ncols a) z = Some i)
    groups ->
  take_columns a groups
  = Ok (map (fun i => nth i (a_cols a) []) (positions (a_ncols a) groups)).
Proof.
  induction groups as [|g gs IH]; simpl; [reflexivity|].
  intros Hall. inversion Hall as [|? ? [z [i [Hg Hz]]] Hrest]; subst.
  rewrite Hz, (IH Hrest). reflexivity.
Qed.

Lemma partition_of_positions (a : ndarray) (groups : list key) :
  Forall (fun g => exists z i, g = KInt z /\ position (a_ncols a) z = Some i)
    groups ->
  partition (NpArray a) groups
  = Ok (DataFrame_of_array
          (mkArray (a_dtype a) (a_nrows a)
             (map (fun i => nth i (a_cols a) []) (positions (a_ncols a) groups))),
        np_delete a (positions (a_ncols a) groups)).
Proof.
  intros Hall. simpl.
  pose proof (take_columns_valid a groups Hall) as Ht. rewrite Ht. simpl.
  apply take_columns_Ok in Ht. destruct Ht as [_ [Hm _]]. rewrite Hm.
  reflexivity.
Qed.

(** X18.  For an array, only the positions count that the group references
    denote: two specifications of valid positions that denote the same
    positions in the same order, for instance [-1] and [ncols - 1], give the
    same result in every respect. *)
Theorem groups_denoting_the_same_positions
    (a : ndarray) (groups groups' : list key) (name : string)
    (min_value_cols : nat) (check_X : bool) (kwargs : check_options) :
  Forall (fun g => exists z i, g = KInt z /\ position (a_ncols a) z = Some i)
    groups ->
  Forall (fun g => exists z i, g = KInt z /\ position (a_ncols a) z = Some i)
    groups' ->
  positions (a_ncols a) groups = positions (a_ncols a) groups' ->
  _split_groups_and_values float_of_str (NpArray a) groups name
    min_value_cols check_X kwargs
  = _split_groups_and_values float_of_str (NpArray a) groups' name
      min_value_cols check_X kwargs.
Proof.
  intros Hv Hv' Hpos. unfold _split_groups_and_values.
  rewrite (partition_of_positions a groups Hv).
  rewrite (partition_of_positions a groups' Hv').
  rewrite Hpos. reflexivity.
Qed.

Lemma delete_at_same_members (pos pos' : list nat) (cols : list (list cell)) (i : nat) :
  (forall j, In j pos <-> In j pos') ->
  delete_at pos i cols = delete_at pos' i cols.
Proof.
  intros Hsame. revert i. induction cols as [|c cs IH]; intros i; simpl;
    [reflexivity|].
  assert (E : existsb (Nat.eqb i) pos = existsb (Nat.eqb i) pos').
  { apply eq_true_iff_eq. rewrite !existsb_exists. split.
    - intros [j [Hj Hij]]. exists j. split; [apply Hsame|]; assumption.
    - intros [j [Hj Hij]]. exists j. split; [apply Hsame|]; assumption. }
  rewrite E, IH. reflexivity.
Qed.

(** X19.  The value matrix depends on which columns are groups, not on how
    often or in which order they are named: two successful calls on the
    same input, with the same validation, whose specifications name the
    same set of labels (for a table) or denote the same set of positions
    (for an array), return the same value matrix. *)
Theorem value_matrix_depends_on_the_set_of_groups
    (X : input) (groups groups' : list key) (name name' : string)
    (m m' : nat) (check_X : bool) (kwargs : check_options)
    (X_group X_group' : DataFrame) (X_value X_value' : ndarray) :
  _split_groups_and_values float_of_str X groups name m check_X kwargs
  = Ok (X_group, X_value) ->
  _split_groups_and_values float_of_str X groups' name' m' check_X kwargs
  = Ok (X_group', X_value') ->
  match X with
  | PdDataFrame _ => forall g, In g groups <-> In g groups'
  | NpArray a =>
      forall i, In i (positions (a_ncols a) groups) <->
                In i (positions (a_ncols a) groups')
  | SpMatrix _ => True
  end ->
  X_value = X_value'.
Proof.
  intros H H' Hsame. apply split_Ok_steps in H. apply split_Ok_steps in H'.
  destruct H as [Xg0 [Xv0 [Hp [_ Hv]]]].
  destruct H' as [Xg0' [Xv0' [Hp' [_ Hv']]]].
  assert (Heq : Xv0 = Xv0').
  { destruct X as [df|a|a]; simpl in Hp, Hp'; [| |discriminate].
    - unfold loc in Hp, Hp'.
      destruct (loc_columns (columns df) groups); simpl in Hp; [|discriminate].
      destruct (loc_columns (columns df) groups'); simpl in Hp'; [|discriminate].
      destruct (drop df groups) as [rest|e] eqn:Ed; simpl in Hp; [|discriminate].
      destruct (drop df groups') as [rest'|e] eqn:Ed'; simpl in Hp';
        [|discriminate].
      inversion Hp. inversion Hp'. f_equal.
      apply drop_Ok in Ed. apply drop_Ok in Ed'.
      destruct Ed as [_ [Hi Hc]]. destruct Ed' as [_ [Hi' Hc']].
      destruct rest as [ri rc], rest' as [ri' rc']. simpl in *. subst.
      f_equal. apply filter_ext. intros s. f_equal.
      apply eq_true_iff_eq. rewrite !mem_In. apply Hsame.
    - destruct (take_columns a groups) as [cols|e] eqn:Et; simpl in Hp;
        [|discriminate].
      destruct (take_columns a groups') as [cols'|e] eqn:Et'; simpl in Hp';
        [|discriminate].
      apply take_columns_Ok in Et. apply take_columns_Ok in Et'.
      destruct Et as [_ [Hm _]]. destruct Et' as [_ [Hm' _]].
      rewrite Hm in Hp. rewrite Hm' in Hp'. simpl in Hp, Hp'.
      inversion Hp. inversion Hp'. unfold np_delete. f_equal.
      apply delete_at_same_members. assumption. }
  subst Xv0'. destruct check_X; congruence.
Qed.

End SplitMore.
(** X13 at [shoes] grouped by a weight it does not have, and at an array
    with three columns grouped by its fourth. *)
Lemma unknown_group_raises_one_error_witness :
  _split_groups_and_values float_of_no_str (PdDataFrame shoes)
    [KStr "name"; KStr "weight"] "" 1 true default_options
  = Raise (ValueError (CouldNotDropGroups [KStr "name"; KStr "weight"])) /\
  _split_groups_and_values float_of_no_str (NpArray two_by_three)
    [KInt 3] "" 1 true default_options
  = Raise (ValueError (CouldNotDropGroups [KInt 3])).
Proof.
  split.
  - apply (unknown_group_raises_one_error float_of_no_str (PdDataFrame shoes)
             [KStr "name"; KStr "weight"] "" 1 true default_options
             (KStr "weight")
             (as_dtype object_ shoes) eq_refl eq_refl).
    + simpl. tauto.
    + unfold names. simpl. intuition discriminate.
  - apply (unknown_group_raises_one_error float_of_no_str (NpArray two_by_three)
             [KInt 3] "" 1 true default_options (KInt 3)
             two_by_three eq_refl eq_refl).
    + simpl. tauto.
    + intros z Hz. inversion Hz. reflexivity.
Defined.

(** X14 at an array of objects holding the integer [2^1024], validated as
    numeric. *)
Lemma split_raises_ValueError_witness :
  (exists m, OverflowError IntTooLargeForFloat = ValueError m) \/
  (true = true /\ opt_dtype default_options = dtype_numeric /\
   (OverflowError IntTooLargeForFloat = TypeError CouldNotConvertToFloat \/
    OverflowError IntTooLargeForFloat = OverflowError IntTooLargeForFloat)).
Proof.
  apply (split_raises_ValueError float_of_no_str
           (NpArray (mkArray object_ 1
                       [[Str "a"]; [Num (inject_Z (2 ^ 1024))]]))
           [KInt 0] "" 1 true default_options).
  vm_compute. reflexivity.
Defined.

(** X15 at the table [full_group], grouped by year and city. *)
Lemma split_returns_the_group_columns_witness :
  match _split_groups_and_values float_of_no_str (PdDataFrame full_group)
          [KStr "year"; KStr "city"] "" 1 false default_options with
  | Ok (X_group, X_value) =>
      names X_group = [KStr "year"; KStr "city"] /\
      X_value = values (mkDataFrame (index full_group)
                          (filter (fun s => negb (mem (s_name s)
                                                    [KStr "year"; KStr "city"]))
                             (columns full_group)))
  | Raise _ => False
  end.
Proof.
  destruct (_split_groups_and_values float_of_no_str (PdDataFrame full_group)
              [KStr "year"; KStr "city"] "" 1 false default_options)
    as [[X_group X_value]|e] eqn:E.
  - pose proof (split_returns_the_group_columns float_of_no_str _ _ _ _ _ _ _ _ E)
      as [_ [_ [Hn Hv]]].
    split; [|apply Hv; reflexivity].
    apply Hn. unfold names. simpl. explicit_list.
  - vm_compute in E. discriminate.
Defined.

(** X16 at the array [two_by_three], grouped by its last column. *)
Lemma split_keeps_rows_aligned_witness :
  match _split_groups_and_values float_of_no_str (NpArray two_by_three)
          [KInt (-1)] "" 1 true default_options with
  | Ok (X_group, X_value) =>
      Forall (fun s => length (s_values s) = 2) (columns X_group) /\
      Forall (fun c => length c = 2) (a_cols X_value)
  | Raise _ => False
  end.
Proof.
  destruct (_split_groups_and_values float_of_no_str (NpArray two_by_three)
              [KInt (-1)] "" 1 true default_options)
    as [[X_group X_value]|e] eqn:E.
  - assert (Hr : rectangular (NpArray two_by_three))
      by (repeat constructor).
    pose proof (split_keeps_rows_aligned float_of_no_str _ _ _ _ _ _ _ _ Hr E)
      as [Hg [Hv _]].
    split; assumption.
  - vm_compute in E. discriminate.
Defined.

(** X17 at the group columns of [full_group]. *)
Lemma check_grouping_columns_twice_witness :
  _check_grouping_columns float_of_no_str
    (reset_index (mkDataFrame (index full_group) (removelast (columns full_group))))
    default_options
  = Ok (reset_index (mkDataFrame (index full_group)
                       (removelast (columns full_group)))).
Proof.
  apply (check_grouping_columns_twice float_of_no_str
           (mkDataFrame (index full_group) (removelast (columns full_group)))).
  reflexivity.
Defined.

(** X18 at the array [two_by_three]: its last column as [-1] and as [2]. *)
Lemma groups_denoting_the_same_positions_witness :
  _split_groups_and_values float_of_no_str (NpArray two_by_three)
    [KInt (-1)] "" 1 true default_options
  = _split_groups_and_values float_of_no_str (NpArray two_by_three)
      [KInt 2] "" 1 true default_options.
Proof.
  apply groups_denoting_the_same_positions.
  - constructor; [|constructor]. exists (-1)%Z, 2. split; reflexivity.
  - constructor; [|constructor]. exists 2%Z, 2. split; reflexivity.
  - reflexivity.
Defined.

(** X19 at [full_group]: grouped by city and year, and by year, city and
    year again. *)
Lemma value_matrix_depends_on_the_set_of_groups_witness :
  mkArray float64 2 [[Num 1; Num 2]] = mkArray float64 2 [[Num 1; Num 2]].
Proof.
  apply (value_matrix_depends_on_the_set_of_groups float_of_no_str
           (PdDataFrame full_group)
           [KStr "city"; KStr "year"] [KStr "year"; KStr "city"; KStr "year"]
           "" "" 1 1 true default_options
           (reset_index (mkDataFrame (index full_group)
                           (removelast (columns full_group))))
           (reset_index (mkDataFrame (index full_group)
                           [mkSeries (KStr "year") int64 [Num 1; Num 2];
                            mkSeries (KStr "city") object_ [Str "a"; Str "b"];
                            mkSeries (KStr "year") int64 [Num 1; Num 2]]))).
  - reflexivity.
  - reflexivity.
  - intros g. simpl. tauto.
Defined.

(** * Inputs that are no dataframe *)

(** X20.  What the docstrings promise for an input that is no dataframe
    holds for [fit] of all three transformers and for [transform] of
    [ColumnSelector] and of a fitted [ColumnDropper]: they raise
    [TypeError], whatever the parameters are. *)
Theorem no_dataframe_raises_TypeError (X : input) :
  (forall df, X <> PdDataFrame df) ->
  (forall s, outcome (ColumnSelector.fit X s)
             = Raise (TypeError NotSupportedDataFrame)) /\
  (forall s, outcome (ColumnDropper.fit X s)
             = Raise (TypeError NotSupportedDataFrame)) /\
  (forall s, outcome (PandasTypeSelector.fit X s)
             = Raise (TypeError NotPandasDataFrame)) /\
  (forall s, outcome (ColumnSelector.transform X s)
             = Raise (TypeError NotSupportedDataFrame)) /\
  (forall s, hasattr (ColumnDropper.feature_names_ s) = true ->
             outcome (ColumnDropper.transform X s)
             = Raise (TypeError NotSupportedDataFrame)).
Proof.
  intros Hno.
  assert (Hnative : from_native X = Raise (TypeError NotSupportedDataFrame) /\
                    PandasTypeSelector._check_X_for_type X
                    = Raise (TypeError NotPandasDataFrame)).
  { destruct X as [df|a|a]; [exfalso; apply (Hno df); reflexivity| |];
      split; reflexivity. }
  destruct Hnative as [Hn Hp].
  split; [|split; [|split; [|split]]]; intros s.
  - unfold ColumnSelector.fit. run. rewrite Hn. reflexivity.
  - unfold ColumnDropper.fit. run. rewrite Hn. reflexivity.
  - unfold PandasTypeSelector.fit. run. rewrite Hp. reflexivity.
  - unfold ColumnSelector.transform. run. rewrite Hn. reflexivity.
  - intros Hf. unfold ColumnDropper.transform. run. rewrite Hf, Hn. reflexivity.
Qed.

(** X20 at the array [two_by_two]. *)
Lemma no_dataframe_raises_TypeError_witness :
  outcome (ColumnDropper.fit (NpArray two_by_two)
             (ColumnDropper.__init__ (Many [KStr "name"])))
  = Raise (TypeError NotSupportedDataFrame).
Proof.
  assert (Hno : forall df, NpArray two_by_two <> PdDataFrame df)
    by (intros df; discriminate).
  apply (proj1 (proj2 (no_dataframe_raises_TypeError (NpArray two_by_two) Hno))).
Defined.
